(** * CloudStack instance module: reconciliation engine

    A shallow embedding of [plugins/modules/instance.py]
    (class [AnsibleCloudStackInstance]) and the properties of its change
    detector and state machine.

    Python values received from the control plane are dynamically typed
    JSON documents; they are embedded as the inductive type [Value].  The
    methods of the class thread the object state ([self.instance],
    [self.template], [self.iso], [self.result], the warnings) and may leave
    through [fail_json] or through a Python exception: they are embedded in
    a state-and-error monad [M]. *)

From Stdlib Require Import ZArith String Ascii List Bool Lia DecimalString.
From stdpp Require Import base strings list gmap.
Import ListNotations.
Open Scope string_scope.
Open Scope Z_scope.
Open Scope list_scope.

(** ** JSON values and Python dictionaries *)

#[warnings="-register-all"]
Inductive Value : Type :=
| VNone
| VBool (b : bool)
| VInt (z : Z)
| VStr (s : string)
| VList (l : list Value)
| VDict (kv : list (string * Value)).

(** A dictionary keeps its insertion order, as in Python. *)
Abbreviation Dict := (list (string * Value)).

Fixpoint dget (d : Dict) (k : string) : option Value :=
  match d with
  | [] => None
  | (k', v) :: d' => if String.eqb k k' then Some v else dget d' k
  end.

Fixpoint dset (d : Dict) (k : string) (v : Value) : Dict :=
  match d with
  | [] => [(k, v)]
  | (k', v') :: d' =>
      if String.eqb k k' then (k', v) :: d' else (k', v') :: dset d' k v
  end.

(** [v.get(k)] on a record, as a total function. *)
Definition field (v : Value) (k : string) : Value :=
  match v with
  | VDict d => match dget d k with Some x => x | None => VNone end
  | _ => VNone
  end.

(** Python truthiness ([if x:], [not x], [x or y]). *)
Definition truthy (v : Value) : bool :=
  match v with
  | VNone => false
  | VBool b => b
  | VInt z => negb (z =? 0)
  | VStr s => negb (String.eqb s "")
  | VList l => match l with [] => false | _ => true end
  | VDict d => match d with [] => false | _ => true end
  end.

(** [x is None] *)
Definition is_none (v : Value) : bool :=
  match v with VNone => true | _ => false end.

(** [x or y] *)
Definition py_or (x y : Value) : Value := if truthy x then x else y.

(** Truthiness of an optional string parameter. *)
Definition given (o : option string) : bool :=
  match o with
  | Some s => negb (String.eqb s "")
  | None => false
  end.

Definition of_opt_str (o : option string) : Value :=
  match o with Some s => VStr s | None => VNone end.

Definition of_opt_int (o : option Z) : Value :=
  match o with Some z => VInt z | None => VNone end.

Definition of_opt_strs (o : option (list string)) : Value :=
  match o with Some l => VList (map VStr l) | None => VNone end.

Definition of_opt_dict (o : option Dict) : Value :=
  match o with Some d => VDict d | None => VNone end.

(** [s == v] for a string [s]: a string equals only an equal string. *)
Definition str_eq_value (s : string) (v : Value) : bool :=
  match v with
  | VStr s' => String.eqb s s'
  | _ => false
  end.

(** [s in [v1, v2, ...]] *)
Definition str_in (s : string) (vs : list Value) : bool :=
  existsb (str_eq_value s) vs.

(** [s in ["a", "b", ...]] *)
Definition str_mem (s : string) (l : list string) : bool :=
  existsb (String.eqb s) l.

(** [a == b] on JSON values; [True == 1] as in Python, and two
    dictionaries are equal when they bind the same keys to equal values. *)
Fixpoint py_eq (a b : Value) : bool :=
  match a, b with
  | VNone, VNone => true
  | VBool x, VBool y => Bool.eqb x y
  | VBool x, VInt y => (if x then 1 else 0) =? y
  | VInt x, VBool y => x =? (if y then 1 else 0)
  | VInt x, VInt y => x =? y
  | VStr x, VStr y => String.eqb x y
  | VList x, VList y =>
      (fix eq_list (l : list Value) (r : list Value) : bool :=
         match l, r with
         | [], [] => true
         | u :: l', v :: r' => py_eq u v && eq_list l' r'
         | _, _ => false
         end) x y
  | VDict x, VDict y =>
      (Nat.eqb (length x) (length y)) &&
      (fix eq_items (l : Dict) : bool :=
         match l with
         | [] => true
         | (k, u) :: l' =>
             match dget y k with
             | Some v => py_eq u v && eq_items l'
             | None => false
             end
         end) x
  | _, _ => false
  end.

(** [v in [v1, v2, ...]] *)
Definition py_in (v : Value) (vs : list Value) : bool :=
  existsb (py_eq v) vs.

(** *** [str.lower()]

    A string is the sequence of the bytes of its UTF-8 encoding.  On a
    string of ASCII characters [str.lower()] lowers the letters [A]-[Z] and
    leaves the rest; on a string with other characters it is the lowering
    of Unicode, a function of the whole string (the lowering of a sigma
    depends on its place in the word) that belongs to the Python runtime:
    it is the operation [unicode_lower] of the class [Unicode]. *)
Class Unicode : Type := {
  unicode_lower : string -> string
}.

Definition lower_ascii (c : ascii) : ascii :=
  let n := nat_of_ascii c in
  if (Nat.leb 65 n && Nat.leb n 90)%bool then ascii_of_nat (n + 32) else c.

(** The letters [A]-[Z] lowered, byte by byte. *)
Fixpoint lower_letters (s : string) : string :=
  match s with
  | EmptyString => EmptyString
  | String c s' => String (lower_ascii c) (lower_letters s')
  end.

(** The string has ASCII characters only: every byte is below 128. *)
Fixpoint ascii_only (s : string) : bool :=
  match s with
  | EmptyString => true
  | String c s' => Nat.ltb (nat_of_ascii c) 128 && ascii_only s'
  end.

Definition lower {U : Unicode} (s : string) : string :=
  if ascii_only s then lower_letters s else unicode_lower s.

(** ["%s" % z] for an integer *)
Definition str_of_Z (z : Z) : string := NilZero.string_of_int (Z.to_int z).

(** ["%s" % x] for an optional string parameter *)
Definition str_of_opt (o : option string) : string :=
  match o with Some s => s | None => "None" end.

(** [",".join(l)] *)
Fixpoint join (sep : string) (l : list string) : string :=
  match l with
  | [] => ""
  | [x] => x
  | x :: l' => x ++ sep ++ join sep l'
  end.

(** ** The module's parameters ([module.params], [module.check_mode]) *)

Record Params : Type := {
  name : option string;
  display_name : option string;
  group : option string;
  service_offering : option string;
  cpu : option Z;
  cpu_speed : option Z;
  memory : option Z;
  template : option string;
  iso : option string;
  template_filter : option string;
  networks : option (list string);
  ip_to_networks : option (list Value);
  ip_address : option string;
  ip6_address : option string;
  disk_size : option Z;
  root_disk_size : option Z;
  keyboard : option string;
  host : option string;
  cluster : option string;
  pod : option string;
  security_groups : option (list string);
  affinity_groups : option (list string);
  user_data : option string;
  user_data_name : option string;
  user_data_details : option Dict;
  ssh_keys : option (list string);
  force : bool;
  details : option Dict;
  poll_async : bool;
  allow_root_disk_shrink : bool;
  check_mode : bool;
  state : string
}.

(** ** The control plane

    The collaborators of the class that live in [module_utils.cloudstack]:
    the API transport, the job poller, the scope resolvers and the generic
    dictionary comparison.  A world [W] is the state of the control plane. *)

Definition Reply : Type := string + Value.

Class ControlPlane (W : Type) : Type := {
  (** listing queries ([list...], [get...]): answered from the world *)
  cs_list : W -> string -> Dict -> Reply;
  (** action submission: changes the world *)
  cs_invoke : W -> string -> Dict -> W * Reply;
  (** [poll_job(job, key)]: waits, the world moves on *)
  cs_poll_job : W -> Value -> string -> W * Reply;
  (** scope resolvers [get_account(key)], [get_domain(key)], ... *)
  cs_get_account : W -> string -> Reply;
  cs_get_domain : W -> string -> Reply;
  cs_get_project : W -> string -> Reply;
  cs_get_zone : W -> string -> Reply;
  cs_get_disk_offering : W -> string -> Reply;
  cs_get_os_type : W -> string -> Reply;
  cs_get_hypervisor : W -> Reply;
  (** [has_changed(want_dict, current_dict)] *)
  cs_has_changed : Dict -> Value -> bool;
  (** [repr] of a list or a dictionary, as ["%s" % v] prints it *)
  cs_repr : Value -> string;
  (** [to_text(base64.b64encode(to_bytes(s)))] *)
  cs_b64encode : string -> string;
  (** [ensure_tags(resource, "UserVm")]; the flag tells whether the tags
      had to change *)
  cs_ensure_tags : W -> Value -> W * bool * Reply
}.

(** What the module asked of the control plane, oldest first. *)
Inductive Event : Type :=
| Invoke (command : string) (args : Dict)
| PollJob (job : Value) (key : string).

(** How a method ends: a value, [fail_json(msg=...)], or an exception. *)
Inductive Outcome (A : Type) : Type :=
| Ok (a : A)
| Fail (msg : string)
| Raise (exn : string).
Arguments Ok {A} a.
Arguments Fail {A} msg.
Arguments Raise {A} exn.

Record St (W : Type) : Type := mkSt {
  world : W;
  self_instance : Value;
  self_template : Value;
  self_iso : Value;
  changed : bool;
  warnings : list string;
  calls : list Event
}.
Arguments mkSt {W}.
Arguments world {W}.
Arguments self_instance {W}.
Arguments self_template {W}.
Arguments self_iso {W}.
Arguments changed {W}.
Arguments warnings {W}.
Arguments calls {W}.

Definition M (W A : Type) : Type := St W -> Outcome A * St W.

Definition ret {W A} (a : A) : M W A := fun st => (Ok a, st).

Definition bind {W A B} (m : M W A) (k : A -> M W B) : M W B :=
  fun st =>
    match m st with
    | (Ok a, st') => k a st'
    | (Fail msg, st') => (Fail msg, st')
    | (Raise e, st') => (Raise e, st')
    end.

Notation "'let*' x ':=' c 'in' k" := (bind c (fun x => k))
  (at level 10, x pattern, c at level 100, k at level 200).

Notation "c ';;' k" := (bind c (fun _ => k))
  (at level 100, k at level 200, right associativity).

Definition fail_json {W A} (msg : string) : M W A := fun st => (Fail msg, st).
Definition raise {W A} (exn : string) : M W A := fun st => (Raise exn, st).

Definition when {W} (b : bool) (m : M W unit) : M W unit :=
  if b then m else ret tt.

(** *** Python operations on values *)

(** [v[k]] *)
Definition getitem {W} (v : Value) (k : string) : M W Value :=
  match v with
  | VDict d =>
      match dget d k with
      | Some x => ret x
      | None => raise "KeyError"
      end
  | _ => raise "TypeError"
  end.

(** [v.get(k)] *)
Definition get {W} (v : Value) (k : string) : M W Value :=
  match v with
  | VDict d =>
      match dget d k with
      | Some x => ret x
      | None => ret VNone
      end
  | _ => raise "AttributeError"
  end.

(** [k in v] for a dictionary [v] *)
Definition has_key {W} (k : string) (v : Value) : M W bool :=
  match v with
  | VDict d => ret (match dget d k with Some _ => true | None => false end)
  | _ => raise "TypeError"
  end.

(** [v[k] = x] *)
Definition setitem {W} (v : Value) (k : string) (x : Value) : M W Value :=
  match v with
  | VDict d => ret (VDict (dset d k x))
  | _ => raise "TypeError"
  end.

(** [v.lower()] *)
Definition str_lower {W} {U : Unicode} (v : Value) : M W string :=
  match v with
  | VStr s => ret (lower s)
  | _ => raise "AttributeError"
  end.

(** [v[0]] *)
Definition first {W} (v : Value) : M W Value :=
  match v with
  | VList (x :: _) => ret x
  | VList [] => raise "IndexError"
  | _ => raise "TypeError"
  end.

(** the elements a [for] loop visits *)
Definition iterate {W} (v : Value) : M W (list Value) :=
  match v with
  | VList l => ret l
  | VDict d => ret (map (fun kv => VStr (fst kv)) d)
  | VStr s => ret (map (fun c => VStr (String c EmptyString)) (list_ascii_of_string s))
  | _ => raise "TypeError"
  end.

(** ** The methods of [AnsibleCloudStackInstance] *)

Section Instance.

Context {W : Type} {cp : ControlPlane W} {U : Unicode}.
Variable p : Params.

(** *** The state of the object *)

Definition set_changed : M W unit :=
  fun st => (Ok tt, mkSt (world st) (self_instance st) (self_template st)
                         (self_iso st) true (warnings st) (calls st)).

Definition set_instance (v : Value) : M W unit :=
  fun st => (Ok tt, mkSt (world st) v (self_template st)
                         (self_iso st) (changed st) (warnings st) (calls st)).

Definition set_template (v : Value) : M W unit :=
  fun st => (Ok tt, mkSt (world st) (self_instance st) v
                         (self_iso st) (changed st) (warnings st) (calls st)).

Definition set_iso (v : Value) : M W unit :=
  fun st => (Ok tt, mkSt (world st) (self_instance st) (self_template st)
                         v (changed st) (warnings st) (calls st)).

Definition warn (msg : string) : M W unit :=
  fun st => (Ok tt, mkSt (world st) (self_instance st) (self_template st)
                         (self_iso st) (changed st) (warnings st ++ [msg])
                         (calls st)).

Definition read {A} (f : St W -> A) : M W A := fun st => (Ok (f st), st).

Definition of_reply (r : Reply) : M W Value :=
  match r with
  | inl msg => fail_json msg
  | inr v => ret v
  end.

(** *** The transport *)

(** The commands that only read: [list...] and [get...]. *)
Definition mutating (command : string) : bool :=
  negb (String.prefix "list" command || String.prefix "get" command).

(** [self.query_api(command, **args)]: a reading command is answered from
    the world as it is; any other command is recorded and moves the world.
    An error of the control plane ends the module through [fail_json]. *)
Definition query_api (command : string) (args : Dict) : M W Value :=
  fun st =>
    if mutating command then
      let (w', r) := cs_invoke (world st) command args in
      let st' := mkSt w' (self_instance st) (self_template st) (self_iso st)
                      (changed st) (warnings st)
                      (calls st ++ [Invoke command args]) in
      of_reply r st'
    else of_reply (cs_list (world st) command args) st.

(** [self.poll_job(job, key)] *)
Definition poll_job (job : Value) (key : string) : M W Value :=
  fun st =>
    let (w', r) := cs_poll_job (world st) job key in
    let st' := mkSt w' (self_instance st) (self_template st) (self_iso st)
                    (changed st) (warnings st)
                    (calls st ++ [PollJob job key]) in
    of_reply r st'.

Definition get_account (key : string) : M W Value :=
  fun st => of_reply (cs_get_account (world st) key) st.
Definition get_domain (key : string) : M W Value :=
  fun st => of_reply (cs_get_domain (world st) key) st.
Definition get_project (key : string) : M W Value :=
  fun st => of_reply (cs_get_project (world st) key) st.
Definition get_zone (key : string) : M W Value :=
  fun st => of_reply (cs_get_zone (world st) key) st.
Definition get_disk_offering (key : string) : M W Value :=
  fun st => of_reply (cs_get_disk_offering (world st) key) st.
Definition get_os_type (key : string) : M W Value :=
  fun st => of_reply (cs_get_os_type (world st) key) st.
Definition get_hypervisor : M W Value :=
  fun st => of_reply (cs_get_hypervisor (world st)) st.

(** Modelled from the spec: [get_or_fallback(key, fallback_key)] of the base
    class is not part of the module; the name falls back to the display
    name and the other way round: the first parameter when it is set (and
    not empty), the second otherwise. *)
Definition get_or_fallback (key fallback_key : option string) : option string :=
  if given key then key else fallback_key.

(** Modelled from the spec: [_get_by_key(key, my_dict)] of the base class is
    not part of the module; a resolved reference is the whole record when no
    key is asked for, else the field of that name, which must be there. *)
Definition _get_by_key (key : option string) (my_dict : Value) : M W Value :=
  match key with
  | None => ret my_dict
  | Some k =>
      if given key then
        let* has := has_key k my_dict in
        if has then getitem my_dict k
        else fail_json ("Something went wrong: " ++ k ++ " not found")
      else ret my_dict
  end.

(** The loop [for x in xs: if name in [x["name"], x["id"]]: return x["id"]]
    of the id resolvers; [None] when the loop ends without returning. *)
Fixpoint find_id (wanted : string) (xs : list Value) : M W (option Value) :=
  match xs with
  | [] => ret None
  | x :: xs' =>
      let* n := getitem x "name" in
      let* i := getitem x "id" in
      if str_in wanted [n; i] then
        let* r := getitem x "id" in ret (Some r)
      else find_id wanted xs'
  end.

(** [get_service_offering_id] (lines 474-485) *)
Definition get_service_offering_id : M W Value :=
  let* service_offerings := query_api "listServiceOfferings" [] in
  let not_found :=
    fail_json ("Service offering '" ++ str_of_opt (service_offering p)
               ++ "' not found") in
  if truthy service_offerings then
    if negb (given (service_offering p)) then
      let* l := getitem service_offerings "serviceoffering" in
      let* s := first l in
      getitem s "id"
    else
      let* l := getitem service_offerings "serviceoffering" in
      let* xs := iterate l in
      let* r := find_id (str_of_opt (service_offering p)) xs in
      match r with
      | Some i => ret i
      | None => not_found
      end
  else not_found.

(** [get_host_id] (lines 487-502) *)
Definition get_host_id : M W Value :=
  if negb (given (host p)) then ret VNone
  else
    let* z := get_zone "id" in
    let args := [("type", VStr "routing"); ("zoneid", z)] in
    let* hosts := query_api "listHosts" args in
    let not_found :=
      fail_json ("Host '" ++ str_of_opt (host p) ++ "' not found") in
    if truthy hosts then
      let* l := getitem hosts "host" in
      let* xs := iterate l in
      let* r := find_id (str_of_opt (host p)) xs in
      match r with
      | Some i => ret i
      | None => not_found
      end
    else not_found.

(** [get_cluster_id] (lines 504-516) *)
Definition get_cluster_id : M W Value :=
  if negb (given (cluster p)) then ret VNone
  else
    let* z := get_zone "id" in
    let* clusters := query_api "listClusters" [("zoneid", z)] in
    let not_found :=
      fail_json ("Cluster '" ++ str_of_opt (cluster p) ++ "' not found") in
    if truthy clusters then
      let* l := getitem clusters "cluster" in
      let* xs := iterate l in
      let* r := find_id (str_of_opt (cluster p)) xs in
      match r with
      | Some i => ret i
      | None => not_found
      end
    else not_found.

(** [get_pod_id] (lines 518-530) *)
Definition get_pod_id : M W Value :=
  if negb (given (pod p)) then ret VNone
  else
    let* z := get_zone "id" in
    let* pods := query_api "listPods" [("zoneid", z)] in
    let not_found :=
      fail_json ("Pod '" ++ str_of_opt (pod p) ++ "' not found") in
    if truthy pods then
      let* l := getitem pods "pod" in
      let* xs := iterate l in
      let* r := find_id (str_of_opt (pod p)) xs in
      match r with
      | Some i => ret i
      | None => not_found
      end
    else not_found.

(** *** [get_instance] (lines 586-612) *)

(** The body of the loop over the listed machines: [Some v] when the loop
    leaves through [break] with the normalised record [v]. *)
Fixpoint find_instance (instance_name : option string) (vs : list Value)
  : M W (option Value) :=
  match vs with
  | [] => ret None
  | v :: vs' =>
      let* n := str_lower (of_opt_str instance_name) in
      let* vn := getitem v "name" in
      let* vn := str_lower vn in
      let* vd := getitem v "displayname" in
      let* vd := str_lower vd in
      let* vi := getitem v "id" in
      if str_in n [VStr vn; VStr vd; vi] then
        let* has := has_key "keypairs" v in
        let* v := (if has then ret v else setitem v "keypairs" (VList [])) in
        let* kp := getitem v "keypairs" in
        let* v := (match kp with
                   | VList _ => ret v
                   | _ => setitem v "keypairs" (VList [kp])
                   end) in
        ret (Some v)
      else find_instance instance_name vs'
  end.

Definition get_instance (refresh : bool) : M W Value :=
  let* instance := read self_instance in
  (if negb (truthy instance) || refresh then
     let instance_name := get_or_fallback (name p) (display_name p) in
     let* a := get_account "name" in
     let* d := get_domain "id" in
     let* pr := get_project "id" in
     let args := [("account", a); ("domainid", d); ("projectid", pr);
                  ("fetch_list", VBool true)] in
     let* instances := query_api "listVirtualMachines" args in
     if truthy instances then
       let* vs := iterate instances in
       let* r := find_instance instance_name vs in
       match r with
       | Some v => set_instance v
       | None => ret tt
       end
     else ret tt
   else ret tt) ;;
  read self_instance.

(** *** The state transitions (lines 987-1095) *)

(** [recover_instance] (lines 987-993) *)
Definition recover_instance (instance : Value) : M W Value :=
  let* s := getitem instance "state" in
  let* s := str_lower s in
  if str_mem s ["destroying"; "destroyed"] then
    set_changed ;;
    if negb (check_mode p) then
      let* i := getitem instance "id" in
      let* res := query_api "recoverVirtualMachine" [("id", i)] in
      getitem res "virtualmachine"
    else ret instance
  else ret instance.

(** [absent_instance] (lines 995-1006) *)
Definition absent_instance : M W Value :=
  let* instance := get_instance false in
  if truthy instance then
    let* s := getitem instance "state" in
    let* s := str_lower s in
    if negb (str_mem s ["expunging"; "destroying"; "destroyed"]) then
      set_changed ;;
      if negb (check_mode p) then
        let* i := getitem instance "id" in
        let* res := query_api "destroyVirtualMachine" [("id", i)] in
        if poll_async p then poll_job res "virtualmachine"
        else ret instance
      else ret instance
    else ret instance
  else ret instance.

(** [expunge_instance] (lines 1008-1025) *)
Definition expunge_instance : M W Value :=
  let* instance := get_instance false in
  if truthy instance then
    let res := VDict [] in
    let* s := getitem instance "state" in
    let* s := str_lower s in
    let* res :=
      (if str_mem s ["destroying"; "destroyed"] then
         set_changed ;;
         if negb (check_mode p) then
           let* i := getitem instance "id" in
           query_api "destroyVirtualMachine"
                     [("id", i); ("expunge", VBool true)]
         else ret res
       else
         let* s := getitem instance "state" in
         let* s := str_lower s in
         if negb (str_mem s ["expunging"]) then
           set_changed ;;
           if negb (check_mode p) then
             let* i := getitem instance "id" in
             query_api "destroyVirtualMachine"
                       [("id", i); ("expunge", VBool true)]
           else ret res
         else ret res) in
    (if poll_async p then
       let* _ := poll_job res "virtualmachine" in ret tt
     else ret tt) ;;
    ret instance
  else ret instance.

(** [stop_instance] (lines 1027-1042) *)
Definition stop_instance : M W Value :=
  let* instance := get_instance false in
  if truthy instance then
    let* s := getitem instance "state" in
    let* s := str_lower s in
    if str_mem s ["stopping"; "stopped"] then ret instance
    else
      let* s := getitem instance "state" in
      let* s := str_lower s in
      if str_mem s ["starting"; "running"] then
        set_changed ;;
        if negb (check_mode p) then
          let* i := getitem instance "id" in
          let* instance := query_api "stopVirtualMachine" [("id", i)] in
          if poll_async p then poll_job instance "virtualmachine"
          else ret instance
        else ret instance
      else ret instance
  else ret instance.

(** [start_instance] (lines 1044-1063) *)
Definition start_instance : M W Value :=
  let* instance := get_instance false in
  if truthy instance then
    let* s := getitem instance "state" in
    let* s := str_lower s in
    if str_mem s ["starting"; "running"] then ret instance
    else
      let* s := getitem instance "state" in
      let* s := str_lower s in
      if str_mem s ["stopped"; "stopping"] then
        set_changed ;;
        if negb (check_mode p) then
          let* i := getitem instance "id" in
          let* h := get_host_id in
          let args := [("id", i); ("hostid", h)] in
          let* instance := query_api "startVirtualMachine" args in
          if poll_async p then poll_job instance "virtualmachine"
          else ret instance
        else ret instance
      else ret instance
  else ret instance.

(** [restart_instance] (lines 1065-1080) *)
Definition restart_instance : M W Value :=
  let* instance := get_instance false in
  if truthy instance then
    let* s := getitem instance "state" in
    let* s := str_lower s in
    if str_mem s ["running"; "starting"] then
      set_changed ;;
      if negb (check_mode p) then
        let* i := getitem instance "id" in
        let* instance := query_api "rebootVirtualMachine" [("id", i)] in
        if poll_async p then poll_job instance "virtualmachine"
        else ret instance
      else ret instance
    else
      let* s := getitem instance "state" in
      let* s := str_lower s in
      if str_mem s ["stopping"; "stopped"] then start_instance
      else ret instance
  else ret instance.


(** ["%s" % v] *)
Definition py_str (v : Value) : string :=
  match v with
  | VStr s => s
  | VInt z => str_of_Z z
  | VNone => "None"
  | VBool true => "True"
  | VBool false => "False"
  | _ => cs_repr v
  end.

(** an integer operand of [>] or [>>] *)
Definition as_int (v : Value) : M W Z :=
  match v with
  | VInt z => ret z
  | VBool b => ret (if b then 1 else 0)
  | _ => raise "TypeError"
  end.

(** *** [get_template_or_iso] (lines 532-584) *)

(** The loop over the listed templates; [Some t] when it returns from the
    method with the template [t]. *)
Fixpoint find_template (wanted : string) (rootdisksize : option Z)
    (ts : list Value) : M W (option Value) :=
  match ts with
  | [] => ret None
  | t :: ts' =>
      let* d := get t "displaytext" in
      let* n := getitem t "name" in
      let* i := getitem t "id" in
      if str_in wanted [d; n; i] then
        let* too_big :=
          (match rootdisksize with
           | Some r =>
               if negb (r =? 0) then
                 let* sz := getitem t "size" in
                 let* sz := as_int sz in
                 ret (sz >? r * 1024 ^ 3)
               else ret false
           | None => ret false
           end) in
        if too_big then find_template wanted rootdisksize ts'
        else ret (Some t)
      else find_template wanted rootdisksize ts'
  end.

(** The loop over the listed ISOs. *)
Fixpoint find_iso (wanted : string) (isos : list Value) : M W (option Value) :=
  match isos with
  | [] => ret None
  | i :: isos' =>
      let* d := getitem i "displaytext" in
      let* n := getitem i "name" in
      let* id := getitem i "id" in
      if str_in wanted [d; n; id] then ret (Some i)
      else find_iso wanted isos'
  end.

Definition get_template_or_iso (key : option string) : M W Value :=
  if negb (given (template p)) && negb (given (iso p)) then ret VNone
  else
    let* a := get_account "name" in
    let* d := get_domain "id" in
    let* pr := get_project "id" in
    let* z := get_zone "id" in
    let args := [("account", a); ("domainid", d); ("projectid", pr);
                 ("zoneid", z); ("isrecursive", VBool true);
                 ("fetch_list", VBool true)] in
    if given (template p) then
      let* memo := read self_template in
      if truthy memo then _get_by_key key memo
      else
        let rootdisksize := root_disk_size p in
        let args := dset args "templatefilter" (of_opt_str (template_filter p)) in
        let args := dset args "fetch_list" (VBool true) in
        let* templates := query_api "listTemplates" args in
        let* found :=
          (if truthy templates then
             let* ts := iterate templates in
             find_template (str_of_opt (template p)) rootdisksize ts
           else ret None) in
        match found with
        | Some t => set_template t ;; _get_by_key key t
        | None =>
            let more_info :=
              match rootdisksize with
              | Some r =>
                  if negb (r =? 0)
                  then (" (with size <= " ++ str_of_Z r ++ ")")%string
                  else ""
              | None => ""
              end in
            fail_json ("Template '" ++ str_of_opt (template p)
                       ++ "' not found" ++ more_info)
        end
    else
      (* [elif iso:] holds here, as one of the two is given *)
      let* memo := read self_iso in
      if truthy memo then _get_by_key key memo
      else
        let args := dset args "isofilter" (of_opt_str (template_filter p)) in
        let args := dset args "fetch_list" (VBool true) in
        let* isos := query_api "listIsos" args in
        let* found :=
          (if truthy isos then
             let* l := iterate isos in
             find_iso (str_of_opt (iso p)) l
           else ret None) in
        match found with
        | Some i => set_iso i ;; _get_by_key key i
        | None => fail_json ("ISO '" ++ str_of_opt (iso p) ++ "' not found")
        end.

(** *** User data (lines 614-645, 770-774) *)

Definition get_user_data : Value :=
  match user_data p with
  | Some s => VStr (cs_b64encode s)
  | None => VNone
  end.

Definition get_user_data_id_by_name : M W Value :=
  if negb (given (user_data_name p)) then ret VNone
  else
    let* a := get_account "name" in
    let* d := get_domain "id" in
    let* pr := get_project "id" in
    let args := [("account", a); ("domainid", d); ("projectid", pr);
                 ("listall", VBool true)] in
    let* user_data_list := query_api "listUserData" args in
    let not_found :=
      fail_json ("User data '" ++ py_str user_data_list ++ "' not found") in
    if truthy user_data_list then
      let* l := get user_data_list "userdata" in
      let* xs := iterate (py_or l (VList [])) in
      let* r := find_id (str_of_opt (user_data_name p)) xs in
      match r with
      | Some i => ret i
      | None => not_found
      end
    else not_found.

Definition _get_instance_user_data (instance : Value) : M W Value :=
  let* has := has_key "userdata" instance in
  if has then getitem instance "userdata"
  else
    let* i := (match get_user_data with
               | VNone => ret VNone
               | _ => get instance "id"
               end) in
    if truthy i then
      let* i := getitem instance "id" in
      let* res := query_api "getVirtualMachineUserData"
                            [("virtualmachineid", i)] in
      let* u := getitem res "virtualmachineuserdata" in
      let* ud := get u "userdata" in
      let* has := has_key "userdata" u in
      ret (if has then ud else VStr "")
    else ret (VStr "").

(** *** SSH keys (lines 662-698) *)

(** [get_ssh_keypair(name, key, fail_on_missing)]; without a key pair of
    that name and with [fail_on_missing=False] the method returns [None]. *)
Definition get_ssh_keypair (key : option string) (name : Value)
    (fail_on_missing : bool) : M W Value :=
  let* d := get_domain "id" in
  let* a := get_account "name" in
  let* pr := get_project "id" in
  let args := [("domainid", d); ("account", a); ("projectid", pr);
               ("name", name)] in
  let* ssh_key_pairs := query_api "listSSHKeyPairs" args in
  let* has := has_key "sshkeypair" ssh_key_pairs in
  if has then
    let* l := getitem ssh_key_pairs "sshkeypair" in
    let* k := first l in
    _get_by_key key k
  else if fail_on_missing then
    fail_json ("SSH key not found: " ++ py_str name)
  else ret VNone.

(** [[f(x) for x in xs]] *)
Fixpoint map_m {A B} (f : A -> M W B) (xs : list A) : M W (list B) :=
  match xs with
  | [] => ret []
  | x :: xs' =>
      let* y := f x in
      let* ys := map_m f xs' in
      ret (y :: ys)
  end.

(** The loop over the keys of the instance; [true] when it returns [True],
    [false] when it runs to its end. *)
Fixpoint ssh_keys_loop (ssh_keys : list string)
    (param_ssh_key_fingerprints : list Value)
    (instance_ssh_keys : list Value) : M W bool :=
  match instance_ssh_keys with
  | [] => ret false
  | instance_ssh_key :: rest =>
      match ssh_keys with
      | [] => ret true
      | _ =>
          let* instance_ssh_key_fingerprint :=
            get_ssh_keypair (Some "fingerprint") instance_ssh_key false in
          if negb (truthy instance_ssh_key_fingerprint) then ret true
          else if negb (py_in instance_ssh_key_fingerprint
                              param_ssh_key_fingerprints)
          then ret true
          else ssh_keys_loop ssh_keys param_ssh_key_fingerprints rest
      end
  end.

Definition ssh_keys_changed : M W bool :=
  match ssh_keys p with
  | None => ret false
  | Some ssh_keys =>
      let* instance := read self_instance in
      let* kps := get instance "keypairs" in
      let* instance_ssh_keys :=
        (if truthy kps then ret kps
         else
           let* kp := get instance "keypair" in
           ret (VList [py_or kp (VStr "")])) in
      let* param_ssh_key_fingerprints :=
        map_m (fun ssh_key =>
                 get_ssh_keypair (Some "fingerprint") (VStr ssh_key) true)
              ssh_keys in
      let* keys := iterate instance_ssh_keys in
      ssh_keys_loop ssh_keys param_ssh_key_fingerprints keys
  end.

(** *** Security groups (lines 700-718) *)

(** The first loop: [None] when it returns [True], else the lower-cased
    names of the groups of the instance, in order. *)
Fixpoint security_groups_loop (security_groups : list string)
    (instance_security_groups : list Value)
    (instance_security_group_names : list string)
  : M W (option (list string)) :=
  match instance_security_groups with
  | [] => ret (Some instance_security_group_names)
  | instance_security_group :: rest =>
      let* n := getitem instance_security_group "name" in
      let* n := str_lower n in
      if negb (str_mem n security_groups) then ret None
      else
        let* n := getitem instance_security_group "name" in
        let* n := str_lower n in
        security_groups_loop security_groups rest
                             (instance_security_group_names ++ [n])
  end.

Definition security_groups_changed : M W bool :=
  match security_groups p with
  | None => ret false
  | Some security_groups =>
      let security_groups := map lower security_groups in
      let* instance := read self_instance in
      let* sgs := get instance "securitygroup" in
      let* instance_security_groups := iterate (py_or sgs (VList [])) in
      let* r := security_groups_loop security_groups
                                     instance_security_groups [] in
      match r with
      | None => ret true
      | Some instance_security_group_names =>
          ret (existsb
                 (fun security_group =>
                    negb (str_mem security_group instance_security_group_names))
                 security_groups)
      end
  end.

(** *** Networks (lines 647-660, 720-750) *)

(** The inner loop over the listed networks: the id and the name of the
    first network that [network_name] names. *)
Fixpoint find_network (network_name : Value) (ns : list Value)
  : M W (option (Value * Value)) :=
  match ns with
  | [] => ret None
  | n :: ns' =>
      let* d := getitem n "displaytext" in
      let* nm := getitem n "name" in
      let* i := getitem n "id" in
      if py_in network_name [d; nm; i] then
        let* i := getitem n "id" in
        let* nm := getitem n "name" in
        ret (Some (i, nm))
      else find_network network_name ns'
  end.

(** The outer loop: the ids and the names found, in order. *)
Fixpoint find_networks (network_names : list Value) (ns : list Value)
  : M W (list Value * list Value) :=
  match network_names with
  | [] => ret ([], [])
  | network_name :: rest =>
      let* r := find_network network_name ns in
      let* found := find_networks rest ns in
      match r with
      | Some (i, nm) => ret (i :: fst found, nm :: snd found)
      | None => ret found
      end
  end.

(** [get_network_ids(network_names)]; [None] stands for the parameter that
    is left out. *)
Definition get_network_ids (network_names : option (list Value)) : M W Value :=
  let network_names :=
    match network_names with
    | Some l => Some l
    | None => option_map (map VStr) (networks p)
    end in
  match network_names with
  | None | Some [] => ret VNone
  | Some network_names =>
      let* a := get_account "name" in
      let* d := get_domain "id" in
      let* pr := get_project "id" in
      let* z := get_zone "id" in
      let args := [("account", a); ("domainid", d); ("projectid", pr);
                   ("zoneid", z); ("fetch_list", VBool true)] in
      let* nets := query_api "listNetworks" args in
      if negb (truthy nets) then fail_json "No networks available"
      else
        let* ns := iterate nets in
        let* found := find_networks network_names ns in
        let network_ids := fst found in
        let network_displaytexts := snd found in
        if negb (Nat.eqb (length network_ids) (length network_names)) then
          fail_json ("Could not find all networks, networks list found: "
                     ++ py_str (VList network_displaytexts))
        else ret (VList network_ids)
  end.

(** [dict(networkid=i, **data)] *)
Definition with_networkid (i : Value) (data : Value) : M W Value :=
  match data with
  | VDict d =>
      match dget d "networkid" with
      | Some _ => raise "TypeError"
      | None => ret (VDict (("networkid", i) :: d))
      end
  | _ => raise "TypeError"
  end.

(** [for i, data in enumerate(network_mappings): res.append(...)] *)
Fixpoint zip_networkids (ids : list Value) (network_mappings : list Value)
  {struct network_mappings} : M W (list Value) :=
  match network_mappings with
  | [] => ret []
  | data :: rest =>
      match ids with
      | [] => raise "IndexError"
      | i :: ids' =>
          let* x := with_networkid i data in
          let* xs := zip_networkids ids' rest in
          ret (x :: xs)
      end
  end.

Definition get_iptonetwork_mappings : M W Value :=
  match ip_to_networks p with
  | None => ret VNone
  | Some network_mappings =>
      (if truthy (VList network_mappings) && truthy (of_opt_strs (networks p))
       then fail_json "networks and ip_to_networks are mutually exclusive."
       else ret tt) ;;
      let* network_names :=
        map_m (fun n => getitem n "network") network_mappings in
      let* ids := get_network_ids (Some network_names) in
      let* res :=
        (match network_mappings with
         | [] => ret []
         | _ =>
             let* ids := iterate ids in
             zip_networkids ids network_mappings
         end) in
      ret (VList res)
  end.

(** *** Deployment (lines 776-848) *)

Definition get_details : Value :=
  let any_given :=
    truthy (of_opt_int (cpu p)) || truthy (of_opt_int (cpu_speed p))
    || truthy (of_opt_int (memory p)) in
  if any_given then
    let details := default [] (details p) in
    let details :=
      if truthy (of_opt_int (cpu p))
      then dset details "cpuNumber" (of_opt_int (cpu p)) else details in
    let details :=
      if truthy (of_opt_int (cpu_speed p))
      then dset details "cpuSpeed" (of_opt_int (cpu_speed p)) else details in
    let details :=
      if truthy (of_opt_int (memory p))
      then dset details "memory" (of_opt_int (memory p)) else details in
    VDict details
  else of_opt_dict (details p).

(** [",".join(v)] for a list [v] of strings *)
Definition join_value (v : Value) : M W Value :=
  let* xs := iterate v in
  let* ss := map_m (fun x => match x with
                             | VStr s => ret s
                             | _ => raise "TypeError"
                             end) xs in
  ret (VStr (join "," ss)).

Definition deploy_instance (start_vm : bool) : M W Value :=
  set_changed ;;
  let* networkids := get_network_ids None in
  let* networkids := (match networkids with
                      | VNone => ret VNone
                      | _ => join_value networkids
                      end) in
  let* templateid := get_template_or_iso (Some "id") in
  (if negb (truthy templateid) then fail_json "Template or ISO is required."
   else ret tt) ;;
  let* zoneid := get_zone "id" in
  let* serviceofferingid := get_service_offering_id in
  let* account := get_account "name" in
  let* domainid := get_domain "id" in
  let* projectid := get_project "id" in
  let* diskofferingid := get_disk_offering "id" in
  let* iptonetworklist := get_iptonetwork_mappings in
  let userdata := get_user_data in
  let* userdataid := get_user_data_id_by_name in
  let details := get_details in
  let* hostid := get_host_id in
  let* clusterid := get_cluster_id in
  let* podid := get_pod_id in
  let args :=
    [("templateid", templateid); ("zoneid", zoneid);
     ("serviceofferingid", serviceofferingid); ("account", account);
     ("domainid", domainid); ("projectid", projectid);
     ("diskofferingid", diskofferingid); ("networkids", networkids);
     ("iptonetworklist", iptonetworklist); ("userdata", userdata);
     ("userdataid", userdataid);
     ("userdatadetails", of_opt_dict (user_data_details p));
     ("keyboard", of_opt_str (keyboard p));
     ("ipaddress", of_opt_str (ip_address p));
     ("ip6address", of_opt_str (ip6_address p));
     ("name", of_opt_str (name p));
     ("displayname",
      of_opt_str (get_or_fallback (display_name p) (name p)));
     ("group", of_opt_str (group p));
     ("keypairs", of_opt_strs (ssh_keys p));
     ("size", of_opt_int (disk_size p));
     ("startvm", VBool start_vm);
     ("rootdisksize", of_opt_int (root_disk_size p));
     ("affinitygroupnames", of_opt_strs (affinity_groups p));
     ("details", details);
     ("securitygroupnames", of_opt_strs (security_groups p));
     ("hostid", hostid); ("clusterid", clusterid); ("podid", podid)] in
  let* template_iso := get_template_or_iso None in
  let* args :=
    (if truthy template_iso then
       let* has := has_key "hypervisor" template_iso in
       if negb has then
         let* h := get_hypervisor in ret (dset args "hypervisor" h)
       else ret args
     else ret args) in
  if negb (check_mode p) then
    let* instance := query_api "deployVirtualMachine" args in
    if poll_async p then poll_job instance "virtualmachine"
    else ret instance
  else ret VNone.

(** *** [update_instance] (lines 850-985) *)

(** The ROOT volume axis (lines 881-905): the arguments prepared for
    [resizeVolume] and whether the size has to change. *)
Definition root_disk_size_axis (instance : Value) : M W (Dict * bool) :=
  let args_volume_update := [] in
  match root_disk_size p with
  | None => ret (args_volume_update, false)
  | Some root_disk_size =>
      let* i := getitem instance "id" in
      let* a := get instance "account" in
      let* d := get instance "domainid" in
      let* pr := get instance "projectid" in
      let args := [("type", VStr "ROOT"); ("virtualmachineid", i);
                   ("account", a); ("domainid", d); ("projectid", pr)] in
      let* res := query_api "listVolumes" args in
      let* vols := getitem res "volume" in
      let* vols := iterate vols in
      match vols with
      | [volume] =>
          let* sz := getitem volume "size" in
          let* sz := as_int sz in
          let size := Z.shiftr sz 30 in
          let* vid := getitem volume "id" in
          let args_volume_update := dset args_volume_update "id" vid in
          let args_volume_update :=
            dset args_volume_update "size" (VInt root_disk_size) in
          let shrinkok := allow_root_disk_shrink p in
          let args_volume_update :=
            if shrinkok
            then dset args_volume_update "shrinkok" (VBool shrinkok)
            else args_volume_update in
          ret (args_volume_update, negb (root_disk_size =? size))
      | _ => raise "ValueError"
      end
  end.

(** What the change detector hands over to the reconciler: the five axes
    and the arguments prepared for the calls. *)
Record Changes : Type := {
  c_service_offering : bool;
  c_instance : bool;
  c_security_groups : bool;
  c_ssh_keys : bool;
  c_root_disk_size : bool;
  args_service_offering : Dict;
  args_instance_update : Dict;
  args_volume_update : Dict
}.

(** [any(changed)] *)
Definition any_changed (c : Changes) : bool :=
  c_service_offering c || c_instance c || c_security_groups c
  || c_ssh_keys c || c_root_disk_size c.

(** Lines 851-913.  The assignment [instance["userdata"] = ...] updates the
    record in place; of the record shared with [self.instance] the later
    steps read the state, the id, the name, the key pairs and the security
    groups only, so the update is kept on the local record. *)
Definition detect_changes (instance : Value) : M W (Changes * Value) :=
  let* i := getitem instance "id" in
  let args_so := [("id", i)] in
  let* args_so :=
    (if given (service_offering p) then
       let* so := get_service_offering_id in
       ret (dset args_so "serviceofferingid" so)
     else ret args_so) in
  let service_offering_changed := cs_has_changed args_so instance in
  let* r :=
    (match user_data_name p with
     | Some _ =>
         let* i := getitem instance "id" in
         let* u := get_user_data_id_by_name in
         ret ([("id", i); ("userdataid", u)], instance)
     | None =>
         let* i := getitem instance "id" in
         let args := [("id", i); ("userdata", get_user_data)] in
         let* u := _get_instance_user_data instance in
         let* instance := setitem instance "userdata" u in
         ret (args, instance)
     end) in
  let args_upd := fst r in
  let instance := snd r in
  let args_upd :=
    if truthy (of_opt_dict (user_data_details p))
    then dset args_upd "userdatadetails" (of_opt_dict (user_data_details p))
    else args_upd in
  let* os := get_os_type "id" in
  let args_upd := dset args_upd "ostypeid" os in
  let args_upd :=
    if given (group p) then dset args_upd "group" (of_opt_str (group p))
    else args_upd in
  let args_upd :=
    if given (display_name p)
    then dset args_upd "displayname" (of_opt_str (display_name p))
    else args_upd in
  let instance_changed := cs_has_changed args_upd instance in
  let* ssh := ssh_keys_changed in
  let* sg := security_groups_changed in
  let* rd := root_disk_size_axis instance in
  ret ({| c_service_offering := service_offering_changed;
          c_instance := instance_changed;
          c_security_groups := sg;
          c_ssh_keys := ssh;
          c_root_disk_size := snd rd;
          args_service_offering := args_so;
          args_instance_update := args_upd;
          args_volume_update := fst rd |}, instance).

(** The four blocks of lines 927-956, named after their comments. *)

(** [# Change service offering] (lines 927-931) *)
Definition change_service_offering (c : Changes) (instance : Value)
  : M W Value :=
  if c_service_offering c then
    let* res := query_api "changeServiceForVirtualMachine"
                          (args_service_offering c) in
    let* instance := getitem res "virtualmachine" in
    set_instance instance ;;
    ret instance
  else ret instance.

(** [# Update VM] (lines 933-939) *)
Definition update_vm (c : Changes) (instance : Value) : M W Value :=
  if c_instance c || c_security_groups c then
    let* args :=
      (if c_security_groups c then
         match security_groups p with
         | Some l =>
             ret (dset (args_instance_update c) "securitygroupnames"
                       (VStr (join "," l)))
         | None => raise "TypeError"
         end
       else ret (args_instance_update c)) in
    let* res := query_api "updateVirtualMachine" args in
    let* instance := getitem res "virtualmachine" in
    set_instance instance ;;
    ret instance
  else ret instance.

(** [# Reset SSH key] (lines 941-951) *)
Definition reset_ssh_key (c : Changes) (instance : Value) : M W Value :=
  if c_ssh_keys c then
    let* i := getitem instance "id" in
    let* pr := get_project "id" in
    let args_ssh_key :=
      [("id", i); ("projectid", pr);
       ("keypairs", of_opt_strs (ssh_keys p))] in
    let* instance := query_api "resetSSHKeyForVirtualMachine" args_ssh_key in
    let* instance := poll_job instance "virtualmachine" in
    set_instance instance ;;
    ret instance
  else ret instance.

(** [# Root disk size] (lines 953-956) *)
Definition resize_root_disk (c : Changes) : M W unit :=
  if c_root_disk_size c then
    let* async_result := query_api "resizeVolume" (args_volume_update c) in
    let* _ := poll_job async_result "volume" in
    ret tt
  else ret tt.

(** Lines 915-964: applying the changes, or warning that they are not
    applied. *)
Definition apply_changes (c : Changes) (instance : Value) (start_vm : bool)
  : M W Value :=
  if any_changed c then
    let* s := getitem instance "state" in
    let* instance_state := str_lower s in
    if String.eqb instance_state "stopped" || force p then
      set_changed ;;
      if negb (check_mode p) then
        (* Ensure VM has stopped *)
        let* instance := stop_instance in
        let* instance := poll_job instance "virtualmachine" in
        set_instance instance ;;
        let* instance := change_service_offering c instance in
        let* instance := update_vm c instance in
        let* instance := reset_ssh_key c instance in
        resize_root_disk c ;;
        (* Start VM again if it was running before *)
        if String.eqb instance_state "running" && start_vm
        then start_instance
        else ret instance
      else ret instance
    else
      let* n := getitem instance "name" in
      warn ("Changes won't be applied to running instances. "
            ++ "Use force=true to allow the instance " ++ py_str n
            ++ " to be stopped/started.") ;;
      ret instance
  else ret instance.

(** Lines 966-985: migration to another host. *)
Definition migrate_host (instance : Value) : M W Value :=
  let* s := getitem instance "state" in
  let* s := str_lower s in
  let* hn := get instance "hostname" in
  let* hn2 := get instance "hostname" in
  let host_changed :=
    str_mem s ["starting"; "running"]
    && negb (is_none hn)
    && negb (is_none (of_opt_str (host p)))
    && negb (py_eq (of_opt_str (host p)) hn2) in
  if host_changed then
    set_changed ;;
    let* i := getitem instance "id" in
    let* h := get_host_id in
    let args_host := [("virtualmachineid", i); ("hostid", h)] in
    if negb (check_mode p) then
      let* res := query_api "migrateVirtualMachine" args_host in
      poll_job res "virtualmachine"
    else ret instance
  else ret instance.

Definition update_instance (instance : Value) (start_vm : bool) : M W Value :=
  let* r := detect_changes instance in
  let* instance := apply_changes (fst r) (snd r) start_vm in
  migrate_host instance.

(** *** [present_instance], [restore_instance] and the dispatch of [main] *)

Definition ensure_tags (resource : Value) : M W Value :=
  fun st =>
    let '(w', ch, r) := cs_ensure_tags (world st) resource in
    let st' := mkSt w' (self_instance st) (self_template st) (self_iso st)
                    (changed st || ch) (warnings st) (calls st) in
    of_reply r st'.

(** [present_instance] (lines 752-768) *)
Definition present_instance (start_vm : bool) : M W Value :=
  let* instance := get_instance false in
  let* instance :=
    (if negb (truthy instance) then deploy_instance start_vm
     else
       let* instance := recover_instance instance in
       update_instance instance start_vm) in
  if truthy instance then
    let* instance := get_instance true in
    let* instance := ensure_tags instance in
    set_instance instance ;;
    ret instance
  else ret instance.

(** [restore_instance] (lines 1082-1095) *)
Definition restore_instance : M W Value :=
  let* instance := get_instance false in
  set_changed ;;
  if truthy instance then
    let* t := get_template_or_iso (Some "id") in
    let* i := getitem instance "id" in
    let args := [("templateid", t); ("virtualmachineid", i)] in
    let* res := query_api "restoreVirtualMachine" args in
    if poll_async p then poll_job res "virtualmachine"
    else ret instance
  else ret instance.

(** The dispatch on the target state and the check of the final state
    (lines 1184-1212 of [main]). *)
Definition main : M W Value :=
  let st := state p in
  let* instance :=
    (if str_mem st ["absent"; "destroyed"] then absent_instance
     else if str_mem st ["expunged"] then expunge_instance
     else if str_mem st ["restored"] then
       let* _ := present_instance true in restore_instance
     else if str_mem st ["present"; "deployed"] then present_instance true
     else if str_mem st ["stopped"] then
       let* _ := present_instance false in stop_instance
     else if str_mem st ["started"] then
       let* _ := present_instance true in start_instance
     else if str_mem st ["restarted"] then
       let* _ := present_instance true in restart_instance
     else raise "UnboundLocalError") in
  (if truthy instance then
     let* has := has_key "state" instance in
     if has then
       let* s := getitem instance "state" in
       let* s := str_lower s in
       if String.eqb s "error" then
         fail_json ("Instance named '" ++ str_of_opt (name p)
                    ++ "' in error state.")
       else ret tt
     else ret tt
   else ret tt) ;;
  ret instance.

(** *** The result (lines 1097-1119) *)

(** [[x["name"] for x in v]], as the two loops of lines 1103-1110 build
    their lists. *)
Definition names_of (v : Value) : M W Value :=
  let* xs := iterate v in
  let* names := map_m (fun x => getitem x "name") xs in
  ret (VList names).

(** The loop over the network interfaces (lines 1113-1118). *)
Fixpoint default_nic_loop (nics : list Value) (result : Dict) : M W Dict :=
  match nics with
  | [] => ret result
  | nic :: rest =>
      let* isdefault := getitem nic "isdefault" in
      if truthy isdefault then
        let* has := has_key "ipaddress" nic in
        let* result :=
          (if has then
             let* ip := getitem nic "ipaddress" in
             ret (dset result "default_ip" ip)
           else ret result) in
        let* has := has_key "ip6address" nic in
        let* result :=
          (if has then
             let* ip := getitem nic "ip6address" in
             ret (dset result "default_ip6" ip)
           else ret result) in
        default_nic_loop rest result
      else default_nic_loop rest result
  end.

(** [get_result(resource)]: the instance is read again, whatever the
    argument.  The projection of the base class, which fills [self.result]
    from the resource and is not part of the module, is the argument
    [super_get_result]; the method returns [self.result]. *)
Definition get_result (super_get_result : Value -> Dict) : M W Dict :=
  let* resource := get_instance true in
  let result := super_get_result resource in
  if truthy resource then
    let* user_data := _get_instance_user_data resource in
    let result := dset result "user_data" user_data in
    let* has := has_key "securitygroup" resource in
    let* result :=
      (if has then
         let* sgs := getitem resource "securitygroup" in
         let* security_groups := names_of sgs in
         ret (dset result "security_groups" security_groups)
       else ret result) in
    let* has := has_key "affinitygroup" resource in
    let* result :=
      (if has then
         let* ags := getitem resource "affinitygroup" in
         let* affinity_groups := names_of ags in
         ret (dset result "affinity_groups" affinity_groups)
       else ret result) in
    let* has := has_key "nic" resource in
    if has then
      let* nics := getitem resource "nic" in
      let* nics := iterate nics in
      default_nic_loop nics result
    else ret result
  else ret result.

End Instance.

(** ** A scripted control plane

    A small control plane to run the module on examples: the world is a
    script that answers every listing, action and job by a fixed reply;
    a wanted value has changed when it is given and differs from the
    field of the record. *)

Record Script : Type := {
  listing : string -> Dict -> Reply;
  action : string -> Dict -> Reply;
  job : Value -> string -> Reply
}.

#[export] Instance scripted : ControlPlane Script := {|
  cs_list w c a := listing w c a;
  cs_invoke w c a := (w, action w c a);
  cs_poll_job w j k := (w, job w j k);
  cs_get_account _ _ := inr VNone;
  cs_get_domain _ _ := inr VNone;
  cs_get_project _ _ := inr VNone;
  cs_get_zone _ _ := inr (VStr "zone-1");
  cs_get_disk_offering _ _ := inr VNone;
  cs_get_os_type _ _ := inr VNone;
  cs_get_hypervisor _ := inr (VStr "KVM");
  cs_has_changed want cur :=
    existsb (fun kv => negb (is_none (snd kv))
                       && negb (py_eq (snd kv) (field cur (fst kv)))) want;
  cs_repr _ := "...";
  cs_b64encode s := s;
  cs_ensure_tags w r := (w, false, inr r)
|}.

(** The runtime of the examples lowers, besides the ASCII letters, the
    capital letters of the Latin-1 supplement (U+00C0 to U+00DE, but for
    the multiplication sign), which UTF-8 encodes in two bytes, the first
    being 195. *)
Fixpoint latin1_lower (s : string) : string :=
  match s with
  | EmptyString => EmptyString
  | String c s' =>
      match s' with
      | String c' s'' =>
          let n := nat_of_ascii c' in
          if (Nat.eqb (nat_of_ascii c) 195 && Nat.leb 128 n && Nat.leb n 158
              && negb (Nat.eqb n 151))%bool
          then String c (String (ascii_of_nat (n + 32)) (latin1_lower s''))
          else String (lower_ascii c) (latin1_lower s')
      | EmptyString => String (lower_ascii c) EmptyString
      end
  end.

Definition script_unicode : Unicode := {| unicode_lower := latin1_lower |}.

(** The parameters as [AnsibleModule] builds them from the arguments of a
    task and the [argument_spec] of [main] (lines 1123-1169), with its
    defaults; [check] is the check mode of the run. *)
Definition arg_str (args : Dict) (k : string) : option string :=
  match dget args k with Some (VStr s) => Some s | _ => None end.

Definition arg_int (args : Dict) (k : string) : option Z :=
  match dget args k with Some (VInt z) => Some z | _ => None end.

Definition arg_bool (args : Dict) (k : string) (dflt : bool) : bool :=
  match dget args k with Some (VBool b) => b | _ => dflt end.

Definition arg_list (args : Dict) (k : string) : option (list Value) :=
  match dget args k with Some (VList l) => Some l | _ => None end.

Definition arg_strs (args : Dict) (k : string) : option (list string) :=
  option_map
    (fun l => omap (fun v => match v with VStr s => Some s | _ => None end) l)
    (arg_list args k).

Definition arg_dict (args : Dict) (k : string) : option Dict :=
  match dget args k with Some (VDict d) => Some d | _ => None end.

Definition module_params (args : Dict) (check : bool) : Params := {|
  name := arg_str args "name";
  display_name := arg_str args "display_name";
  group := arg_str args "group";
  service_offering := arg_str args "service_offering";
  cpu := arg_int args "cpu";
  cpu_speed := arg_int args "cpu_speed";
  memory := arg_int args "memory";
  template := arg_str args "template";
  iso := arg_str args "iso";
  template_filter := Some (default "executable" (arg_str args "template_filter"));
  networks := arg_strs args "networks";
  ip_to_networks := arg_list args "ip_to_networks";
  ip_address := arg_str args "ip_address";
  ip6_address := arg_str args "ip6_address";
  disk_size := arg_int args "disk_size";
  root_disk_size := arg_int args "root_disk_size";
  keyboard := arg_str args "keyboard";
  host := arg_str args "host";
  cluster := arg_str args "cluster";
  pod := arg_str args "pod";
  security_groups := arg_strs args "security_groups";
  affinity_groups := arg_strs args "affinity_groups";
  user_data := arg_str args "user_data";
  user_data_name := arg_str args "user_data_name";
  user_data_details := arg_dict args "user_data_details";
  ssh_keys := arg_strs args "ssh_keys";
  force := arg_bool args "force" false;
  details := arg_dict args "details";
  poll_async := arg_bool args "poll_async" true;
  allow_root_disk_shrink := arg_bool args "allow_root_disk_shrink" false;
  check_mode := check;
  state := default "present" (arg_str args "state")
|}.

(** A task on the instance [web-vm-1] with further arguments. *)
Definition task (args : Dict) (check : bool) : Params :=
  module_params (("name", VStr "web-vm-1") :: args) check.

Definition default_params : Params := task [] false.

(** The record of the instance [web-vm-1] in a given state, with the given
    key pairs and security groups. *)
Definition vm_record (st : string) (keys groups : list string) : Value :=
  VDict [("id", VStr "vm-1"); ("name", VStr "web-vm-1");
         ("displayname", VStr "web-vm-1"); ("state", VStr st);
         ("keypairs", VList (map VStr keys));
         ("securitygroup",
          VList (map (fun g => VDict [("name", VStr g)]) groups))].

Definition vm_with_keys (st : string) (keys : list string) : Value :=
  vm_record st keys [].

Definition vm (st : string) : Value := vm_record st [] [].

(** The answer to an action: the record of the instance in the state
    [after] for the synchronous commands, a job for the others. *)
Definition action_reply (after : string) (c : string) : Reply :=
  if str_mem c ["changeServiceForVirtualMachine"; "updateVirtualMachine";
                "recoverVirtualMachine"]
  then inr (VDict [("virtualmachine", vm after)])
  else inr (VDict [("jobid", VStr "job-1")]).

(** A script in which every listing is empty, every action answers as
    above and every job ends with the instance in the state [after]. *)
Definition plain_script (after : string) : Script := {|
  listing _ _ := inr (VDict []);
  action c _ := action_reply after c;
  job _ _ := inr (vm after)
|}.

(** The answer of [listSSHKeyPairs] for a key pair with a fingerprint. *)
Definition keypair_reply (nm fp : string) : Reply :=
  inr (VDict [("count", VInt 1);
              ("sshkeypair",
               VList [VDict [("name", VStr nm); ("fingerprint", VStr fp)]])]).

(** As [plain_script], with the key pairs [k1] and [k2] registered. *)
Definition keys_script (after : string) : Script := {|
  listing c args :=
    if String.eqb c "listSSHKeyPairs" then
      match dget args "name" with
      | Some (VStr "k1") => keypair_reply "k1" "aa:11"
      | Some (VStr "k2") => keypair_reply "k2" "bb:22"
      | _ => inr (VDict [])
      end
    else inr (VDict []);
  action c _ := action_reply after c;
  job _ _ := inr (vm after)
|}.

(** As [plain_script], with one ROOT volume of [size] bytes. *)
Definition volume_script (after : string) (size : Z) : Script := {|
  listing c args :=
    if String.eqb c "listVolumes" then
      inr (VDict [("count", VInt 1);
                  ("volume", VList [VDict [("id", VStr "vol-1");
                                           ("type", VStr "ROOT");
                                           ("size", VInt size)]])])
    else inr (VDict []);
  action c _ := action_reply after c;
  job _ _ := inr (vm after)
|}.

(** A listed template or ISO. *)
Definition image (id nm : string) (size : Z) : Value :=
  VDict [("id", VStr id); ("name", VStr nm); ("displaytext", VStr nm);
         ("size", VInt size)].

Definition listed_templates : list Value :=
  [image "t-1" "Debian 12" (20 * 2 ^ 30); image "t-2" "Debian 12" (8 * 2 ^ 30)].

Definition listed_isos : list Value :=
  [image "i-1" "Debian 12" (20 * 2 ^ 30)].

(** As [plain_script], with two templates, one ISO, one network and one
    service offering listed. *)
Definition images_script (after : string) : Script := {|
  listing c args :=
    if String.eqb c "listTemplates" then inr (VList listed_templates)
    else if String.eqb c "listIsos" then inr (VList listed_isos)
    else if String.eqb c "listNetworks" then
      inr (VList [VDict [("id", VStr "n-1"); ("name", VStr "net-a");
                         ("displaytext", VStr "net-a")]])
    else if String.eqb c "listServiceOfferings" then
      inr (VDict [("count", VInt 1);
                  ("serviceoffering",
                   VList [VDict [("id", VStr "so-1"); ("name", VStr "Tiny")]])])
    else inr (VDict []);
  action c _ := action_reply after c;
  job _ _ := inr (vm after)
|}.

(** The object with the record [inst] cached and nothing done yet. *)
Definition cached (w : Script) (inst : Value) : St Script :=
  mkSt w inst VNone VNone false [] [].

(** A listed resource with an id and a name. *)
Definition listed (id nm : string) : Value :=
  VDict [("id", VStr id); ("name", VStr nm)].

(** A listed network. *)
Definition net (id nm : string) : Value :=
  VDict [("id", VStr id); ("name", VStr nm); ("displaytext", VStr nm)].

(** A listed machine with a host, a network interface and its groups. *)
Definition machine_on (id nm st hostname : string) : Value :=
  VDict [("id", VStr id); ("name", VStr nm); ("displayname", VStr nm);
         ("state", VStr st); ("hostname", VStr hostname);
         ("keypairs", VStr "k1");
         ("securitygroup", VList [listed "sg-1" "default"; listed "sg-2" "web"]);
         ("nic",
          VList [VDict [("isdefault", VBool false);
                        ("ipaddress", VStr "10.0.1.7")];
                 VDict [("isdefault", VBool true);
                        ("ipaddress", VStr "10.0.0.7");
                        ("ip6address", VStr "fd00::7")]])].

(** A zone with its hosts, cluster, pod, networks, service offerings,
    templates and user data, and the machines [machines]; actions and jobs
    answer as in [plain_script]. *)
Definition zone_script (after : string) (machines : list Value) : Script := {|
  listing c args :=
    if String.eqb c "listVirtualMachines" then inr (VList machines)
    else if String.eqb c "listHosts" then
      inr (VDict [("count", VInt 2);
                  ("host", VList [listed "h-1" "node-1";
                                  listed "h-2" "node-2"])])
    else if String.eqb c "listClusters" then
      inr (VDict [("count", VInt 1);
                  ("cluster", VList [listed "c-1" "cluster-1"])])
    else if String.eqb c "listPods" then
      inr (VDict [("count", VInt 1); ("pod", VList [listed "p-1" "pod-1"])])
    else if String.eqb c "listNetworks" then
      inr (VList [net "n-1" "net-a"; net "n-2" "net-b"])
    else if String.eqb c "listServiceOfferings" then
      inr (VDict [("count", VInt 2);
                  ("serviceoffering", VList [listed "so-1" "Tiny";
                                             listed "so-2" "Small"])])
    else if String.eqb c "listTemplates" then inr (VList listed_templates)
    else if String.eqb c "listUserData" then
      inr (VDict [("count", VInt 1);
                  ("userdata", VList [listed "ud-1" "cloud-init"])])
    else inr (VDict []);
  action c _ := action_reply after c;
  job _ _ := inr (vm after)
|}.

(** The object with nothing cached and nothing done yet. *)
Definition fresh (w : Script) : St Script :=
  mkSt w VNone VNone VNone false [] [].

(** The instance [web-vm-1] as the zone lists it, under a name in capital
    letters, beside another machine. *)
Definition web_vm (st : string) : Value :=
  machine_on "vm-1" "WEB-VM-1" st "node-1".

Definition db_vm : Value := machine_on "vm-0" "db-vm-1" "Running" "node-2".

Definition zone_with (st : string) : Script :=
  zone_script "Running" [db_vm; web_vm st].

(** The result of the base class in the examples: the id of the record. *)
Definition base_result (resource : Value) : Dict :=
  [("id", field resource "id")].

(** ** Specification vocabulary *)

(** What is observed of an event: the command, or a wait on a job. *)
Inductive Label : Type :=
| LCall (command : string)
| LPoll (key : string).

Definition label (e : Event) : Label :=
  match e with
  | Invoke c _ => LCall c
  | PollJob _ key => LPoll key
  end.

Definition labels (es : list Event) : list Label := map label es.

Definition is_ok {A} (o : Outcome A) : bool :=
  match o with Ok _ => true | _ => false end.

(** [opt b l]: the steps [l] when [b] holds, none otherwise. *)
Definition opt {A} (b : bool) (l : list A) : list A := if b then l else [].

(** The state of a record, lower-cased, is one of [l]. *)
Definition state_in {U : Unicode} (v : Value) (l : list string) : bool :=
  match field v "state" with
  | VStr s => str_mem (lower s) l
  | _ => false
  end.

Definition is_invoke (e : Event) : bool :=
  match e with Invoke _ _ => true | PollJob _ _ => false end.

Definition is_poll (e : Event) : Prop :=
  match e with PollJob _ _ => True | Invoke _ _ => False end.

(** A record as the control plane lists it: a dictionary with a state, an
    id and a name. *)
Definition live (v : Value) : Prop :=
  exists d s i n, v = VDict d /\ dget d "state" = Some (VStr s)
                  /\ dget d "id" = Some i /\ dget d "name" = Some n.

Definition id_of (v : Value) : Value :=
  match v with
  | VDict d => match dget d "id" with Some x => x | None => VNone end
  | _ => VNone
  end.

(** The elements of an iterable value. *)
Definition elements_of (v : Value) : option (list Value) :=
  match v with
  | VList l => Some l
  | VDict d => Some (map (fun kv => VStr (fst kv)) d)
  | VStr s =>
      Some (map (fun c => VStr (String c EmptyString)) (list_ascii_of_string s))
  | _ => None
  end.

(** The key pairs the instance has, as the control plane reports them. *)
Definition live_keys (inst : Value) : list Value :=
  match field inst "keypairs" with
  | VList l => l
  | _ => []
  end.

(** The list [ssh_keys_changed] walks through (line 681): the key pairs of
    the instance or, when it has none, the one-element list of its
    [keypair] field or of the empty string. *)
Definition instance_ssh_keys (inst : Value) : option (list Value) :=
  match inst with
  | VDict _ =>
      if truthy (field inst "keypairs")
      then elements_of (field inst "keypairs")
      else Some [py_or (field inst "keypair") (VStr "")]
  | _ => None
  end.

(** A fingerprint that does not count as resolved, or is not among the
    desired ones. *)
Definition key_differs (fps : list Value) (fp : Value) : bool :=
  negb (truthy fp) || negb (py_in fp fps).

(** The query for the ROOT volume of an instance (lines 886-892). *)
Definition volume_query (instance : Value) : Dict :=
  [("type", VStr "ROOT"); ("virtualmachineid", field instance "id");
   ("account", field instance "account");
   ("domainid", field instance "domainid");
   ("projectid", field instance "projectid")].

(** The arguments of [resizeVolume]: the id of the volume, the size in GiB
    and, when shrinking is allowed, the permission to shrink. *)
Definition resize_args (volume_id : Value) (size : Z) (shrinkok : bool) : Dict :=
  [("id", volume_id); ("size", VInt size)]
  ++ opt shrinkok [("shrinkok", VBool true)].

(** An integer field of a record. *)
Definition int_field (v : Value) (k : string) : Z :=
  match field v k with
  | VInt z => z
  | VBool true => 1
  | _ => 0
  end.

(** The boot source [t] is the one [wanted]: by display text, name or id. *)
Definition named (wanted : string) (t : Value) : bool :=
  str_in wanted [field t "displaytext"; field t "name"; field t "id"].

(** ... and its size in bytes is within [r] GiB. *)
Definition fits (wanted : string) (r : Z) (t : Value) : bool :=
  named wanted t && (int_field t "size" <=? r * 2 ^ 30).

(** A listed template: a record with a name, an id and a size in bytes. *)
Definition candidate (t : Value) : Prop :=
  exists d n i sz, t = VDict d /\ dget d "name" = Some n
                   /\ dget d "id" = Some i
                   /\ dget d "size" = Some (VInt sz).

(** A listed ISO: a record with a display text, a name and an id. *)
Definition iso_candidate (t : Value) : Prop :=
  exists d dt n i, t = VDict d /\ dget d "displaytext" = Some dt
                   /\ dget d "name" = Some n /\ dget d "id" = Some i.

(** The queries of [get_template_or_iso] (lines 539-555, 575-577). *)
Definition boot_source_query (filter_key : string) (a d pr z : Value)
    (filter : option string) : Dict :=
  [("account", a); ("domainid", d); ("projectid", pr); ("zoneid", z);
   ("isrecursive", VBool true); ("fetch_list", VBool true);
   (filter_key, of_opt_str filter)].

Definition mutually_exclusive_msg : string :=
  "networks and ip_to_networks are mutually exclusive.".

(** A task that gives both [networks] and [ip_to_networks]. *)
Definition both_networks_task : Dict :=
  [("template", VStr "Debian 12");
   ("networks", VList [VStr "net-a"]);
   ("ip_to_networks",
    VList [VDict [("network", VStr "net-a"); ("ip", VStr "10.0.0.1")]])].

(** What the change detector finds, when it ends well. *)
Definition detected {W} {cp : ControlPlane W} {U : Unicode} (p : Params)
    (instance : Value) (st : St W) : Changes * Value :=
  match fst (detect_changes p instance st) with
  | Ok r => r
  | _ => ({| c_service_offering := false; c_instance := false;
             c_security_groups := false; c_ssh_keys := false;
             c_root_disk_size := false; args_service_offering := [];
             args_instance_update := []; args_volume_update := [] |},
          VNone)
  end.

Section Vocabulary.

Context {W : Type} {cp : ControlPlane W} {U : Unicode}.
Variable p : Params.

(** A method that leaves the object and the world as they are. *)
Definition stateless {A} (m : M W A) : Prop := forall st, snd (m st) = st.

(** A method that issues nothing: the world, the calls, the changed flag
    and the warnings stay; only the memoised records may be set. *)
Definition quiet {A} (m : M W A) : Prop :=
  forall st, world (snd (m st)) = world st
             /\ calls (snd (m st)) = calls st
             /\ changed (snd (m st)) = changed st
             /\ warnings (snd (m st)) = warnings st.

(** Target [expunged]: the instance has to be expunged. *)
Definition expunge_due (inst : Value) : bool :=
  truthy inst && negb (state_in inst ["expunging"]).

Definition destroy_plan (inst : Value) : list Event :=
  if expunge_due inst && negb (check_mode p)
  then [Invoke "destroyVirtualMachine"
               [("id", id_of inst); ("expunge", VBool true)]]
  else [].

(** The fingerprint of the key pair [name], as [get_ssh_keypair] resolves
    it in the state [st]. *)
Definition fingerprint (st : St W) (name : Value) (fail_on_missing : bool)
  : Outcome Value :=
  fst (get_ssh_keypair (Some "fingerprint") name fail_on_missing st).

(** C3 as the specification words it, for a desired list that is given:
    but for the case of an empty desired list with a live key, a change is
    reported exactly when some key of the live instance does not resolve
    or resolves to a fingerprint that is not among the desired ones. *)
Definition ssh_keys_as_stated (st : St W) : Prop :=
  forall want fps,
    ssh_keys p = Some want ->
    ~ (want = [] /\ live_keys (self_instance st) <> []) ->
    Forall2 (fun k fp => fingerprint st (VStr k) true = Ok fp) want fps ->
    exists b,
      fst (ssh_keys_changed p st) = Ok b
      /\ (b = true <->
          exists k fp, In k (live_keys (self_instance st))
                       /\ fingerprint st k false = Ok fp
                       /\ key_differs fps fp = true).

(** C6 as the specification words it, for the candidates that are to be
    skipped: with a root disk size given and nothing resolved before, a
    boot source that is resolved, template or ISO, is within the size. *)
Definition boot_source_as_stated (st : St W) : Prop :=
  forall r t st',
    root_disk_size p = Some r -> r <> 0 ->
    truthy (self_template st) = false -> truthy (self_iso st) = false ->
    get_template_or_iso p None st = (Ok t, st') ->
    t <> VNone ->
    int_field t "size" <= r * 2 ^ 30.

(** [host_changed] of lines 967-974. *)
Definition host_changed (inst : Value) : bool :=
  state_in inst ["starting"; "running"]
  && negb (is_none (field inst "hostname"))
  && negb (is_none (of_opt_str (host p)))
  && negb (py_eq (of_opt_str (host p)) (field inst "hostname")).

(** What a migration may issue. *)
Definition migrate_bound : list Label :=
  [LCall "migrateVirtualMachine"; LPoll "virtualmachine"].

(** The warning of line 962, for an instance of name [nm]. *)
Definition not_applied_warning (nm : Value) : string :=
  "Changes won't be applied to running instances. "
  ++ "Use force=true to allow the instance " ++ py_str nm
  ++ " to be stopped/started.".

(** What [stop_instance] issues on the cached record [cur]. *)
Definition stop_plan (cur : Value) : list Label :=
  opt (state_in cur ["starting"; "running"])
      ([LCall "stopVirtualMachine"]
       ++ opt (poll_async p) [LPoll "virtualmachine"]).

(** What [start_instance] issues on the cached record [cur]. *)
Definition start_plan (cur : Value) : list Label :=
  opt (state_in cur ["stopped"; "stopping"])
      ([LCall "startVirtualMachine"]
       ++ opt (poll_async p) [LPoll "virtualmachine"]).

(** The calls of the four axes, in the order of lines 927-956. *)
Definition change_plan (c : Changes) : list Label :=
  opt (c_service_offering c) [LCall "changeServiceForVirtualMachine"]
  ++ opt (c_instance c || c_security_groups c) [LCall "updateVirtualMachine"]
  ++ opt (c_ssh_keys c)
         [LCall "resetSSHKeyForVirtualMachine"; LPoll "virtualmachine"]
  ++ opt (c_root_disk_size c) [LCall "resizeVolume"; LPoll "volume"].

(** The whole cycle: stop and wait, the axes, and the restart. *)
Definition update_plan (c : Changes) (before : Value) (restart : list Label)
  : list Label :=
  stop_plan before ++ [LPoll "virtualmachine"] ++ change_plan c ++ restart.

(** The instance was running before the cycle and is to be started. *)
Definition restart_due (s : string) (start_vm : bool) : bool :=
  String.eqb (lower s) "running" && start_vm.

(** The arguments of [updateVirtualMachine]: those of the attributes, with
    the names of the security groups when these have changed. *)
Definition update_args (c : Changes) : Dict :=
  if c_security_groups c
  then dset (args_instance_update c) "securitygroupnames"
            (VStr (join "," (default [] (security_groups p))))
  else args_instance_update c.

(** The calls of the axes carry the arguments that were prepared. *)
Definition carries (c : Changes) (e : Event) : Prop :=
  match e with
  | Invoke cmd args =>
      (cmd = "changeServiceForVirtualMachine" ->
       args = args_service_offering c)
      /\ (cmd = "updateVirtualMachine" -> args = update_args c)
      /\ (cmd = "resetSSHKeyForVirtualMachine" ->
          dget args "keypairs" = Some (of_opt_strs (ssh_keys p)))
      /\ (cmd = "resizeVolume" -> args = args_volume_update c)
  | PollJob _ _ => True
  end.

(** A run from [st] that issues events that satisfy [G], whose labels are
    a prefix of [bound] and, when the run ends well, are [exact] of the
    final state; a changed flag that is set stays set. *)
Definition emits {A} (G : Event -> Prop) (bound : list Label)
    (exact : St W -> list Label) (st : St W) (r : Outcome A * St W) : Prop :=
  exists new,
    calls (snd r) = calls st ++ new
    /\ Forall G new
    /\ labels new `prefix_of` bound
    /\ (is_ok (fst r) = true -> labels new = exact (snd r))
    /\ (changed st = true -> changed (snd r) = true).

(** The cycle of lines 922-960, from the state in which the changed flag
    has just been set. *)
Definition update_cycle (c : Changes) (instance_state : string)
    (start_vm : bool) : M W Value :=
  let* instance := stop_instance p in
  let* instance := poll_job instance "virtualmachine" in
  set_instance instance ;;
  let* instance := change_service_offering c instance in
  let* instance := update_vm p c instance in
  let* instance := reset_ssh_key p c instance in
  resize_root_disk c ;;
  if String.eqb instance_state "running" && start_vm
  then start_instance p
  else ret instance.

(** A run that ends in a failure and has issued nothing since [st0]. *)
Definition aborts_quietly {A} (st0 : St W) (r : Outcome A * St W) : Prop :=
  is_ok (fst r) = false
  /\ calls (snd r) = calls st0 /\ world (snd r) = world st0.

(** C9 as the specification words it: with both lists given and not
    empty, the module fails with the error of the mutual exclusion and has
    issued nothing. *)
Definition mutual_exclusion_as_stated (st : St W) : Prop :=
  forall m ms n ns,
    ip_to_networks p = Some (m :: ms) ->
    networks p = Some (n :: ns) ->
    fst (main p st) = Fail mutually_exclusive_msg
    /\ calls (snd (main p st)) = calls st.

(** C7 as the specification words it: whenever an instance exists in a
    state other than expunging, exactly one [destroyVirtualMachine] with
    [expunge=True] is issued and the changed flag is set. *)
Definition expunged_as_stated (st : St W) : Prop :=
  forall inst st1,
    state p = "expunged" ->
    get_instance p false st = (Ok inst, st1) ->
    live inst ->
    state_in inst ["expunging"] = false ->
    exists polls,
      Forall is_poll polls
      /\ calls (snd (main p st))
         = calls st ++ [Invoke "destroyVirtualMachine"
                               [("id", id_of inst); ("expunge", VBool true)]]
                    ++ polls
      /\ changed (snd (main p st)) = true.

End Vocabulary.

(** *** Vocabulary of the resolvers *)

(** A listed resource: a record with a name and an id. *)
Definition entry (x : Value) : Prop :=
  exists d n i, x = VDict d /\ dget d "name" = Some n /\ dget d "id" = Some i.

(** The resource [x] is the one [wanted]: by name or by id. *)
Definition listed_as (wanted : string) (x : Value) : bool :=
  str_in wanted [field x "name"; field x "id"].

(** The id of the first listed resource that [wanted] names, or the failure
    of the resolver of the resources of kind [what]. *)
Definition resolve_id (what wanted : string) (xs : list Value)
  : Outcome Value :=
  match find (listed_as wanted) xs with
  | Some x => Ok (id_of x)
  | None => Fail (what ++ " '" ++ wanted ++ "' not found")%string
  end.

(** A listed machine: a record with a name, a display name and an id. *)
Definition machine (v : Value) : Prop :=
  exists d n dn i, v = VDict d /\ dget d "name" = Some (VStr n)
                   /\ dget d "displayname" = Some (VStr dn)
                   /\ dget d "id" = Some i.

(** The machine [v] is the one [wanted]: by name or display name, whatever
    the case of the letters, or by an id that equals the lower-cased
    [wanted]. *)
Definition machine_named {U : Unicode} (wanted : string) (v : Value)
  : bool :=
  match field v "name", field v "displayname" with
  | VStr n, VStr dn =>
      str_in (lower wanted) [VStr (lower n); VStr (lower dn); field v "id"]
  | _, _ => false
  end.

(** The record with its key pairs as a list (lines 602-607). *)
Definition with_keypairs_list (v : Value) : Value :=
  match v with
  | VDict d =>
      match dget d "keypairs" with
      | None => VDict (dset d "keypairs" (VList []))
      | Some (VList _) => v
      | Some kp => VDict (dset d "keypairs" (VList [kp]))
      end
  | _ => v
  end.

(** The query of [get_instance] (lines 590-595). *)
Definition instances_query (a d pr : Value) : Dict :=
  [("account", a); ("domainid", d); ("projectid", pr);
   ("fetch_list", VBool true)].

(** The query of [get_ssh_keypair] for the key pair [name] (lines
    663-668). *)
Definition keypair_query (d a pr name : Value) : Dict :=
  [("domainid", d); ("account", a); ("projectid", pr); ("name", name)].

(** The query of [get_user_data_id_by_name] (lines 619-627). *)
Definition user_data_query (a d pr : Value) : Dict :=
  [("account", a); ("domainid", d); ("projectid", pr);
   ("listall", VBool true)].

(** A listed network: a record with a display text, a name and an id. *)
Definition network (n : Value) : Prop :=
  exists d dt nm i, n = VDict d /\ dget d "displaytext" = Some dt
                    /\ dget d "name" = Some nm /\ dget d "id" = Some i.

(** The network [n] is the one [wanted]: by display text, name or id. *)
Definition network_named (wanted : Value) (n : Value) : bool :=
  py_in wanted [field n "displaytext"; field n "name"; field n "id"].

(** For each name in turn, the first listed network it names, if any. *)
Definition networks_found (names ns : list Value) : list Value :=
  omap (fun nm => find (network_named nm) ns) names.

(** The query of [get_network_ids] (lines 727-733). *)
Definition networks_query (a d pr z : Value) : Dict :=
  [("account", a); ("domainid", d); ("projectid", pr); ("zoneid", z);
   ("fetch_list", VBool true)].

(** A mapping of [ip_to_networks]: a record that names its network and has
    no [networkid] yet. *)
Definition mapping (m : Value) : Prop :=
  exists d nm, m = VDict d /\ dget d "network" = Some nm
               /\ dget d "networkid" = None.

(** The mapping [m] with the id of the network [n] in front. *)
Definition mapping_with_id (n m : Value) : Value :=
  match m with
  | VDict d => VDict (("networkid", id_of n) :: d)
  | _ => m
  end.

(** A network interface: a record that tells whether it is the default. *)
Definition nic (n : Value) : Prop :=
  exists d b, n = VDict d /\ dget d "isdefault" = Some b.

(** The default interfaces that have the address [k]. *)
Definition default_with (k : string) (n : Value) : bool :=
  truthy (field n "isdefault")
  && match n with
     | VDict d => match dget d k with Some _ => true | None => false end
     | _ => false
     end.

(** The address [k] of the last default interface that has one; [dflt]
    when there is none. *)
Definition default_address (k : string) (nics : list Value) (dflt : Value)
  : Value :=
  match last (List.filter (default_with k) nics) with
  | Some n => field n k
  | None => dflt
  end.

(** A record with a name. *)
Definition named_record (x : Value) : Prop :=
  exists d n, x = VDict d /\ dget d "name" = Some n.

(** A field that, when it is there, is a list of records that satisfy
    [P]. *)
Definition well_listed (P : Value -> Prop) (o : option Value) : Prop :=
  match o with
  | Some v => exists l, v = VList l /\ Forall P l
  | None => True
  end.

(** The names of the records of a list. *)
Definition names_in (v : Value) : Value :=
  match v with
  | VList l => VList (map (fun x => field x "name") l)
  | _ => VNone
  end.

(** The entry [k] of the result for the record [d] of the instance and
    its user data [ud]; [before] is the entry as the base class has left
    it. *)
Definition projected (d : Dict) (ud : Value) (k : string) (before : Value)
  : Value :=
  if String.eqb k "user_data" then ud
  else if String.eqb k "security_groups" then
    match dget d "securitygroup" with
    | Some v => names_in v
    | None => before
    end
  else if String.eqb k "affinity_groups" then
    match dget d "affinitygroup" with
    | Some v => names_in v
    | None => before
    end
  else if String.eqb k "default_ip" then
    match dget d "nic" with
    | Some (VList l) => default_address "ipaddress" l before
    | _ => before
    end
  else if String.eqb k "default_ip6" then
    match dget d "nic" with
    | Some (VList l) => default_address "ip6address" l before
    | _ => before
    end
  else before.

(** A method whose result is the same in every state, and that leaves the
    state as it is. *)
Definition pure_method {W A} (m : M W A) : Prop :=
  exists o, forall st, m st = (o, st).

(** A run that submits no action: all it asks of the control plane since
    [st] are waits. *)
Definition submits_nothing {W A} (st : St W) (r : Outcome A * St W) : Prop :=
  exists new, calls (snd r) = calls st ++ new /\ Forall is_poll new.

Section Transitions.

Context {W : Type} {cp : ControlPlane W} {U : Unicode}.
Variable p : Params.

(** The names [get_network_ids] resolves: its argument or, without one,
    the parameter [networks]. *)
Definition requested_networks (network_names : option (list Value))
  : option (list Value) :=
  match network_names with
  | Some l => Some l
  | None => option_map (map VStr) (networks p)
  end.

(** The failure of [get_network_ids] when a name is not found. *)
Definition networks_missing (found : list Value) : string :=
  "Could not find all networks, networks list found: "
  ++ py_str (VList (map (fun n => field n "name") found)).

(** An integer parameter that is given and not zero. *)
Definition given_int (o : option Z) : bool := truthy (of_opt_int o).

(** The parameter that sets the key [k] of the details. *)
Definition details_override (k : string) : option Z :=
  if String.eqb k "cpuNumber" then cpu p
  else if String.eqb k "cpuSpeed" then cpu_speed p
  else if String.eqb k "memory" then memory p
  else None.

(** The instance has to be recovered. *)
Definition recover_due (inst : Value) : bool :=
  state_in inst ["destroying"; "destroyed"].

(** Targets [absent] and [destroyed]: the instance has to be destroyed. *)
Definition destroy_due (inst : Value) : bool :=
  truthy inst
  && negb (state_in inst ["expunging"; "destroying"; "destroyed"]).

(** An action on the instance and the waits that follow it, unless the
    module runs in check mode. *)
Definition action_on (command : string) (args : Dict) (polls : list Event)
  : list Event :=
  opt (negb (check_mode p)) (Invoke command args :: polls).

(** At most one wait, for a machine, and none when the module does not
    wait for its jobs. *)
Definition waits (polls : list Event) : Prop :=
  Forall is_poll polls /\ (length polls <= 1)%nat
  /\ (poll_async p = false -> polls = []).

(** What [deploy_instance] issues. *)
Definition deploy_plan : list Label :=
  opt (negb (check_mode p))
      ([LCall "deployVirtualMachine"]
       ++ opt (poll_async p) [LPoll "virtualmachine"]).

(** The events of a deployment: the call carries the names, the keys and
    the start flag; the wait is for a machine. *)
Definition deploys (start_vm : bool) (e : Event) : Prop :=
  match e with
  | Invoke cmd args =>
      cmd = "deployVirtualMachine"
      /\ dget args "startvm" = Some (VBool start_vm)
      /\ dget args "name" = Some (of_opt_str (name p))
      /\ dget args "displayname"
         = Some (of_opt_str (get_or_fallback (display_name p) (name p)))
      /\ dget args "keypairs" = Some (of_opt_strs (ssh_keys p))
      /\ dget args "details" = Some (get_details p)
  | PollJob _ key => key = "virtualmachine"
  end.

(** The failure of [main] on an instance in the state [error]. *)
Definition error_state_msg : string :=
  "Instance named '" ++ str_of_opt (name p) ++ "' in error state.".

End Transitions.

(** ** Facts *)

Section Facts.

Context {W : Type} {cp : ControlPlane W} {U : Unicode}.
Variable p : Params.

#[local] Abbreviation stateless := (@stateless W _).
#[local] Abbreviation quiet := (@quiet W _).

(** *** Methods that leave the object and the world as they are *)

Lemma stateless_ret {A} (a : A) : stateless (ret a).
Proof. intro st. reflexivity. Qed.

Lemma stateless_fail {A} msg : stateless (@fail_json W A msg).
Proof. intro st. reflexivity. Qed.

Lemma stateless_raise {A} e : stateless (@raise W A e).
Proof. intro st. reflexivity. Qed.

Lemma stateless_bind {A B} (m : M W A) (k : A -> M W B) :
  stateless m -> (forall a, stateless (k a)) -> stateless (bind m k).
Proof.
  intros Hm Hk st. unfold bind. specialize (Hm st).
  destruct (m st) as [[a | msg | e] st1]; simpl in *; subst; auto.
  apply Hk.
Qed.

Lemma bind_unfold {A B} (m : M W A) (k : A -> M W B) st :
  bind m k st
  = match m st with
    | (Ok a, st') => k a st'
    | (Fail msg, st') => (Fail msg, st')
    | (Raise e, st') => (Raise e, st')
    end.
Proof. reflexivity. Qed.

Lemma stateless_snd {A} (m : M W A) st o st' :
  stateless m -> m st = (o, st') -> st' = st.
Proof. intros Hm E. specialize (Hm st). rewrite E in Hm. exact Hm. Qed.

Lemma stateless_read {A} (f : St W -> A) : stateless (read f).
Proof. intro st. reflexivity. Qed.

Lemma stateless_of_reply r : stateless (of_reply r).
Proof. intro st. destruct r; reflexivity. Qed.

Lemma stateless_getitem v k : stateless (@getitem W v k).
Proof. intro st. unfold getitem. destruct v; try reflexivity.
  destruct (dget kv k); reflexivity. Qed.

Lemma stateless_get v k : stateless (@get W v k).
Proof. intro st. unfold get. destruct v; try reflexivity.
  destruct (dget kv k); reflexivity. Qed.

Lemma stateless_has_key v k : stateless (@has_key W k v).
Proof. intro st. destruct v; reflexivity. Qed.

Lemma stateless_setitem v k x : stateless (@setitem W v k x).
Proof. intro st. destruct v; reflexivity. Qed.

Lemma stateless_str_lower v : stateless (str_lower (W:=W) v).
Proof. intro st. destruct v; reflexivity. Qed.

Lemma stateless_first v : stateless (@first W v).
Proof. intro st. destruct v as [| | | |[|]|]; reflexivity. Qed.

Lemma stateless_iterate v : stateless (@iterate W v).
Proof. intro st. destruct v; reflexivity. Qed.

Lemma stateless_as_int v : stateless (@as_int W v).
Proof. intro st. destruct v; reflexivity. Qed.

Lemma stateless_query_api c args :
  mutating c = false -> stateless (query_api c args).
Proof.
  intros Hc st. unfold query_api. rewrite Hc.
  apply stateless_of_reply.
Qed.

Lemma stateless_get_account k : stateless (get_account k).
Proof. intro st. apply stateless_of_reply. Qed.
Lemma stateless_get_domain k : stateless (get_domain k).
Proof. intro st. apply stateless_of_reply. Qed.
Lemma stateless_get_project k : stateless (get_project k).
Proof. intro st. apply stateless_of_reply. Qed.
Lemma stateless_get_zone k : stateless (get_zone k).
Proof. intro st. apply stateless_of_reply. Qed.
Lemma stateless_get_disk_offering k : stateless (get_disk_offering k).
Proof. intro st. apply stateless_of_reply. Qed.
Lemma stateless_get_os_type k : stateless (get_os_type k).
Proof. intro st. apply stateless_of_reply. Qed.
Lemma stateless_get_hypervisor : stateless get_hypervisor.
Proof. intro st. apply stateless_of_reply. Qed.

Create HintDb stateless.
#[local] Hint Resolve stateless_ret stateless_fail stateless_raise
  stateless_read stateless_of_reply stateless_getitem stateless_get
  stateless_has_key stateless_setitem stateless_str_lower stateless_first
  stateless_iterate stateless_as_int stateless_get_account
  stateless_get_domain stateless_get_project stateless_get_zone
  stateless_get_disk_offering stateless_get_os_type stateless_get_hypervisor
  : stateless.

Ltac stateless_step :=
  match goal with
  | |- stateless (bind _ _) => apply stateless_bind; [| intros]
  | |- stateless (query_api _ _) => apply stateless_query_api; reflexivity
  | |- stateless (if ?b then _ else _) => destruct b
  | |- stateless (match ?x with _ => _ end) => destruct x
  | |- stateless _ => solve [eauto with stateless]
  end.

Ltac stateless_tac := repeat stateless_step.

Lemma stateless_get_by_key key d : stateless (_get_by_key (W:=W) key d).
Proof. unfold _get_by_key. stateless_tac. Qed.

Lemma stateless_find_id wanted xs : stateless (find_id (W:=W) wanted xs).
Proof. induction xs as [| x xs IH]; simpl; stateless_tac. Qed.

#[local] Hint Resolve stateless_get_by_key stateless_find_id : stateless.

Lemma stateless_map_m {A B} (f : A -> M W B) xs :
  (forall x, stateless (f x)) -> stateless (map_m f xs).
Proof. intro Hf. induction xs as [| x xs IH]; simpl; stateless_tac. Qed.

Lemma stateless_get_service_offering_id :
  stateless (get_service_offering_id p).
Proof. unfold get_service_offering_id. stateless_tac. Qed.

Lemma stateless_get_host_id : stateless (get_host_id p).
Proof. unfold get_host_id. stateless_tac. Qed.

Lemma stateless_get_cluster_id : stateless (get_cluster_id p).
Proof. unfold get_cluster_id. stateless_tac. Qed.

Lemma stateless_get_pod_id : stateless (get_pod_id p).
Proof. unfold get_pod_id. stateless_tac. Qed.

#[local] Hint Resolve stateless_get_service_offering_id stateless_get_host_id
  stateless_get_cluster_id stateless_get_pod_id : stateless.


Lemma stateless_get_user_data_id_by_name :
  stateless (get_user_data_id_by_name p).
Proof. unfold get_user_data_id_by_name. stateless_tac. Qed.

Lemma stateless_get_instance_user_data instance :
  stateless (_get_instance_user_data p instance).
Proof. unfold _get_instance_user_data. stateless_tac. Qed.

Lemma stateless_get_ssh_keypair key nm f :
  stateless (get_ssh_keypair (W:=W) key nm f).
Proof. unfold get_ssh_keypair. stateless_tac. Qed.

#[local] Hint Resolve stateless_get_user_data_id_by_name
  stateless_get_instance_user_data stateless_get_ssh_keypair : stateless.

Lemma stateless_ssh_keys_loop ks fps xs :
  stateless (ssh_keys_loop (W:=W) ks fps xs).
Proof. induction xs as [| x xs IH]; simpl; stateless_tac. Qed.

#[local] Hint Resolve stateless_ssh_keys_loop : stateless.

Lemma stateless_ssh_keys_changed : stateless (ssh_keys_changed p).
Proof.
  unfold ssh_keys_changed. stateless_tac.
  apply stateless_map_m. intro. stateless_tac.
Qed.

Lemma stateless_security_groups_loop sgs xs acc :
  stateless (security_groups_loop (W:=W) sgs xs acc).
Proof.
  revert acc. induction xs as [| x xs IH]; intro acc; simpl; stateless_tac.
Qed.

#[local] Hint Resolve stateless_security_groups_loop : stateless.

Lemma stateless_security_groups_changed :
  stateless (security_groups_changed p).
Proof. unfold security_groups_changed. stateless_tac. Qed.

Lemma stateless_find_network n ns : stateless (find_network (W:=W) n ns).
Proof. induction ns as [| x ns IH]; simpl; stateless_tac. Qed.

#[local] Hint Resolve stateless_find_network : stateless.

Lemma stateless_find_networks names ns :
  stateless (find_networks (W:=W) names ns).
Proof. induction names as [| x names IH]; simpl; stateless_tac. Qed.

#[local] Hint Resolve stateless_find_networks : stateless.

Lemma stateless_get_network_ids names : stateless (get_network_ids p names).
Proof. unfold get_network_ids. stateless_tac. Qed.

Lemma stateless_with_networkid i data :
  stateless (with_networkid (W:=W) i data).
Proof. unfold with_networkid. stateless_tac. Qed.

#[local] Hint Resolve stateless_get_network_ids stateless_with_networkid
  : stateless.

Lemma stateless_zip_networkids ids ms :
  stateless (zip_networkids (W:=W) ids ms).
Proof.
  revert ids. induction ms as [| m ms IH]; intro ids; simpl; stateless_tac.
Qed.

#[local] Hint Resolve stateless_zip_networkids : stateless.

Lemma stateless_get_iptonetwork_mappings :
  stateless (get_iptonetwork_mappings p).
Proof.
  unfold get_iptonetwork_mappings. stateless_tac.
  all: try (apply stateless_map_m; intro; stateless_tac).
Qed.

Lemma stateless_root_disk_size_axis instance :
  stateless (root_disk_size_axis p instance).
Proof. unfold root_disk_size_axis. stateless_tac. Qed.

#[local] Hint Resolve stateless_ssh_keys_changed
  stateless_security_groups_changed stateless_get_iptonetwork_mappings
  stateless_root_disk_size_axis : stateless.

(** The change detector only reads. *)
Lemma stateless_detect_changes instance :
  stateless (detect_changes p instance).
Proof. unfold detect_changes. stateless_tac. Qed.

Lemma stateless_join_value v : stateless (join_value (W:=W) v).
Proof.
  unfold join_value. stateless_tac.
  apply stateless_map_m. intro. stateless_tac.
Qed.

#[local] Hint Resolve stateless_detect_changes stateless_join_value
  : stateless.

(** *** Methods that issue nothing *)

Lemma stateless_quiet {A} (m : M W A) : stateless m -> quiet m.
Proof. intros H st. rewrite H. auto. Qed.

Lemma quiet_bind {A B} (m : M W A) (k : A -> M W B) :
  quiet m -> (forall a, quiet (k a)) -> quiet (bind m k).
Proof.
  intros Hm Hk st. unfold bind. specialize (Hm st).
  destruct (m st) as [[a | msg | e] st1]; simpl in *; auto.
  destruct Hm as (Hw & Hc & Hch & Hwa).
  rewrite <- Hw, <- Hc, <- Hch, <- Hwa. apply Hk.
Qed.

Lemma quiet_set_instance v : quiet (set_instance (W:=W) v).
Proof. intro st. simpl. auto. Qed.

Lemma quiet_set_template v : quiet (set_template (W:=W) v).
Proof. intro st. simpl. auto. Qed.

Lemma quiet_set_iso v : quiet (set_iso (W:=W) v).
Proof. intro st. simpl. auto. Qed.

Ltac quiet_step :=
  match goal with
  | |- quiet (bind _ _) => apply quiet_bind; [| intros]
  | |- quiet (set_instance _) => apply quiet_set_instance
  | |- quiet (set_template _) => apply quiet_set_template
  | |- quiet (set_iso _) => apply quiet_set_iso
  | |- quiet (query_api _ _) =>
      apply stateless_quiet, stateless_query_api; reflexivity
  | |- quiet (if ?b then _ else _) => destruct b
  | |- quiet (match ?x with _ => _ end) => destruct x
  | |- quiet _ => solve [apply stateless_quiet; eauto with stateless]
  end.

Ltac quiet_tac := repeat quiet_step.

Lemma stateless_find_instance n vs : stateless (find_instance (W:=W) n vs).
Proof. induction vs as [| v vs IH]; simpl; stateless_tac. Qed.

#[local] Hint Resolve stateless_find_instance : stateless.

Lemma quiet_get_instance refresh : quiet (get_instance p refresh).
Proof. unfold get_instance. quiet_tac. Qed.

Lemma stateless_find_template w r ts :
  stateless (find_template (W:=W) w r ts).
Proof. induction ts as [| t ts IH]; simpl; stateless_tac. Qed.

Lemma stateless_find_iso w l : stateless (find_iso (W:=W) w l).
Proof. induction l as [| t ts IH]; simpl; stateless_tac. Qed.

#[local] Hint Resolve stateless_find_template stateless_find_iso : stateless.

Lemma quiet_get_template_or_iso key : quiet (get_template_or_iso p key).
Proof. unfold get_template_or_iso. quiet_tac. Qed.

(** [get_instance] returns what it leaves in [self.instance]. *)
Lemma get_instance_returns refresh st v st' :
  get_instance p refresh st = (Ok v, st') -> v = self_instance st'.
Proof.
  unfold get_instance. unfold bind at 1.
  destruct (read self_instance st) as [[a | m | e] st0]; try discriminate.
  unfold bind at 1.
  match goal with
  | |- context [match ?m st0 with _ => _ end] =>
      destruct (m st0) as [[u | m1 | e1] st1]; try discriminate
  end.
  unfold read. intro H. inversion H. reflexivity.
Qed.

(** With a record cached and no refresh, [get_instance] asks nothing. *)
Lemma get_instance_cached st :
  truthy (self_instance st) = true ->
  get_instance p false st = (Ok (self_instance st), st).
Proof.
  intro H. unfold get_instance, bind, read. simpl. rewrite H. reflexivity.
Qed.


(** *** Starting and stopping *)

Lemma state_in_inv v l :
  state_in v l = true ->
  exists d s, v = VDict d /\ dget d "state" = Some (VStr s)
              /\ str_mem (lower s) l = true.
Proof.
  unfold state_in, field. destruct v as [| | | | |d]; try discriminate.
  destruct (dget d "state") as [[| | |s| |]|] eqn:E; try discriminate.
  intro H. exists d, s. auto.
Qed.

Lemma dget_truthy d k v : dget d k = Some v -> truthy (VDict d) = true.
Proof. destruct d; [discriminate | reflexivity]. Qed.

(** C8. Starting an instance that is starting or running, and stopping one
    that is stopping or stopped, returns the instance as [get_instance]
    gives it: no call is issued, the changed flag and the world stay as
    they were. *)
Theorem start_stop_satisfied_noop (st st1 : St W) (inst : Value) :
  get_instance p false st = (Ok inst, st1) ->
  calls st1 = calls st /\ changed st1 = changed st /\ world st1 = world st
  /\ (state_in inst ["starting"; "running"] = true ->
      start_instance p st = (Ok inst, st1))
  /\ (state_in inst ["stopping"; "stopped"] = true ->
      stop_instance p st = (Ok inst, st1)).
Proof.
  intro Hget.
  pose proof (quiet_get_instance false st) as Hq.
  rewrite Hget in Hq. simpl in Hq. destruct Hq as (Hw & Hc & Hch & _).
  repeat split; auto.
  - intro Hs. apply state_in_inv in Hs as (d & s & -> & Hd & Hm).
    unfold start_instance, bind. rewrite Hget.
    rewrite (dget_truthy _ _ _ Hd). simpl. rewrite Hd. simpl.
    simpl in Hm. rewrite Hm. reflexivity.
  - intro Hs. apply state_in_inv in Hs as (d & s & -> & Hd & Hm).
    unfold stop_instance, bind. rewrite Hget.
    rewrite (dget_truthy _ _ _ Hd). simpl. rewrite Hd. simpl.
    simpl in Hm. rewrite Hm. reflexivity.
Qed.


(** Running a method symbolically in the equation [E] that names its
    result: every test and every reply met on the way is split. *)
Ltac crunch E :=
  repeat (cbn -[get_host_id] in E; try unfold poll_job, query_api in E;
          cbn -[get_host_id] in E;
          match type of E with
          | context [bind (get_host_id p) ?k ?s] =>
              let H := fresh "Hhost" in
              pose proof (stateless_get_host_id s) as H;
              rewrite (bind_unfold (get_host_id p) k s) in E;
              destruct (get_host_id p s) as [[? | ? | ?] ?];
              simpl in H; subst
          | context [getitem ?v ?k ?s] =>
              let H := fresh "Hitem" in
              destruct (getitem v k s) as [[? | ? | ?] ?] eqn:H;
              apply (stateless_snd _ _ _ _ (stateless_getitem v k)) in H;
              subst
          | context [cs_invoke ?w ?c ?a] =>
              destruct (cs_invoke w c a) as [? [? | ?]] eqn:?
          | context [cs_poll_job ?w ?j ?k] =>
              destruct (cs_poll_job w j k) as [? [? | ?]] eqn:?
          | context [cs_list ?w ?c ?a] =>
              destruct (cs_list w c a) as [? | ?] eqn:?
          | context [match ?x with _ => _ end] =>
              match x with
              | ?m ?s =>
                  let Hs := fresh "Hs" in
                  assert (Hs : stateless m) by (solve [eauto with stateless]);
                  let H := fresh "Hrun" in
                  destruct x as [[? | ? | ?] ?] eqn:H;
                  apply (stateless_snd _ _ _ _ Hs) in H; subst; clear Hs
              end
          | context [if ?b then _ else _] => destruct b eqn:?
          | context [match ?x with _ => _ end] => destruct x eqn:?
          | context [bind ?m ?k ?s] => rewrite (bind_unfold m k s) in E
          end).

(** *** Expunging *)

Lemma snd_bind_stateless {A B} (m : M W A) (k : A -> M W B) st :
  (forall a, stateless (k a)) -> snd (bind m k st) = snd (m st).
Proof.
  intro Hk. unfold bind. destruct (m st) as [[a | msg | e] st1]; auto.
  apply Hk.
Qed.

Lemma main_expunged st :
  state p = "expunged" ->
  snd (main p st) = snd (expunge_instance p st).
Proof.
  intro Hs. unfold main. rewrite Hs. cbn [str_mem existsb String.eqb Ascii.eqb Bool.eqb orb].
  apply snd_bind_stateless. intro a. stateless_tac.
Qed.

Lemma live_inv v :
  live v -> exists d s i, v = VDict d /\ truthy v = true
                          /\ dget d "state" = Some (VStr s)
                          /\ dget d "id" = Some i.
Proof.
  intros (d & s & i & n & -> & Hs & Hi & _). exists d, s, i.
  repeat split; auto. eapply dget_truthy; eauto.
Qed.


(** *** SSH keys *)

Lemma stateless_run {A} (m : M W A) st o :
  stateless m -> fst (m st) = o -> m st = (o, st).
Proof.
  intros Hm Ho. specialize (Hm st). destruct (m st); simpl in *; congruence.
Qed.

Lemma get_field d k (st : St W) :
  get (VDict d) k st = (Ok (field (VDict d) k), st).
Proof. unfold get, field. destruct (dget d k); reflexivity. Qed.

Lemma iterate_elements v l (st : St W) :
  elements_of v = Some l -> iterate v st = (Ok l, st).
Proof. destruct v; simpl; intro H; inversion H; reflexivity. Qed.

Lemma fingerprint_run st nm f o :
  fingerprint st nm f = o ->
  get_ssh_keypair (Some "fingerprint") nm f st = (o, st).
Proof. apply stateless_run, stateless_get_ssh_keypair. Qed.

Lemma desired_fingerprints st want fps :
  Forall2 (fun k fp => fingerprint st (VStr k) true = Ok fp) want fps ->
  map_m (fun ssh_key =>
           get_ssh_keypair (Some "fingerprint") (VStr ssh_key) true) want st
  = (Ok fps, st).
Proof.
  induction 1 as [| k fp want fps Hk _ IH]; simpl.
  - reflexivity.
  - unfold bind. rewrite (fingerprint_run _ _ _ _ Hk), IH. reflexivity.
Qed.

Lemma ssh_keys_loop_spec st w ws fps keys lfps :
  Forall2 (fun k fp => fingerprint st k false = Ok fp) keys lfps ->
  ssh_keys_loop (w :: ws) fps keys st
  = (Ok (existsb (key_differs fps) lfps), st).
Proof.
  induction 1 as [| k fp keys lfps Hk _ IH]; simpl.
  - reflexivity.
  - unfold bind. rewrite (fingerprint_run _ _ _ _ Hk).
    unfold key_differs at 1.
    destruct (truthy fp); simpl; [| reflexivity].
    destruct (py_in fp fps); simpl; [exact IH | reflexivity].
Qed.

(** The beginning of [ssh_keys_changed] on a record [inst]: the listed
    keys are the elements of [instance_ssh_keys inst]. *)
Lemma ssh_keys_changed_unfold st want keys :
  ssh_keys p = Some want ->
  instance_ssh_keys (self_instance st) = Some keys ->
  ssh_keys_changed p st
  = (let* fps := map_m (fun ssh_key =>
                          get_ssh_keypair (Some "fingerprint")
                                          (VStr ssh_key) true) want in
     ssh_keys_loop want fps keys) st.
Proof.
  intros Hw Hk. unfold ssh_keys_changed. rewrite Hw.
  unfold instance_ssh_keys in Hk.
  destruct (self_instance st) as [| | | | | d] eqn:Hi; try discriminate.
  unfold bind at 1. unfold read at 1. rewrite Hi.
  unfold bind at 1. rewrite get_field.
  unfold bind at 1.
  destruct (truthy (field (VDict d) "keypairs")) eqn:Ht.
  - unfold ret at 1. unfold bind at 1.
    destruct (map_m _ want st) as [[fps | m | e] st1] eqn:Hm;
      unfold bind; rewrite Hm; try reflexivity.
    unfold bind.
    assert (st1 = st) as ->.
    { pose proof (stateless_map_m
        (fun ssh_key => get_ssh_keypair (W:=W) (Some "fingerprint")
                                        (VStr ssh_key) true) want
        (fun x => stateless_get_ssh_keypair _ _ _) st) as Hs.
      rewrite Hm in Hs. exact Hs. }
    rewrite (iterate_elements _ _ _ Hk). reflexivity.
  - unfold bind at 1. rewrite get_field. unfold ret at 1.
    inversion Hk; subst. unfold bind.
    destruct (map_m _ want st) as [[fps | m | e] st1] eqn:Hm;
      reflexivity.
Qed.

(** C10. On a live instance without key pairs ([keypairs] empty or absent,
    no [keypair] field), the list that is walked through falls back to the
    one-element list of the empty string, and with [ssh_keys=[]] a change
    of the SSH keys is reported. *)
Theorem ssh_keys_empty_on_keyless_instance (st : St W) (d : Dict) :
  ssh_keys p = Some [] ->
  self_instance st = VDict d ->
  truthy (field (VDict d) "keypairs") = false ->
  dget d "keypair" = None ->
  instance_ssh_keys (self_instance st) = Some [VStr ""]
  /\ ssh_keys_changed p st = (Ok true, st).
Proof.
  intros Hw Hi Ht Hk.
  assert (Hkeys : instance_ssh_keys (self_instance st) = Some [VStr ""]).
  { rewrite Hi. unfold instance_ssh_keys. rewrite Ht.
    unfold field at 1. rewrite Hk. reflexivity. }
  split; [exact Hkeys |].
  rewrite (ssh_keys_changed_unfold st [] _ Hw Hkeys). reflexivity.
Qed.

Lemma live_keys_listed inst :
  live_keys inst <> [] -> instance_ssh_keys inst = Some (live_keys inst).
Proof.
  unfold live_keys, instance_ssh_keys.
  destruct inst as [| | | | | d]; simpl; try congruence.
  destruct (dget d "keypairs") as [[| | | |[| x l]|]|];
    simpl; congruence.
Qed.

(** C3, as the code has it. Without the parameter no change is reported;
    with [ssh_keys=[]] and a key on the instance a change is reported; with
    desired keys that all resolve, a change is reported exactly when one of
    the entries that are walked through (the key pairs of the instance, or
    the fallback entry when it has none) does not resolve or resolves to a
    fingerprint that is not among the desired ones. *)
Theorem ssh_keys_changed_spec (st : St W) :
  (ssh_keys p = None -> ssh_keys_changed p st = (Ok false, st))
  /\ (ssh_keys p = Some [] ->
      live_keys (self_instance st) <> [] ->
      ssh_keys_changed p st = (Ok true, st))
  /\ (forall want fps keys lfps,
        ssh_keys p = Some want ->
        want <> [] ->
        Forall2 (fun k fp => fingerprint st (VStr k) true = Ok fp) want fps ->
        instance_ssh_keys (self_instance st) = Some keys ->
        Forall2 (fun k fp => fingerprint st k false = Ok fp) keys lfps ->
        exists b,
          ssh_keys_changed p st = (Ok b, st)
          /\ (b = true <-> Exists (fun fp => key_differs fps fp = true) lfps)).
Proof.
  split; [| split].
  - intro Hw. unfold ssh_keys_changed. rewrite Hw. reflexivity.
  - intros Hw Hne.
    rewrite (ssh_keys_changed_unfold st [] _ Hw (live_keys_listed _ Hne)).
    destruct (live_keys (self_instance st)); [congruence | reflexivity].
  - intros want fps keys lfps Hw Hne Hfps Hk Hl.
    rewrite (ssh_keys_changed_unfold st want keys Hw Hk).
    unfold bind. rewrite (desired_fingerprints st want fps Hfps).
    destruct want as [| w ws]; [congruence |].
    rewrite (ssh_keys_loop_spec st w ws fps keys lfps Hl).
    eexists. split; [reflexivity |].
    rewrite existsb_exists, Exists_exists.
    split; intros (x & Hx & Hy); exists x; split; auto;
      apply list_elem_of_In; auto.
Qed.

(** *** Security groups *)

Lemma str_mem_elem_of (s : string) (l : list string) :
  str_mem s l = true <-> s ∈ l.
Proof.
  unfold str_mem. rewrite existsb_exists. split.
  - intros (x & Hx & He). apply String.eqb_eq in He. subst.
    apply list_elem_of_In. exact Hx.
  - intro H. exists s. split; [apply list_elem_of_In; exact H |].
    apply String.eqb_refl.
Qed.

Lemma getitem_field g k v (st : St W) :
  field g k = VStr v -> getitem g k st = (Ok (VStr v), st).
Proof.
  unfold field, getitem. destruct g as [| | | | | d]; try discriminate.
  destruct (dget d k); simpl; [intros -> | discriminate]. reflexivity.
Qed.

Lemma security_groups_loop_spec (st : St W) sgs gs names acc :
  Forall2 (fun g n => field g "name" = VStr n) gs names ->
  security_groups_loop sgs gs acc st
  = (Ok (if forallb (fun n => str_mem (lower n) sgs) names
         then Some (acc ++ map lower names) else None), st).
Proof.
  intro H. revert acc.
  induction H as [| g n gs names Hg _ IH]; intro acc; simpl.
  - rewrite app_nil_r. reflexivity.
  - unfold bind. rewrite (getitem_field _ _ _ _ Hg). simpl.
    destruct (str_mem (lower n) sgs); simpl; [| reflexivity].
    rewrite (getitem_field _ _ _ _ Hg). simpl.
    rewrite IH, <- app_assoc. reflexivity.
Qed.

(** C4. Without the parameter no change of the security groups is
    reported; with it, no change is reported exactly when the desired names
    and the names of the groups of the instance, all lower-cased, are the
    same set. *)
Theorem security_groups_changed_spec (st : St W) :
  (security_groups p = None ->
   security_groups_changed p st = (Ok false, st))
  /\ (forall want d gs names,
        security_groups p = Some want ->
        self_instance st = VDict d ->
        elements_of (py_or (field (VDict d) "securitygroup") (VList []))
        = Some gs ->
        Forall2 (fun g n => field g "name" = VStr n) gs names ->
        exists b,
          security_groups_changed p st = (Ok b, st)
          /\ (b = false <->
              (list_to_set (map lower want) : gset string)
              = list_to_set (map lower names))).
Proof.
  split.
  - intro Hw. unfold security_groups_changed. rewrite Hw. reflexivity.
  - intros want d gs names Hw Hi Hgs Hn.
    unfold security_groups_changed. rewrite Hw.
    unfold bind, read. rewrite Hi, get_field.
    rewrite (iterate_elements _ _ _ Hgs).
    rewrite (security_groups_loop_spec _ _ _ _ _ Hn). simpl app.
    set (W1 := map lower want). set (N1 := map lower names).
    assert (Hall : forallb (fun n => str_mem (lower n) W1) names = true
                   <-> forall x, x ∈ N1 -> x ∈ W1).
    { rewrite forallb_forall. subst N1. split.
      - intros H x Hx. apply list_elem_of_fmap in Hx as (n & -> & Hx).
        apply str_mem_elem_of, H, list_elem_of_In, Hx.
      - intros H n Hx. apply str_mem_elem_of, H.
        apply list_elem_of_fmap. exists n. split; auto.
        apply list_elem_of_In, Hx. }
    assert (Hex : existsb (fun sg => negb (str_mem sg N1)) W1 = false
                  <-> forall x, x ∈ W1 -> x ∈ N1).
    { rewrite <- not_true_iff_false, existsb_exists. split.
      - intros H x Hx. apply str_mem_elem_of.
        destruct (str_mem x N1) eqn:E; auto.
        exfalso. apply H. exists x. split; [apply list_elem_of_In, Hx |].
        rewrite E. reflexivity.
      - intros H (x & Hx & Hneg). apply list_elem_of_In, H, str_mem_elem_of in Hx.
        rewrite Hx in Hneg. discriminate. }
    destruct (forallb (fun n => str_mem (lower n) W1) names) eqn:Hf.
    + eexists. split; [reflexivity |]. rewrite Hex.
      split.
      * intro H. apply set_eq. intro x. rewrite !elem_of_list_to_set.
        split; [apply H | apply Hall; reflexivity].
      * intros H x Hx.
        apply (elem_of_list_to_set (C:=gset string)).
        rewrite <- H. apply elem_of_list_to_set. exact Hx.
    + eexists. split; [reflexivity |].
      split; [discriminate |].
      intro H. exfalso.
      assert (forall x, x ∈ N1 -> x ∈ W1) as Hsub.
      { intros x Hx. apply (elem_of_list_to_set (C:=gset string)).
        rewrite H. apply elem_of_list_to_set. exact Hx. }
      apply Hall in Hsub. congruence.
Qed.

(** *** The size of the ROOT volume *)

(** C5. Without [root_disk_size] the axis is not evaluated: nothing is
    listed, no change is reported, no argument is prepared.  With it, the
    size of the ROOT volume is shifted right by 30 bits, that is divided by
    2^30 rounding down; a change is reported exactly when the desired size
    differs from that number of GiB, and the arguments prepared for
    [resizeVolume] are the id of the volume and the desired size. *)
Theorem root_disk_size_axis_spec (st : St W) (instance : Value) :
  (root_disk_size p = None ->
   root_disk_size_axis p instance st = (Ok ([], false), st))
  /\ (forall want d i res vol vid sz,
        root_disk_size p = Some want ->
        instance = VDict d ->
        dget d "id" = Some i ->
        cs_list (world st) "listVolumes" (volume_query instance)
        = inr (VDict res) ->
        dget res "volume" = Some (VList [VDict vol]) ->
        dget vol "size" = Some (VInt sz) ->
        dget vol "id" = Some vid ->
        root_disk_size_axis p instance st
        = (Ok (resize_args vid want (allow_root_disk_shrink p),
               negb (want =? Z.shiftr sz 30)), st)
        /\ Z.shiftr sz 30 = sz / 2 ^ 30
        /\ (negb (want =? Z.shiftr sz 30) = true <-> want <> sz / 2 ^ 30)).
Proof.
  split.
  - intro Hw. unfold root_disk_size_axis. rewrite Hw. reflexivity.
  - intros want d i res vol vid sz Hw -> Hi Hl Hv Hsz Hvid.
    split; [| split].
    + unfold root_disk_size_axis. rewrite Hw.
      unfold bind. simpl getitem. rewrite Hi. unfold ret at 1.
      rewrite !get_field.
      unfold query_api. change (mutating "listVolumes") with false. cbv iota.
      unfold volume_query in Hl. unfold field at 1 in Hl. rewrite Hi in Hl.
      simpl default in Hl. rewrite Hl. simpl of_reply. unfold ret at 1.
      simpl getitem. rewrite Hv. unfold ret at 1.
      simpl iterate. unfold ret at 1.
      simpl getitem. rewrite Hsz, Hvid. simpl.
      unfold resize_args.
      destruct (allow_root_disk_shrink p); reflexivity.
    + apply Z.shiftr_div_pow2. lia.
    + rewrite Z.shiftr_div_pow2 by lia.
      rewrite negb_true_iff, Z.eqb_neq. reflexivity.
Qed.

(** *** Templates and ISOs *)

Lemma find_template_spec (st : St W) wanted r ts :
  r <> 0 ->
  Forall candidate ts ->
  find_template wanted (Some r) ts st = (Ok (find (fits wanted r) ts), st).
Proof.
  intros Hr H. induction H as [| t ts Ht _ IH].
  - reflexivity.
  - destruct Ht as (d & n & i & sz & -> & Hn & Hi & Hsz).
    assert (Hf : fits wanted r (VDict d)
                 = str_in wanted [field (VDict d) "displaytext"; n; i]
                   && (sz <=? r * 2 ^ 30)).
    { unfold fits, named, int_field. unfold field at 2 3 4.
      rewrite Hn, Hi, Hsz. reflexivity. }
    cbn [find]. rewrite Hf. cbn [find_template].
    unfold bind. rewrite get_field.
    cbn -[str_in find Z.pow Z.mul Z.gtb Z.leb Z.eqb find_template].
    rewrite Hn, Hi.
    cbn -[str_in find Z.pow Z.mul Z.gtb Z.leb Z.eqb find_template].
    destruct (str_in wanted [match dget d "displaytext" with
                             | Some x => x
                             | None => VNone
                             end; n; i]);
      cbn [andb]; [| exact IH].
    apply Z.eqb_neq in Hr. rewrite Hr.
    cbn -[str_in find Z.pow Z.mul Z.gtb Z.leb Z.eqb find_template].
    rewrite Hsz.
    cbn -[str_in find Z.pow Z.mul Z.gtb Z.leb Z.eqb find_template].
    change (1024 ^ 3) with (2 ^ 30).
    rewrite Z.gtb_ltb, Z.ltb_antisym.
    destruct (sz <=? r * 2 ^ 30); simpl; [reflexivity | exact IH].
Qed.

Lemma find_iso_spec (st : St W) wanted isos :
  Forall iso_candidate isos ->
  find_iso wanted isos st = (Ok (find (named wanted) isos), st).
Proof.
  intro H. induction H as [| t ts Ht _ IH].
  - reflexivity.
  - destruct Ht as (d & dt & n & i & -> & Hdt & Hn & Hi).
    assert (Hf : named wanted (VDict d) = str_in wanted [dt; n; i]).
    { unfold named, field. rewrite Hdt, Hn, Hi. reflexivity. }
    cbn [find]. rewrite Hf. cbn [find_iso].
    unfold bind.
    cbn -[str_in find find_iso]. rewrite Hdt, Hn, Hi.
    cbn -[str_in find find_iso].
    destruct (str_in wanted [dt; n; i]); [reflexivity | exact IH].
Qed.

Lemma given_Some s : s <> "" -> given (Some s) = true.
Proof.
  intro H. simpl. apply negb_true_iff, String.eqb_neq. exact H.
Qed.

(** C6, as the code has it. A template is resolved to the first listed
    candidate that carries the wanted name and whose size in bytes is at
    most the root disk size times 2^30; when there is none, the resolution
    fails with a message that names the size.  An ISO is resolved to the
    first listed candidate of that name whatever its size, and the message
    of the failure does not name the size. *)
Theorem boot_source_resolution (st : St W) (key : option string)
    (a d pr z : Value) :
  cs_get_account (world st) "name" = inr a ->
  cs_get_domain (world st) "id" = inr d ->
  cs_get_project (world st) "id" = inr pr ->
  cs_get_zone (world st) "id" = inr z ->
  (forall tname r ts,
     template p = Some tname -> tname <> "" ->
     root_disk_size p = Some r -> r <> 0 ->
     truthy (self_template st) = false ->
     cs_list (world st) "listTemplates"
             (boot_source_query "templatefilter" a d pr z (template_filter p))
     = inr (VList ts) ->
     Forall candidate ts ->
     get_template_or_iso p key st
     = match find (fits tname r) ts with
       | Some t => (set_template t ;; _get_by_key key t) st
       | None =>
           (Fail ("Template '" ++ tname ++ "' not found (with size <= "
                  ++ str_of_Z r ++ ")"), st)
       end)
  /\ (forall iname isos,
        given (template p) = false ->
        iso p = Some iname -> iname <> "" ->
        truthy (self_iso st) = false ->
        cs_list (world st) "listIsos"
                (boot_source_query "isofilter" a d pr z (template_filter p))
        = inr (VList isos) ->
        Forall iso_candidate isos ->
        get_template_or_iso p key st
        = match find (named iname) isos with
          | Some i => (set_iso i ;; _get_by_key key i) st
          | None => (Fail ("ISO '" ++ iname ++ "' not found"), st)
          end).
Proof.
  intros Ha Hd Hpr Hz. split.
  - intros tname r ts Ht Hne Hr Hr0 Hmemo Hl Hc.
    unfold get_template_or_iso. rewrite Ht, (given_Some _ Hne).
    cbn [negb andb].
    unfold bind at 1. unfold get_account at 1. rewrite Ha. simpl of_reply.
    unfold ret at 1.
    unfold bind at 1. unfold get_domain at 1. rewrite Hd. simpl of_reply.
    unfold ret at 1.
    unfold bind at 1. unfold get_project at 1. rewrite Hpr. simpl of_reply.
    unfold ret at 1.
    unfold bind at 1. unfold get_zone at 1. rewrite Hz. simpl of_reply.
    unfold ret at 1.
    unfold bind at 1. unfold read at 1. rewrite Hmemo.
    unfold bind at 1. unfold bind at 1. unfold query_api at 1.
    change (mutating "listTemplates") with false. cbv iota.
    cbn [dset String.eqb Ascii.eqb Bool.eqb].
    unfold boot_source_query in Hl. rewrite Hl. simpl of_reply.
    unfold ret at 1. rewrite Hr.
    destruct ts as [| t ts'].
    + simpl. apply Z.eqb_neq in Hr0. rewrite Hr0. reflexivity.
    + simpl truthy. cbv iota. unfold bind at 1. simpl iterate.
      unfold ret at 1. cbn [truthy iterate ret str_of_opt].
      rewrite (find_template_spec st tname r (t :: ts') Hr0 Hc).
      destruct (find (fits tname r) (t :: ts')); [reflexivity |].
      apply Z.eqb_neq in Hr0. rewrite Hr0. reflexivity.
  - intros iname isos Ht Hi Hne Hmemo Hl Hc.
    unfold get_template_or_iso. rewrite Ht, Hi, (given_Some _ Hne).
    cbn [negb andb].
    unfold bind at 1. unfold get_account at 1. rewrite Ha. simpl of_reply.
    unfold ret at 1.
    unfold bind at 1. unfold get_domain at 1. rewrite Hd. simpl of_reply.
    unfold ret at 1.
    unfold bind at 1. unfold get_project at 1. rewrite Hpr. simpl of_reply.
    unfold ret at 1.
    unfold bind at 1. unfold get_zone at 1. rewrite Hz. simpl of_reply.
    unfold ret at 1.
    unfold bind at 1. unfold read at 1. rewrite Hmemo.
    unfold bind at 1. unfold bind at 1. unfold query_api at 1.
    change (mutating "listIsos") with false. cbv iota.
    cbn [dset String.eqb Ascii.eqb Bool.eqb].
    unfold boot_source_query in Hl. rewrite Hl. simpl of_reply.
    unfold ret at 1.
    destruct isos as [| t ts'].
    + reflexivity.
    + simpl truthy. cbv iota. unfold bind at 1. simpl iterate.
      unfold ret at 1. cbn [truthy iterate ret str_of_opt].
      rewrite (find_iso_spec st iname (t :: ts') Hc).
      destruct (find (named iname) (t :: ts')); reflexivity.
Qed.

(** *** Deployment *)

Lemma bind_aborts {A B} (m : M W A) (k : A -> M W B) st st0 :
  quiet m ->
  calls st = calls st0 -> world st = world st0 ->
  (forall a st1, calls st1 = calls st0 -> world st1 = world st0 ->
                 aborts_quietly st0 (k a st1)) ->
  aborts_quietly st0 (bind m k st).
Proof.
  intros Hq Hc Hw Hk. unfold bind.
  destruct (Hq st) as (Hw1 & Hc1 & _).
  destruct (m st) as [[a | msg | e] st1]; simpl in *.
  - apply Hk; congruence.
  - unfold aborts_quietly; simpl; repeat split; congruence.
  - unfold aborts_quietly; simpl; repeat split; congruence.
Qed.

Lemma mappings_mutually_exclusive (st : St W) m ms n ns :
  ip_to_networks p = Some (m :: ms) ->
  networks p = Some (n :: ns) ->
  get_iptonetwork_mappings p st = (Fail mutually_exclusive_msg, st).
Proof.
  intros Hm Hn. unfold get_iptonetwork_mappings. rewrite Hm, Hn.
  reflexivity.
Qed.


(** *** Runs and the events they issue *)

Lemma emits_bind {A B} G (m : M W A) (k : A -> M W B) l1 b2 e2 st :
  emits G l1 (fun _ => l1) st (m st) ->
  (forall a st1, m st = (Ok a, st1) -> emits G b2 e2 st1 (k a st1)) ->
  emits G (l1 ++ b2) (fun s => l1 ++ e2 s) st (bind m k st).
Proof.
  intros (new1 & Hc1 & Hg1 & Hp1 & He1 & Hch1) Hk. unfold bind.
  destruct (m st) as [[a | msg | e] st1] eqn:Em; simpl in *.
  - destruct (Hk a st1 eq_refl) as (new2 & Hc2 & Hg2 & Hp2 & He2 & Hch2).
    exists (new1 ++ new2). repeat split.
    + rewrite Hc2, Hc1, app_assoc. reflexivity.
    + apply Forall_app. auto.
    + unfold labels. rewrite map_app. fold (labels new1) (labels new2).
      rewrite (He1 eq_refl). apply prefix_app. exact Hp2.
    + intro Hok. unfold labels. rewrite map_app.
      fold (labels new1) (labels new2).
      rewrite (He1 eq_refl), (He2 Hok). reflexivity.
    + auto.
  - exists new1. repeat split; auto.
    + apply prefix_app_r. exact Hp1.
    + discriminate.
  - exists new1. repeat split; auto.
    + apply prefix_app_r. exact Hp1.
    + discriminate.
Qed.

Lemma emits_quiet {A} G (m : M W A) st :
  quiet m -> emits G [] (fun _ => []) st (m st).
Proof.
  intro Hq. destruct (Hq st) as (_ & Hc & Hch & _).
  exists []. rewrite app_nil_r.
  split; [exact Hc |]. split; [constructor |].
  split; [apply prefix_nil |]. split; [reflexivity |].
  intro H. rewrite Hch. exact H.
Qed.

Lemma emits_set_changed G st :
  emits G [] (fun _ => []) st (set_changed (W:=W) st).
Proof.
  exists []. simpl. rewrite app_nil_r.
  split; [reflexivity |]. split; [constructor |].
  split; [apply prefix_nil |]. split; reflexivity.
Qed.

Lemma emits_query_api G c args st :
  mutating c = true -> G (Invoke c args) ->
  emits G [LCall c] (fun _ => [LCall c]) st (query_api c args st).
Proof.
  intros Hm Hg. unfold query_api. rewrite Hm.
  destruct (cs_invoke (world st) c args) as [w' [msg | v]]; simpl;
    exists [Invoke c args];
    (split; [reflexivity |]; split; [repeat constructor; exact Hg |];
     split; [reflexivity |]; split; [reflexivity | auto]).
Qed.

Lemma emits_poll_job G j key st :
  G (PollJob j key) ->
  emits G [LPoll key] (fun _ => [LPoll key]) st (poll_job j key st).
Proof.
  intro Hg. unfold poll_job.
  destruct (cs_poll_job (world st) j key) as [w' [msg | v]]; simpl;
    exists [PollJob j key];
    (split; [reflexivity |]; split; [repeat constructor; exact Hg |];
     split; [reflexivity |]; split; [reflexivity | auto]).
Qed.

Lemma emits_weaken {A} G b e b' e' st (r : Outcome A * St W) :
  emits G b e st r -> b = b' -> (forall s, e s = e' s) -> emits G b' e' st r.
Proof.
  intros (new & Hc & Hg & Hp & He & Hch) -> Hee.
  exists new. repeat split; auto. intro Hok. rewrite <- Hee. auto.
Qed.

(** A branch that is taken or not. *)
Lemma emits_opt {A} G (b : bool) (m m' : M W A) l st :
  emits G l (fun _ => l) st (m st) ->
  emits G [] (fun _ => []) st (m' st) ->
  emits G (opt b l) (fun _ => opt b l) st ((if b then m else m') st).
Proof. destruct b; auto. Qed.

Lemma emits_ret {A} G (a : A) st :
  emits G [] (fun _ => []) st (ret (W:=W) a st).
Proof. apply emits_quiet, stateless_quiet, stateless_ret. Qed.

(** *** Stopping and starting within an update *)

Lemma carries_poll c j k : carries p c (PollJob j k).
Proof. exact I. Qed.

Lemma carries_other c cmd args :
  cmd <> "changeServiceForVirtualMachine" ->
  cmd <> "updateVirtualMachine" ->
  cmd <> "resetSSHKeyForVirtualMachine" ->
  cmd <> "resizeVolume" ->
  carries p c (Invoke cmd args).
Proof. intros H1 H2 H3 H4. repeat split; intro; congruence. Qed.

(** The state [x] is the literal [nm], or it is not. *)
Ltac case_state x nm :=
  let H := fresh "Hstate" in
  destruct (String.eqb x nm) eqn:H;
  [ apply String.eqb_eq in H; rewrite H in * | ].

Ltac four_states x :=
  case_state x "stopping";
  [| case_state x "stopped";
     [| case_state x "starting"; [| case_state x "running"]]].

Ltac solve_prefix :=
  repeat apply prefix_cons; first [apply prefix_nil | reflexivity].

(** Closing an [emits] goal once the run has been computed. *)
Ltac emits_open :=
  unfold emits; cbn [fst snd calls changed self_instance]; cbv beta.

Ltac emits_done_with tac :=
  emits_open;
  first [ exists []; split; [rewrite app_nil_r; reflexivity |]
        | eexists; split; [rewrite <- ?app_assoc; cbn; reflexivity |] ];
  (split; [repeat (apply List.Forall_cons;
                   [first [apply carries_poll
                          | apply carries_other; discriminate
                          | tac] |]);
           apply List.Forall_nil |]);
  (split; [cbn; solve_prefix |]);
  (split; [first [discriminate | intros _; reflexivity] | auto]).

Ltac emits_done c := emits_done_with fail.

Lemma stop_instance_emits c st :
  check_mode p = false ->
  live (self_instance st) ->
  emits (carries p c) (stop_plan p (self_instance st))
        (fun _ => stop_plan p (self_instance st)) st (stop_instance p st).
Proof.
  intros Hcm Hlive.
  destruct (live_inv _ Hlive) as (d & s & i & Hi & Ht & Hd & Hid).
  destruct (stop_instance p st) as [o st'] eqn:E.
  unfold stop_instance, bind in E.
  rewrite (get_instance_cached st Ht), Ht, Hi in E.
  unfold stop_plan, state_in, field. rewrite Hi, Hd.
  cbn in E. rewrite Hd, Hid, Hcm in E. cbn in E.
  cbn [str_mem existsb].
  four_states (lower s);
    crunch E; inversion E; subst; clear E;
    rewrite ?Hstate, ?Hstate0, ?Hstate1, ?Hstate2;
    cbn [orb opt app]; rewrite ?Heqb; cbn [orb opt app].
  all: emits_done c.
Qed.

Lemma emits_from {A} G b e st st1 (r : Outcome A * St W) :
  calls st1 = calls st -> (changed st = true -> changed st1 = true) ->
  emits G b e st1 r -> emits G b e st r.
Proof.
  intros Hc Hch (new & H1 & H2 & H3 & H4 & H5).
  exists new. rewrite <- Hc. repeat split; auto.
Qed.

Lemma state_in_falsy v l : truthy v = false -> state_in v l = false.
Proof.
  unfold state_in, field.
  destruct v as [| | | | | [| kv d]]; try reflexivity. discriminate.
Qed.

Lemma start_instance_emits c st :
  check_mode p = false ->
  emits (carries p c) [LCall "startVirtualMachine"; LPoll "virtualmachine"]
        (fun s' => start_plan p (self_instance s')) st (start_instance p st).
Proof.
  intro Hcm.
  destruct (start_instance p st) as [o st'] eqn:E.
  unfold start_instance in E. unfold bind at 1 in E.
  pose proof (quiet_get_instance false st) as Hq.
  destruct (get_instance p false st) as [[inst | m | e] st1] eqn:Eg;
    simpl in Hq; destruct Hq as (_ & Hc & Hch & _);
    apply (emits_from _ _ _ st st1 _ Hc ltac:(congruence)).
  2,3: inversion E; subst; emits_done c.
  apply get_instance_returns in Eg. subst inst.
  unfold start_plan.
  destruct (truthy (self_instance st1)) eqn:Ht.
  2:{ inversion E; subst. emits_open.
      rewrite (state_in_falsy _ _ Ht). emits_done c. }
  unfold state_in, field.
  destruct (self_instance st1) as [| | | | | d] eqn:Hs1;
    try (cbn in E; inversion E; subst; emits_open; rewrite ?Hs1;
         emits_done c).
  destruct (dget d "state") as [[| | | s | |] |] eqn:Hd;
    try (cbn in E; rewrite Hd in E; cbn in E; inversion E; subst;
         emits_open; rewrite ?Hs1, ?Hd; emits_done c).
  cbn in E. rewrite Hd, Hcm in E. cbn -[get_host_id] in E.
  cbn [str_mem existsb].
  four_states (lower s);
    crunch E; inversion E; subst; clear E;
    try (rewrite ?Hstate, ?Hstate0, ?Hstate1, ?Hstate2 in *;
         cbn [String.eqb Ascii.eqb Bool.eqb orb] in *; discriminate);
    emits_open;
    rewrite ?Hs1, ?Hd, ?Hstate, ?Hstate0, ?Hstate1, ?Hstate2;
    cbn [orb opt app]; rewrite ?Heqb; cbn [orb opt app].
  all: emits_done c.
Qed.

(** *** The axes of an update, one after the other *)

Lemma carries_update c :
  carries p c (Invoke "updateVirtualMachine" (update_args p c)).
Proof. repeat split; intro; congruence. Qed.

Lemma change_service_offering_emits c instance st :
  emits (carries p c)
        (opt (c_service_offering c) [LCall "changeServiceForVirtualMachine"])
        (fun _ => opt (c_service_offering c)
                      [LCall "changeServiceForVirtualMachine"])
        st (change_service_offering c instance st).
Proof.
  destruct (change_service_offering c instance st) as [o st'] eqn:E.
  unfold change_service_offering in E.
  crunch E; inversion E; subst; clear E; cbn [opt];
    emits_done_with ltac:(repeat split; intro; congruence).
Qed.

Lemma update_vm_emits c instance st :
  emits (carries p c)
        (opt (c_instance c || c_security_groups c)
             [LCall "updateVirtualMachine"])
        (fun _ => opt (c_instance c || c_security_groups c)
                      [LCall "updateVirtualMachine"])
        st (update_vm p c instance st).
Proof.
  destruct (update_vm p c instance st) as [o st'] eqn:E.
  unfold update_vm in E.
  destruct (c_instance c || c_security_groups c) eqn:Hb; cbn [opt].
  2:{ inversion E; subst. emits_done c. }
  pose proof (carries_update c) as Hu. unfold update_args in Hu.
  destruct (c_security_groups c) eqn:Hsg.
  - destruct (security_groups p) as [l |] eqn:Hl; simpl default in Hu;
      crunch E; inversion E; subst; clear E;
      emits_done_with ltac:(exact Hu).
  - crunch E; inversion E; subst; clear E;
      emits_done_with ltac:(exact Hu).
Qed.

Lemma reset_ssh_key_emits c instance st :
  emits (carries p c)
        (opt (c_ssh_keys c)
             [LCall "resetSSHKeyForVirtualMachine"; LPoll "virtualmachine"])
        (fun _ => opt (c_ssh_keys c)
                      [LCall "resetSSHKeyForVirtualMachine";
                       LPoll "virtualmachine"])
        st (reset_ssh_key p c instance st).
Proof.
  destruct (reset_ssh_key p c instance st) as [o st'] eqn:E.
  unfold reset_ssh_key in E.
  crunch E; inversion E; subst; clear E; cbn [opt];
    emits_done_with ltac:(repeat split; intro; try congruence; reflexivity).
Qed.

Lemma resize_root_disk_emits c st :
  emits (carries p c)
        (opt (c_root_disk_size c) [LCall "resizeVolume"; LPoll "volume"])
        (fun _ => opt (c_root_disk_size c)
                      [LCall "resizeVolume"; LPoll "volume"])
        st (resize_root_disk c st).
Proof.
  destruct (resize_root_disk c st) as [o st'] eqn:E.
  unfold resize_root_disk in E.
  crunch E; inversion E; subst; clear E; cbn [opt];
    emits_done_with ltac:(repeat split; intro; congruence).
Qed.

(** *** The update cycle *)

Lemma getitem_state instance s (st : St W) :
  field instance "state" = VStr s ->
  getitem instance "state" st = (Ok (VStr s), st).
Proof. apply getitem_field. Qed.

Lemma update_cycle_emits c s start_vm st :
  check_mode p = false ->
  live (self_instance st) ->
  emits (carries p c)
        (update_plan p c (self_instance st)
           (opt (restart_due s start_vm)
                [LCall "startVirtualMachine"; LPoll "virtualmachine"]))
        (fun s' =>
           update_plan p c (self_instance st)
             (opt (restart_due s start_vm) (start_plan p (self_instance s'))))
        st (update_cycle p c (lower s) start_vm st).
Proof.
  intros Hcm Hlive. unfold update_cycle.
  eapply emits_weaken.
  - eapply emits_bind; [apply (stop_instance_emits c st Hcm Hlive) |].
    intros i1 st1 _.
    eapply emits_bind; [apply emits_poll_job, carries_poll |].
    intros i2 st2 _.
    eapply emits_bind; [apply emits_quiet, quiet_set_instance |].
    intros _ st3 _.
    eapply emits_bind; [apply change_service_offering_emits |].
    intros i4 st4 _.
    eapply emits_bind; [apply update_vm_emits |].
    intros i5 st5 _.
    eapply emits_bind; [apply reset_ssh_key_emits |].
    intros i6 st6 _.
    eapply emits_bind; [apply resize_root_disk_emits |].
    intros _ st7 _.
    fold (restart_due s start_vm).
    instantiate (1 := fun s' =>
      opt (restart_due s start_vm) (start_plan p (self_instance s'))).
    instantiate (1 := opt (restart_due s start_vm)
      [LCall "startVirtualMachine"; LPoll "virtualmachine"]).
    destruct (restart_due s start_vm); cbn [opt].
    + apply (start_instance_emits c st7 Hcm).
    + apply emits_ret.
  - unfold update_plan, change_plan. cbn [app]. rewrite <- !app_assoc.
    reflexivity.
  - intro s'. unfold update_plan, change_plan. cbn [app].
    rewrite <- !app_assoc. reflexivity.
Qed.

Lemma bind_ok {A B} (m : M W A) (k : A -> M W B) st v st' :
  bind m k st = (Ok v, st') ->
  exists a st1, m st = (Ok a, st1) /\ k a st1 = (Ok v, st').
Proof.
  unfold bind. destruct (m st) as [[a | msg | e] st1]; try discriminate.
  intro H. exists a, st1. auto.
Qed.

Ltac bind_inv E :=
  let a := fresh "a" in
  let s := fresh "s" in
  let E1 := fresh "E" in
  cbv zeta in E; apply bind_ok in E; destruct E as (a & s & E1 & E).

Lemma dget_dset_ne d k v k' : k' <> k -> dget (dset d k v) k' = dget d k'.
Proof.
  intro Hne. induction d as [| [k0 v0] d IH]; simpl.
  - apply String.eqb_neq in Hne. rewrite Hne. reflexivity.
  - destruct (String.eqb k k0) eqn:E; simpl.
    + apply String.eqb_eq in E. subst k0.
      apply String.eqb_neq in Hne. rewrite Hne. reflexivity.
    + rewrite IH. reflexivity.
Qed.

(** The record that the change detector hands on is the instance, but for
    its user data. *)
Lemma detect_changes_instance instance st c inst' :
  fst (detect_changes p instance st) = Ok (c, inst') ->
  exists d d', instance = VDict d /\ inst' = VDict d'
               /\ forall k, k <> "userdata" -> dget d' k = dget d k.
Proof.
  destruct (detect_changes p instance st) as [o st'] eqn:E. simpl.
  intros ->. unfold detect_changes in E.
  bind_inv E.
  destruct instance as [| | | | | d]; try discriminate.
  bind_inv E. bind_inv E.
  assert (Hr : exists d', snd a1 = VDict d'
                          /\ forall k, k <> "userdata" -> dget d' k = dget d k).
  { destruct (user_data_name p).
    - bind_inv E2. bind_inv E2. inversion E2; subst. exists d. auto.
    - bind_inv E2. bind_inv E2. bind_inv E2. inversion E2; subst.
      inversion E5; subst. eexists. split; [reflexivity |].
      intros k Hk. apply dget_dset_ne, Hk. }
  bind_inv E. bind_inv E. bind_inv E. bind_inv E.
  inversion E; subst. destruct Hr as (d' & Hd' & Hk).
  exists d, d'. auto.
Qed.

Lemma detect_changes_stateless instance st c inst' :
  fst (detect_changes p instance st) = Ok (c, inst') ->
  detect_changes p instance st = (Ok (c, inst'), st).
Proof. apply stateless_run, stateless_detect_changes. Qed.

Lemma host_changed_ext d d' :
  (forall k, k <> "userdata" -> dget d' k = dget d k) ->
  host_changed p (VDict d') = host_changed p (VDict d).
Proof.
  intro H. unfold host_changed, state_in, field.
  rewrite !H by discriminate. reflexivity.
Qed.

(** *** Migration *)

Lemma field_dict v k x : field v k = VStr x -> exists d, v = VDict d.
Proof. destruct v; try discriminate. eauto. Qed.

Lemma migrate_host_spec inst s st :
  field inst "state" = VStr s ->
  exists post,
    calls (snd (migrate_host p inst st)) = calls st ++ post
    /\ labels post `prefix_of` migrate_bound
    /\ (host_changed p inst = false -> post = [])
    /\ warnings (snd (migrate_host p inst st)) = warnings st
    /\ self_instance (snd (migrate_host p inst st)) = self_instance st
    /\ changed (snd (migrate_host p inst st))
       = changed st || host_changed p inst.
Proof.
  intro Hs. destruct (field_dict _ _ _ Hs) as (d & ->).
  destruct (migrate_host p (VDict d) st) as [o st'] eqn:E. cbn [snd].
  unfold migrate_host in E.
  unfold bind at 1 in E. rewrite (getitem_state _ _ _ Hs) in E.
  unfold bind at 1 in E. cbn [str_lower ret] in E.
  unfold bind at 1 in E. rewrite get_field in E.
  unfold bind at 1 in E. rewrite get_field in E.
  destruct (host_changed p (VDict d)) eqn:Hh;
    unfold host_changed, state_in in Hh; rewrite Hs in Hh; rewrite Hh in E.
  - crunch E; inversion E; subst; clear E;
      cbn [calls warnings self_instance changed]; rewrite ?orb_true_r;
      first [ exists []; split; [rewrite app_nil_r; reflexivity |]
            | eexists; split; [rewrite <- ?app_assoc; cbn; reflexivity |] ];
      (split; [cbn; unfold migrate_bound; solve_prefix |]);
      (split; [discriminate |]); repeat split.
  - inversion E; subst. exists []. rewrite app_nil_r, orb_false_r.
    split; [reflexivity |]. split; [apply prefix_nil |]. repeat split.
Qed.

(** Whatever the record, a migration issues at most its call and the wait,
    leaves the cached instance and the warnings, and only sets the changed
    flag. *)
Lemma migrate_host_events inst st :
  exists post,
    calls (snd (migrate_host p inst st)) = calls st ++ post
    /\ labels post `prefix_of` migrate_bound
    /\ warnings (snd (migrate_host p inst st)) = warnings st
    /\ self_instance (snd (migrate_host p inst st)) = self_instance st
    /\ (changed st = true -> changed (snd (migrate_host p inst st)) = true).
Proof.
  destruct (migrate_host p inst st) as [o st'] eqn:E. cbn [snd].
  unfold migrate_host in E.
  crunch E; inversion E; subst; clear E;
    cbn [calls warnings self_instance changed];
    first [ exists []; split; [rewrite app_nil_r; reflexivity |]
          | eexists; split; [rewrite <- ?app_assoc; cbn; reflexivity |] ];
    (split; [cbn; unfold migrate_bound; solve_prefix |]);
    repeat split; auto.
Qed.

(** *** The update, applied or not *)

(** When an update is applied, [apply_changes] sets the changed flag and
    runs the cycle. *)
Lemma apply_changes_cycle c inst start_vm s st :
  any_changed c = true ->
  field inst "state" = VStr s ->
  String.eqb (lower s) "stopped" || force p = true ->
  check_mode p = false ->
  apply_changes p c inst start_vm st
  = update_cycle p c (lower s) start_vm (snd (set_changed st)).
Proof.
  intros Hany Hs Hcond Hcm. unfold apply_changes. rewrite Hany.
  unfold bind at 1. rewrite (getitem_state _ _ _ Hs).
  unfold bind at 1. cbn [str_lower ret]. rewrite Hcond.
  unfold bind at 1. rewrite Hcm. reflexivity.
Qed.


(** C2. On an instance that is not stopped and without [force], an update
    that is due is not applied: whatever the axes, the module issues
    nothing for them (no stop, no change of the offering, no update, no
    reset of the SSH keys, no resize), warns that the changes are not
    applied, and leaves the changed flag to the one other cause, the
    migration to another host. *)
Theorem update_not_applied (st : St W) (instance : Value) (start_vm : bool)
    (c : Changes) (inst' : Value) :
  fst (detect_changes p instance st) = Ok (c, inst') ->
  any_changed c = true ->
  live instance ->
  state_in instance ["stopped"] = false ->
  force p = false ->
  exists post,
    calls (snd (update_instance p instance start_vm st)) = calls st ++ post
    /\ labels post `prefix_of` migrate_bound
    /\ (host_changed p instance = false -> post = [])
    /\ warnings (snd (update_instance p instance start_vm st))
       = warnings st ++ [not_applied_warning (field instance "name")]
    /\ changed (snd (update_instance p instance start_vm st))
       = changed st || host_changed p instance.
Proof.
  intros Hdet Hany Hlive Hstate Hforce.
  destruct (detect_changes_instance _ _ _ _ Hdet) as (d & d' & -> & -> & Hk).
  destruct Hlive as (d0 & s & i & n & Heq & Hs & Hi & Hn).
  inversion Heq; subst d0; clear Heq.
  assert (Hs' : field (VDict d') "state" = VStr s).
  { unfold field. rewrite Hk by discriminate. rewrite Hs. reflexivity. }
  unfold state_in, field in Hstate. rewrite Hs in Hstate.
  cbn [str_mem existsb] in Hstate. rewrite orb_false_r in Hstate.
  assert (Hrun : update_instance p (VDict d) start_vm st
                 = migrate_host p (VDict d')
                     (snd (warn (not_applied_warning n) st))).
  { unfold update_instance. unfold bind at 1.
    rewrite (detect_changes_stateless _ _ _ _ Hdet). cbn [fst snd].
    unfold bind at 1. unfold apply_changes. rewrite Hany.
    unfold bind at 1. rewrite (getitem_state _ _ _ Hs').
    unfold bind at 1. cbn [str_lower ret]. rewrite Hstate, Hforce. cbn [orb].
    unfold bind at 1. unfold getitem at 1. rewrite Hk by discriminate.
    rewrite Hn. reflexivity. }
  rewrite Hrun. clear Hrun.
  destruct (migrate_host_spec (VDict d') s
              (snd (warn (not_applied_warning n) st)) Hs')
    as (post & Hc & Hp & Hnone & Hw & _ & Hch).
  rewrite (host_changed_ext d d' Hk) in Hnone, Hch.
  exists post. unfold field at 1. rewrite Hn.
  split; [exact Hc |]. split; [exact Hp |]. split; [exact Hnone |].
  split; [exact Hw | exact Hch].
Qed.

(** *** The resolvers of ids *)

Lemma getitem_some d k v (st : St W) :
  dget d k = Some v -> getitem (VDict d) k st = (Ok v, st).
Proof. intro H. unfold getitem. rewrite H. reflexivity. Qed.

Lemma bind_run {A B} (m : M W A) (k : A -> M W B) st a st' :
  m st = (Ok a, st') -> bind m k st = k a st'.
Proof. intro H. unfold bind. rewrite H. reflexivity. Qed.

Lemma bind_fails {A B} (m : M W A) (k : A -> M W B) st msg st' :
  m st = (Fail msg, st') -> bind m k st = (Fail msg, st').
Proof. intro H. unfold bind. rewrite H. reflexivity. Qed.

Lemma bind_raises {A B} (m : M W A) (k : A -> M W B) st e st' :
  m st = (Raise e, st') -> bind m k st = (Raise e, st').
Proof. intro H. unfold bind. rewrite H. reflexivity. Qed.

(** One step of a run: the first method of a sequence has the result that
    [H] states. *)
Ltac step H := rewrite (bind_run _ _ _ _ _ H); cbv beta.

Ltac step_item H :=
  rewrite (bind_run _ _ _ _ _ (getitem_some _ _ _ _ H)); cbv beta.

Lemma find_id_spec (st : St W) wanted xs :
  Forall entry xs ->
  find_id wanted xs st
  = (Ok (option_map id_of (find (listed_as wanted) xs)), st).
Proof.
  induction 1 as [| x xs (d & n & i & -> & Hn & Hi) _ IH].
  - reflexivity.
  - cbn [find_id find]. step_item Hn. step_item Hi.
    unfold listed_as at 1, field. rewrite Hn, Hi.
    destruct (str_in wanted [n; i]).
    + step_item Hi. cbn [option_map]. unfold id_of. rewrite Hi. reflexivity.
    + exact IH.
Qed.

(** The resolver of a listing [reply] under the key [key]. *)
Lemma resolve_listing (st : St W) what wanted key d xs :
  dget d key = Some (VList xs) ->
  Forall entry xs ->
  (let* l := getitem (VDict d) key in
   let* xs := iterate l in
   let* r := find_id wanted xs in
   match r with
   | Some i => ret i
   | None => fail_json (what ++ " '" ++ wanted ++ "' not found")%string
   end) st
  = (resolve_id what wanted xs, st).
Proof.
  intros Hk Hxs. step_item Hk.
  rewrite (bind_run _ _ _ xs st eq_refl).
  step (find_id_spec st wanted xs Hxs). unfold resolve_id.
  destruct (find (listed_as wanted) xs); reflexivity.
Qed.

(** The run of a reading command that the control plane answers. *)
Lemma query_api_list c args v (st : St W) :
  mutating c = false -> cs_list (world st) c args = inr v ->
  query_api c args st = (Ok v, st).
Proof. intros Hc Hl. unfold query_api. rewrite Hc, Hl. reflexivity. Qed.

Lemma get_zone_run k z (st : St W) :
  cs_get_zone (world st) k = inr z -> get_zone k st = (Ok z, st).
Proof. intro H. unfold get_zone. rewrite H. reflexivity. Qed.

Lemma get_account_run k a (st : St W) :
  cs_get_account (world st) k = inr a -> get_account k st = (Ok a, st).
Proof. intro H. unfold get_account. rewrite H. reflexivity. Qed.

Lemma get_domain_run k d (st : St W) :
  cs_get_domain (world st) k = inr d -> get_domain k st = (Ok d, st).
Proof. intro H. unfold get_domain. rewrite H. reflexivity. Qed.

Lemma get_project_run k pr (st : St W) :
  cs_get_project (world st) k = inr pr -> get_project k st = (Ok pr, st).
Proof. intro H. unfold get_project. rewrite H. reflexivity. Qed.

Ltac step_list H :=
  match type of H with
  | cs_list _ ?c ?a = inr ?v =>
      rewrite (bind_run _ _ _ _ _ (query_api_list c a v _ eq_refl H));
      cbv beta
  end.

(** X1. The service offering is resolved against the listed offerings: an
    empty answer fails with "Service offering '...' not found"; without the
    parameter the first listed offering is the default; with it, the first
    offering of that name or id is taken, and the resolver fails with the
    same message when there is none. *)
Theorem service_offering_resolution (st : St W) (reply : Value) :
  cs_list (world st) "listServiceOfferings" [] = inr reply ->
  (truthy reply = false ->
   get_service_offering_id p st
   = (Fail ("Service offering '" ++ str_of_opt (service_offering p)
            ++ "' not found"), st))
  /\ (forall d xs,
        reply = VDict d ->
        dget d "serviceoffering" = Some (VList xs) ->
        Forall entry xs ->
        get_service_offering_id p st
        = (if given (service_offering p)
           then resolve_id "Service offering"
                           (str_of_opt (service_offering p)) xs
           else match xs with
                | x :: _ => Ok (id_of x)
                | [] => Raise "IndexError"
                end, st)).
Proof.
  intro Hl. split.
  - intro Ht. unfold get_service_offering_id. step_list Hl. rewrite Ht.
    reflexivity.
  - intros d xs -> Hk Hxs. unfold get_service_offering_id. step_list Hl.
    rewrite (dget_truthy _ _ _ Hk).
    destruct (given (service_offering p)); cbn [negb].
    + apply (resolve_listing st "Service offering" _ _ d xs Hk Hxs).
    + step_item Hk. destruct Hxs as [| x xs (dx & n & i & -> & _ & Hi) _].
      * reflexivity.
      * rewrite (bind_run _ _ _ (VDict dx) st eq_refl).
        unfold id_of. rewrite Hi. apply getitem_some, Hi.
Qed.


(** *** Looking the instance up *)

Lemma dget_dset_eq d k v : dget (dset d k v) k = Some v.
Proof.
  induction d as [| [k0 v0] d IH]; simpl.
  - rewrite String.eqb_refl. reflexivity.
  - destruct (String.eqb k k0) eqn:E; simpl; rewrite E; [reflexivity | exact IH].
Qed.

Lemma bind_assoc {A B C} (m : M W A) (f : A -> M W B) (g : B -> M W C) st :
  bind (bind m f) g st = bind m (fun a => bind (f a) g) st.
Proof. unfold bind. destruct (m st) as [[a | msg | e] st1]; reflexivity. Qed.

(** A step whose result is computed. *)
Ltac step_ret a :=
  match goal with
  | |- context [bind ?m ?k ?st] =>
      rewrite (bind_run m k st a st eq_refl); cbv beta
  end.

Lemma has_key_run d k (st : St W) :
  has_key k (VDict d) st
  = (Ok (match dget d k with Some _ => true | None => false end), st).
Proof. reflexivity. Qed.

Lemma find_instance_spec (st : St W) nm vs :
  Forall machine vs ->
  find_instance (Some nm) vs st
  = (Ok (option_map with_keypairs_list (find (machine_named nm) vs)), st).
Proof.
  induction 1 as [| v vs (d & n & dn & i & -> & Hn & Hdn & Hi) _ IH].
  - reflexivity.
  - cbn [find_instance find of_opt_str].
    step_ret (lower nm). step_item Hn. step_ret (lower n).
    step_item Hdn. step_ret (lower dn). step_item Hi.
    unfold machine_named at 1, field. rewrite Hn, Hdn, Hi.
    destruct (str_in (lower nm) [VStr (lower n); VStr (lower dn); i]);
      [| exact IH].
    cbn [option_map with_keypairs_list].
    destruct (dget d "keypairs") as [kp |] eqn:Hkp.
    + step (has_key_run d "keypairs" st). rewrite Hkp.
      step_ret (VDict d). step_item Hkp.
      destruct kp; reflexivity.
    + step (has_key_run d "keypairs" st). rewrite Hkp.
      step_ret (VDict (dset d "keypairs" (VList []))).
      step_item (dget_dset_eq d "keypairs" (VList [])). reflexivity.
Qed.

(** X3. Without a cached record, or on a refresh, the instance is looked
    up among the listed machines of the account, the domain and the
    project, in no particular zone: the first machine whose name or display
    name is the wanted name, whatever the case of the letters, or whose id
    is the lower-cased wanted name, is cached and returned with its key
    pairs as a list.  When no machine matches, the cached record stays as
    it was, also on a refresh. *)
Theorem instance_lookup (st : St W) (refresh : bool) (nm : string)
    (a d pr : Value) (vs : list Value) :
  truthy (self_instance st) = false \/ refresh = true ->
  get_or_fallback (name p) (display_name p) = Some nm ->
  cs_get_account (world st) "name" = inr a ->
  cs_get_domain (world st) "id" = inr d ->
  cs_get_project (world st) "id" = inr pr ->
  cs_list (world st) "listVirtualMachines" (instances_query a d pr)
  = inr (VList vs) ->
  Forall machine vs ->
  get_instance p refresh st
  = match find (machine_named nm) vs with
    | Some v => (Ok (with_keypairs_list v),
                 snd (set_instance (with_keypairs_list v) st))
    | None => (Ok (self_instance st), st)
    end.
Proof.
  intros Hc Hnm Ha Hd Hpr Hl Hvs.
  assert (Hc' : negb (truthy (self_instance st)) || refresh = true).
  { destruct Hc as [-> | ->]; [reflexivity | apply orb_true_r]. }
  unfold get_instance. step_ret (self_instance st). rewrite Hc', Hnm.
  rewrite bind_assoc. step (get_account_run _ _ _ Ha).
  rewrite bind_assoc. step (get_domain_run _ _ _ Hd).
  rewrite bind_assoc. step (get_project_run _ _ _ Hpr).
  rewrite bind_assoc. unfold instances_query in Hl. step_list Hl.
  destruct vs as [| v vs'].
  - reflexivity.
  - cbn [truthy]. rewrite bind_assoc. step_ret (v :: vs').
    rewrite bind_assoc. step (find_instance_spec st nm (v :: vs') Hvs).
    destruct (find (machine_named nm) (v :: vs')); reflexivity.
Qed.

Lemma getitem_inv v k x (st st' : St W) :
  getitem v k st = (Ok x, st') ->
  exists d, v = VDict d /\ dget d k = Some x /\ st' = st.
Proof.
  unfold getitem. destruct v as [| | | | | d]; try discriminate.
  destruct (dget d k) eqn:E; try discriminate.
  intro H. inversion H; subst. eauto.
Qed.

Lemma find_instance_keypairs (st st' : St W) nm vs v :
  find_instance nm vs st = (Ok (Some v), st') ->
  exists l, field v "keypairs" = VList l.
Proof.
  revert st. induction vs as [| v0 vs IH]; intros st E.
  - discriminate.
  - cbn [find_instance] in E.
    bind_inv E. bind_inv E. bind_inv E. bind_inv E. bind_inv E. bind_inv E.
    destruct (str_in a [VStr a1; VStr a3; a4]); [| exact (IH _ E)].
    bind_inv E. bind_inv E. bind_inv E. bind_inv E.
    inversion E; subst; clear E.
    apply getitem_inv in E8 as (d1 & -> & Hkp & ->).
    destruct a7 as [| | | |l|].
    5:{ inversion E9; subst. exists l. unfold field. rewrite Hkp. reflexivity. }
    all: inversion E9; subst; eexists; unfold field;
      rewrite dget_dset_eq; reflexivity.
Qed.

(** X4. A record that [get_instance] has looked up always has its key
    pairs as a list, whatever the control plane has listed: a missing
    [keypairs] becomes the empty list, a single value the list of that
    value. *)
Theorem instance_keypairs_normalised (st st' : St W) (refresh : bool)
    (v : Value) :
  truthy (self_instance st) = false ->
  get_instance p refresh st = (Ok v, st') ->
  truthy v = true ->
  exists l, field v "keypairs" = VList l.
Proof.
  intros Hnone E Hv. unfold get_instance in E.
  apply bind_ok in E as (i0 & s0 & E0 & E). inversion E0; subst; clear E0.
  apply bind_ok in E as (u & s1 & E1 & E). inversion E; subst; clear E.
  assert (Hstay : st' = s0 -> False).
  { intros ->. rewrite Hnone in Hv. discriminate. }
  destruct (negb (truthy (self_instance s0)) || refresh);
    [| inversion E1; subst; destruct (Hstay eq_refl)].
  apply bind_ok in E1 as (a & s1 & E & E1).
  apply (stateless_snd _ _ _ _ (stateless_get_account _)) in E. subst s1.
  apply bind_ok in E1 as (d & s1 & E & E1).
  apply (stateless_snd _ _ _ _ (stateless_get_domain _)) in E. subst s1.
  apply bind_ok in E1 as (pr & s1 & E & E1).
  apply (stateless_snd _ _ _ _ (stateless_get_project _)) in E. subst s1.
  apply bind_ok in E1 as (instances & s1 & E & E1).
  apply (stateless_snd _ _ _ _
           (stateless_query_api "listVirtualMachines" _ eq_refl)) in E.
  subst s1.
  destruct (truthy instances);
    [| inversion E1; subst; destruct (Hstay eq_refl)].
  apply bind_ok in E1 as (vs & s1 & E & E1).
  apply (stateless_snd _ _ _ _ (stateless_iterate _)) in E. subst s1.
  apply bind_ok in E1 as (r & s1 & E & E1).
  destruct r as [v0 |].
  - inversion E1; subst; clear E1. cbn [self_instance].
    exact (find_instance_keypairs _ _ _ _ _ E).
  - inversion E1; subst.
    apply (stateless_snd _ _ _ _ (stateless_find_instance _ _)) in E.
    destruct (Hstay E).
Qed.

(** *** Networks *)

Lemma find_network_spec (st : St W) nm ns :
  Forall network ns ->
  find_network nm ns st
  = (Ok (option_map (fun n => (id_of n, field n "name"))
                    (find (network_named nm) ns)), st).
Proof.
  induction 1 as [| n ns (d & dt & nn & i & -> & Hdt & Hnn & Hi) _ IH].
  - reflexivity.
  - cbn [find_network find]. step_item Hdt. step_item Hnn. step_item Hi.
    unfold network_named at 1, field. rewrite Hdt, Hnn, Hi.
    destruct (py_in nm [dt; nn; i]); [| exact IH].
    step_item Hi. step_item Hnn. cbn [option_map]. unfold id_of, field.
    rewrite Hi, Hnn. reflexivity.
Qed.

Lemma find_networks_spec (st : St W) names ns :
  Forall network ns ->
  find_networks names ns st
  = (Ok (map id_of (networks_found names ns),
         map (fun n => field n "name") (networks_found names ns)), st).
Proof.
  intro Hns. induction names as [| nm names IH].
  - reflexivity.
  - cbn [find_networks]. step (find_network_spec st nm ns Hns). step IH.
    unfold networks_found. cbn [omap list_omap].
    destruct (find (network_named nm) ns); reflexivity.
Qed.

Lemma networks_found_length names ns :
  (length (networks_found names ns) <= length names)%nat.
Proof.
  unfold networks_found. induction names as [| nm names IH]; cbn.
  - lia.
  - destruct (find (network_named nm) ns); cbn; lia.
Qed.

(** The run of [get_network_ids] on names that are given, against a
    listing that is not empty. *)
Lemma get_network_ids_run (st : St W) arg names a d pr z nets ns :
  requested_networks p arg = Some names -> names <> [] ->
  cs_get_account (world st) "name" = inr a ->
  cs_get_domain (world st) "id" = inr d ->
  cs_get_project (world st) "id" = inr pr ->
  cs_get_zone (world st) "id" = inr z ->
  cs_list (world st) "listNetworks" (networks_query a d pr z) = inr nets ->
  truthy nets = true -> elements_of nets = Some ns -> Forall network ns ->
  get_network_ids p arg st
  = (if Nat.eqb (length (networks_found names ns)) (length names)
     then Ok (VList (map id_of (networks_found names ns)))
     else Fail (networks_missing (networks_found names ns)), st).
Proof.
  intros Hreq Hne Ha Hd Hpr Hz Hl Ht He Hns.
  unfold get_network_ids. cbv zeta. unfold requested_networks in Hreq.
  rewrite Hreq. destruct names as [| nm names]; [congruence |].
  step (get_account_run _ _ _ Ha). step (get_domain_run _ _ _ Hd).
  step (get_project_run _ _ _ Hpr). step (get_zone_run _ _ _ Hz).
  unfold networks_query in Hl. step_list Hl. rewrite Ht. cbn [negb].
  step (iterate_elements _ _ st He).
  step (find_networks_spec st (nm :: names) ns Hns). cbn [fst snd].
  rewrite length_map.
  destruct (Nat.eqb (length (networks_found (nm :: names) ns))
                    (length (nm :: names))); reflexivity.
Qed.

Lemma networks_found_all names ns :
  Nat.eqb (length (networks_found names ns)) (length names)
  = forallb (fun nm => existsb (network_named nm) ns) names.
Proof.
  induction names as [| nm names IH]; [reflexivity |].
  pose proof (networks_found_length names ns) as Hle.
  unfold networks_found in *. cbn [omap list_omap forallb].
  destruct (find (network_named nm) ns) eqn:E.
  - apply find_some in E as (Hin & Hnm).
    assert (Hex : existsb (network_named nm) ns = true).
    { apply existsb_exists. eauto. }
    rewrite Hex. exact IH.
  - assert (Hex : existsb (network_named nm) ns = false).
    { apply not_true_is_false. intro Hex.
      apply existsb_exists in Hex as (x & Hin & Hx).
      apply (find_none _ _ E) in Hin. congruence. }
    rewrite Hex. apply Nat.eqb_neq. cbn [length]. lia.
Qed.

(** X5. The networks are resolved name by name against the listed networks
    of the zone, each by display text, name or id, to the first network
    that matches.  The ids come in the order of the names, and the
    resolution succeeds exactly when every name is found; otherwise it
    fails with the names of the networks that were found.  An empty listing
    fails with "No networks available", and without names nothing is
    asked. *)
Theorem network_ids_resolution (st : St W) (arg : option (list Value))
    (names : list Value) (a d pr z nets : Value) :
  requested_networks p arg = Some names ->
  cs_get_account (world st) "name" = inr a ->
  cs_get_domain (world st) "id" = inr d ->
  cs_get_project (world st) "id" = inr pr ->
  cs_get_zone (world st) "id" = inr z ->
  cs_list (world st) "listNetworks" (networks_query a d pr z) = inr nets ->
  (names = [] -> get_network_ids p arg st = (Ok VNone, st))
  /\ (names <> [] -> truthy nets = false ->
      get_network_ids p arg st = (Fail "No networks available", st))
  /\ (forall ns,
        names <> [] -> truthy nets = true ->
        elements_of nets = Some ns -> Forall network ns ->
        get_network_ids p arg st
        = (if forallb (fun nm => existsb (network_named nm) ns) names
           then Ok (VList (map id_of (networks_found names ns)))
           else Fail (networks_missing (networks_found names ns)), st)).
Proof.
  intros Hreq Ha Hd Hpr Hz Hl. split; [| split].
  - intros ->. unfold get_network_ids. cbv zeta.
    unfold requested_networks in Hreq. rewrite Hreq. reflexivity.
  - intros Hne Ht. unfold get_network_ids. cbv zeta.
    unfold requested_networks in Hreq. rewrite Hreq.
    destruct names as [| nm names]; [congruence |].
    step (get_account_run _ _ _ Ha). step (get_domain_run _ _ _ Hd).
    step (get_project_run _ _ _ Hpr). step (get_zone_run _ _ _ Hz).
    unfold networks_query in Hl. step_list Hl. rewrite Ht. reflexivity.
  - intros ns Hne Ht He Hns.
    rewrite (get_network_ids_run st arg names a d pr z nets ns
               Hreq Hne Ha Hd Hpr Hz Hl Ht He Hns).
    rewrite networks_found_all. reflexivity.
Qed.

Lemma map_m_network (st : St W) ms :
  Forall mapping ms ->
  map_m (fun n => getitem n "network") ms st
  = (Ok (map (fun m => field m "network") ms), st).
Proof.
  induction 1 as [| m ms (d & nm & -> & Hnm & _) _ IH].
  - reflexivity.
  - cbn [map_m map]. step_item Hnm. step IH. unfold field. rewrite Hnm.
    reflexivity.
Qed.

Lemma zip_networkids_spec (st : St W) found ms :
  Forall mapping ms -> length found = length ms ->
  zip_networkids (map id_of found) ms st
  = (Ok (zip_with mapping_with_id found ms), st).
Proof.
  intro Hms. revert found.
  induction Hms as [| m ms (d & nm & -> & _ & Hid) _ IH];
    intros [| n found] Hlen; try discriminate.
  - reflexivity.
  - cbn [zip_networkids map zip_with]. unfold with_networkid at 1.
    rewrite Hid. step_ret (VDict (("networkid", id_of n) :: d)).
    injection Hlen as Hlen. step (IH found Hlen). reflexivity.
Qed.

(** X6. The mappings of [ip_to_networks] are resolved through the networks
    they name: when every network is found, each mapping comes back with
    the id of its network in front, under [networkid], in the order of the
    mappings; when one is not found, the resolution fails as that of the
    networks does.  An empty list of mappings gives an empty list. *)
Theorem iptonetwork_mappings_resolution (st : St W) (ms : list Value)
    (a d pr z nets : Value) (ns : list Value) :
  ip_to_networks p = Some ms ->
  truthy (of_opt_strs (networks p)) = false ->
  Forall mapping ms ->
  cs_get_account (world st) "name" = inr a ->
  cs_get_domain (world st) "id" = inr d ->
  cs_get_project (world st) "id" = inr pr ->
  cs_get_zone (world st) "id" = inr z ->
  cs_list (world st) "listNetworks" (networks_query a d pr z) = inr nets ->
  truthy nets = true -> elements_of nets = Some ns -> Forall network ns ->
  get_iptonetwork_mappings p st
  = (let found := networks_found (map (fun m => field m "network") ms) ns in
     if Nat.eqb (length found) (length ms)
     then Ok (VList (zip_with mapping_with_id found ms))
     else Fail (networks_missing found), st).
Proof.
  intros Hip Hnone Hms Ha Hd Hpr Hz Hl Ht He Hns. cbv zeta.
  unfold get_iptonetwork_mappings. rewrite Hip, Hnone, andb_false_r.
  step_ret tt. step (map_m_network st ms Hms).
  destruct ms as [| m ms']; [reflexivity |].
  remember (map (fun m => field m "network") (m :: ms')) as names eqn:Hn.
  assert (Hne : names <> []) by (subst names; discriminate).
  pose proof (get_network_ids_run st (Some names) names
                a d pr z nets ns eq_refl Hne Ha Hd Hpr Hz Hl Ht He Hns)
    as Hrun.
  assert (Hlm : length names = length (m :: ms')).
  { subst names. apply length_map. }
  rewrite Hlm in Hrun.
  destruct (Nat.eqb (length (networks_found names ns)) (length (m :: ms')))
    eqn:Hlen.
  - step Hrun. rewrite bind_assoc.
    step (iterate_elements (VList (map id_of (networks_found names ns)))
                           _ st eq_refl).
    apply Nat.eqb_eq in Hlen.
    step (zip_networkids_spec st _ (m :: ms') Hms Hlen).
    reflexivity.
  - apply (bind_fails _ _ _ _ _ Hrun).
Qed.

(** *** Deployment *)

(** X7. The details of a deployment are those of the parameter [details],
    but for the keys [cpuNumber], [cpuSpeed] and [memory]: each is set from
    [cpu], [cpu_speed] or [memory] when that parameter is given and not
    zero, and overrides a value given in [details].  When none of the three
    is given, the details are the parameter as it is, [None] included. *)
Theorem details_overrides :
  (forall k,
     field (get_details p) k
     = if given_int (details_override p k)
       then of_opt_int (details_override p k)
       else field (of_opt_dict (details p)) k)
  /\ (given_int (cpu p) = false -> given_int (cpu_speed p) = false ->
      given_int (memory p) = false ->
      get_details p = of_opt_dict (details p)).
Proof.
  split.
  - intro k. unfold get_details, details_override, given_int.
    assert (Hd : forall k', field (VDict (default [] (details p))) k'
                            = field (of_opt_dict (details p)) k').
    { intro k'. destruct (details p); reflexivity. }
    destruct (truthy (of_opt_int (cpu p))) eqn:Hc;
      destruct (truthy (of_opt_int (cpu_speed p))) eqn:Hs;
      destruct (truthy (of_opt_int (memory p))) eqn:Hm; cbn [orb];
      (destruct (String.eqb_spec k "cpuNumber") as [-> | N1];
       [| destruct (String.eqb_spec k "cpuSpeed") as [-> | N2];
          [| destruct (String.eqb_spec k "memory") as [-> | N3]]]);
      cbn [String.eqb Ascii.eqb Bool.eqb];
      rewrite ?Hc, ?Hs, ?Hm; cbn [truthy of_opt_int];
      try reflexivity;
      rewrite <- ?Hd; unfold field;
      repeat first [ rewrite dget_dset_eq
                   | rewrite dget_dset_ne by (assumption || discriminate) ];
      reflexivity.
  - unfold get_details, given_int. intros -> -> ->. reflexivity.
Qed.

Lemma bind_set_changed {B} (k : unit -> M W B) st :
  bind set_changed k st = k tt (snd (set_changed st)).
Proof. reflexivity. Qed.

(** X8. Without a template and without an ISO there is no deployment:
    once the changed flag is set, [deploy_instance] fails with "Template or
    ISO is required." and has asked nothing of the control plane. *)
Theorem deploy_requires_boot_source (st : St W) (start_vm : bool) :
  given (template p) = false -> given (iso p) = false ->
  truthy (of_opt_strs (networks p)) = false ->
  deploy_instance p start_vm st
  = (Fail "Template or ISO is required.", snd (set_changed st)).
Proof.
  intros Ht Hi Hn. unfold deploy_instance. rewrite bind_set_changed.
  assert (Hnet : get_network_ids p None (snd (set_changed st))
                 = (Ok VNone, snd (set_changed st))).
  { unfold get_network_ids. destruct (networks p) as [[| n ns] |];
      try reflexivity. discriminate. }
  step Hnet. step_ret VNone.
  assert (Htpl : get_template_or_iso p (Some "id") (snd (set_changed st))
                 = (Ok VNone, snd (set_changed st))).
  { unfold get_template_or_iso. rewrite Ht, Hi. reflexivity. }
  step Htpl. reflexivity.
Qed.

Lemma emits_quiet_bind {A B} G (m : M W A) (k : A -> M W B) b e st :
  quiet m ->
  (forall a st1, m st = (Ok a, st1) -> emits G b e st1 (k a st1)) ->
  emits G b e st (bind m k st).
Proof.
  intros Hq Hk. destruct (Hq st) as (_ & Hc & Hch & _). unfold bind.
  destruct (m st) as [[a | msg | x] st1] eqn:Em; cbn [snd] in *.
  - apply (emits_from _ _ _ st st1 _ Hc); [congruence |]. apply Hk.
    reflexivity.
  - exists []. cbn [fst snd]. rewrite app_nil_r.
    split; [exact Hc |]. split; [constructor |]. split; [apply prefix_nil |].
    split; [discriminate | congruence].
  - exists []. cbn [fst snd]. rewrite app_nil_r.
    split; [exact Hc |]. split; [constructor |]. split; [apply prefix_nil |].
    split; [discriminate | congruence].
Qed.

Ltac quiet_bind :=
  apply emits_quiet_bind;
  [ first [apply quiet_get_template_or_iso | solve [quiet_tac]] | intros ].

Lemma deploy_instance_emits (st : St W) (start_vm : bool) :
  emits (deploys p start_vm) (deploy_plan p) (fun _ => deploy_plan p)
        (snd (set_changed st)) (deploy_instance p start_vm st).
Proof.
  unfold deploy_instance. rewrite bind_set_changed.
  do 17 quiet_bind.
  match goal with
  | H : _ = (Ok ?args, _) |- emits _ _ _ _ ((if negb _ then _ else _) _) =>
      assert (Hargs : deploys p start_vm (Invoke "deployVirtualMachine" args));
      [ clear - H;
        repeat match type of H with
               | (if ?b then _ else _) _ = _ => destruct b
               | bind _ _ _ = _ =>
                   let x := fresh in
                   let s := fresh in
                   let E := fresh in
                   apply bind_ok in H as (x & s & E & H)
               end;
        inversion H; subst;
        (split; [reflexivity |]);
        repeat split; rewrite ?dget_dset_ne by discriminate; reflexivity
      | ]
  end.
  unfold deploy_plan.
  destruct (check_mode p); cbn [negb opt]; [apply emits_ret |].
  destruct (poll_async p); cbn [opt app].
  - eapply emits_weaken.
    + eapply emits_bind;
        [apply emits_query_api; [reflexivity | exact Hargs] |].
      intros i s _. apply emits_poll_job. reflexivity.
    + reflexivity.
    + reflexivity.
  - eapply emits_weaken.
    + eapply emits_bind;
        [apply emits_query_api; [reflexivity | exact Hargs] |].
      intros i s _. apply emits_ret.
    + reflexivity.
    + reflexivity.
Qed.

(** X9. A deployment sets the changed flag and, unless the module runs in
    check mode, submits one [deployVirtualMachine], followed by the wait
    for its job when the module waits for jobs; nothing else is asked of
    the control plane, and a run that fails has submitted at most that.
    The call carries the name, the display name (the name when there is
    none), the key pairs, the details and the start flag it was asked
    for. *)
Theorem deploy_issues (st : St W) (start_vm : bool) :
  exists new,
    calls (snd (deploy_instance p start_vm st)) = calls st ++ new
    /\ Forall (deploys p start_vm) new
    /\ labels new `prefix_of` deploy_plan p
    /\ (is_ok (fst (deploy_instance p start_vm st)) = true ->
        labels new = deploy_plan p)
    /\ changed (snd (deploy_instance p start_vm st)) = true.
Proof.
  destruct (deploy_instance_emits st start_vm)
    as (new & Hc & Hg & Hp & He & Hch).
  exists new. split; [exact Hc |]. split; [exact Hg |].
  split; [exact Hp |]. split; [exact He |]. apply Hch. reflexivity.
Qed.

(** *** Recovering and destroying *)

(** X10. Recovery concerns an instance that is destroying or destroyed
    only: the changed flag is set and, unless the module runs in check
    mode, one [recoverVirtualMachine] is submitted for its id, without a
    wait.  An instance in any other state is returned as it is. *)
Theorem recovery_of_destroyed (st : St W) (inst : Value) :
  live inst ->
  calls (snd (recover_instance p inst st))
  = calls st ++ opt (recover_due inst)
                    (action_on p "recoverVirtualMachine"
                               [("id", id_of inst)] [])
  /\ changed (snd (recover_instance p inst st))
     = changed st || recover_due inst
  /\ (recover_due inst = false -> recover_instance p inst st = (Ok inst, st))
  /\ (check_mode p = true -> fst (recover_instance p inst st) = Ok inst).
Proof.
  intro Hlive.
  destruct (live_inv _ Hlive) as (d & s & i & -> & _ & Hd & Hi).
  unfold recover_due, action_on, state_in, id_of, field. rewrite Hd, Hi.
  destruct (recover_instance p (VDict d) st) as [o st'] eqn:E.
  unfold recover_instance, bind in E. cbn -[str_mem] in E.
  rewrite Hd in E. cbn -[str_mem] in E.
  destruct (str_mem (lower s) ["destroying"; "destroyed"]) eqn:Hdue.
  - rewrite Hi in E. destruct (check_mode p) eqn:Hcm;
      crunch E; inversion E; subst; clear E; cbn;
      rewrite ?orb_true_r, ?app_nil_r; repeat split; try discriminate.
  - inversion E; subst. cbn. rewrite orb_false_r, app_nil_r.
    repeat split.
Qed.

Lemma main_absent st :
  str_mem (state p) ["absent"; "destroyed"] = true ->
  snd (main p st) = snd (absent_instance p st).
Proof.
  intro Hs. unfold main. cbv zeta. rewrite Hs.
  apply snd_bind_stateless. intro a. stateless_tac.
Qed.

(** X11. Under the targets [absent] and [destroyed], an instance that
    exists and is not expunging, destroying or destroyed is destroyed: the
    changed flag is set and, unless the module runs in check mode, exactly
    one [destroyVirtualMachine] is submitted for its id, without [expunge],
    followed by at most the wait for its job.  Otherwise nothing is
    submitted, no wait either, and the changed flag stays. *)
Theorem absent_target_calls (st st1 : St W) (inst : Value) :
  str_mem (state p) ["absent"; "destroyed"] = true ->
  get_instance p false st = (Ok inst, st1) ->
  (truthy inst = true -> live inst) ->
  exists polls,
    waits p polls
    /\ calls (snd (main p st))
       = calls st ++ opt (destroy_due inst)
                         (action_on p "destroyVirtualMachine"
                                    [("id", id_of inst)] polls)
    /\ changed (snd (main p st)) = changed st || destroy_due inst.
Proof.
  intros Hs Hget Hlive. rewrite (main_absent st Hs).
  pose proof (quiet_get_instance false st) as Hq.
  rewrite Hget in Hq. simpl in Hq. destruct Hq as (Hw & Hc & Hch & _).
  destruct (absent_instance p st) as [o st'] eqn:E. simpl snd.
  unfold absent_instance, bind in E. rewrite Hget in E.
  unfold destroy_due, action_on, waits.
  destruct (truthy inst) eqn:Ht.
  2:{ inversion E; subst. exists []. cbn.
      rewrite app_nil_r, orb_false_r. repeat split; auto. }
  destruct (live_inv _ (Hlive eq_refl)) as (d & s & i & -> & _ & Hd & Hi).
  unfold state_in, id_of, field. rewrite Hd, Hi.
  cbn -[str_mem] in E. rewrite Hd in E. cbn -[str_mem] in E.
  destruct (str_mem (lower s) ["expunging"; "destroying"; "destroyed"])
    eqn:Hdue; cbn [negb andb opt] in *.
  - inversion E; subst. exists []. cbn.
    rewrite app_nil_r, orb_false_r. repeat split; auto.
  - rewrite Hi in E.
    destruct (check_mode p) eqn:Hcm; destruct (poll_async p) eqn:Hpa;
      crunch E; inversion E; subst; clear E; cbn;
      rewrite ?Hc, ?Hch, ?orb_true_r, ?app_nil_r, <- ?app_assoc; cbn;
      first [ exists []; repeat split; auto; fail
            | eexists [PollJob _ _]; repeat split; auto;
              try (repeat constructor); try discriminate; fail ].
Qed.

(** *** Stopping, starting and restarting *)

Lemma pure_bind {A B} (m : M W A) (k : A -> M W B) :
  pure_method m -> (forall a, pure_method (k a)) -> pure_method (bind m k).
Proof.
  intros (o & Ho) Hk. destruct o as [a | msg | e].
  - destruct (Hk a) as (o' & Ho'). exists o'. intro st. unfold bind.
    rewrite Ho. apply Ho'.
  - exists (Fail msg). intro st. unfold bind. rewrite Ho. reflexivity.
  - exists (Raise e). intro st. unfold bind. rewrite Ho. reflexivity.
Qed.

Lemma pure_getitem v k : pure_method (getitem (W:=W) v k).
Proof.
  unfold getitem. destruct v as [| | | | | d]; try (eexists; reflexivity).
  destruct (dget d k); eexists; reflexivity.
Qed.

Lemma pure_iterate v : pure_method (iterate (W:=W) v).
Proof. destruct v; eexists; reflexivity. Qed.

Lemma pure_find_id wanted xs : pure_method (find_id (W:=W) wanted xs).
Proof.
  induction xs as [| x xs IH]; cbn [find_id].
  - eexists; reflexivity.
  - apply pure_bind; [apply pure_getitem | intro n].
    apply pure_bind; [apply pure_getitem | intro i].
    destruct (str_in wanted [n; i]); [| exact IH].
    apply pure_bind; [apply pure_getitem | intro r]. eexists; reflexivity.
Qed.

(** The host is resolved from the world alone. *)
Lemma get_host_id_world (s s' : St W) :
  world s = world s' -> fst (get_host_id p s) = fst (get_host_id p s').
Proof.
  intro Hw. unfold get_host_id.
  destruct (negb (given (host p))); [reflexivity |].
  rewrite (bind_unfold (get_zone "id") _ s), (bind_unfold (get_zone "id") _ s').
  unfold get_zone. rewrite Hw.
  destruct (cs_get_zone (world s') "id") as [msg | z]; [reflexivity |].
  cbn [of_reply ret].
  rewrite (bind_unfold (query_api _ _) _ s), (bind_unfold (query_api _ _) _ s').
  unfold query_api.
  change (mutating "listHosts") with false. cbv iota. rewrite Hw.
  destruct (cs_list (world s') "listHosts" _) as [msg | hosts];
    [reflexivity |].
  cbn [of_reply ret]. destruct (truthy hosts); [| reflexivity].
  match goal with
  | |- fst (?m s) = fst (?m s') =>
      assert (Hp : pure_method m)
  end.
  { apply pure_bind; [apply pure_getitem | intro l].
    apply pure_bind; [apply pure_iterate | intro xs].
    apply pure_bind; [apply pure_find_id | intro r].
    destruct r; eexists; reflexivity. }
  destruct Hp as (o & Ho). rewrite !Ho. reflexivity.
Qed.

Lemma get_host_id_at (s s' : St W) :
  world s' = world s -> get_host_id p s' = (fst (get_host_id p s), s').
Proof.
  intro Hw. rewrite <- (get_host_id_world s' s Hw).
  apply stateless_run; [apply stateless_get_host_id | reflexivity].
Qed.

Lemma str_mem_two s a b :
  str_mem s [a; b] = true -> s = a \/ s = b.
Proof.
  cbn [str_mem existsb]. rewrite orb_false_r.
  intro H. apply orb_true_iff in H as [H | H]; apply String.eqb_eq in H; auto.
Qed.

(** Closing the account of a transition once its run is computed: the
    waits are none, or the one wait that was issued. *)
Ltac close_transition :=
  first [ exists []; repeat split; auto; try discriminate; fail
        | eexists [PollJob _ _]; repeat split; auto;
          try (repeat constructor); try discriminate; fail ].

(** X12. Stopping an instance that is starting or running sets the changed
    flag and, unless the module runs in check mode, submits exactly one
    [stopVirtualMachine] for its id, followed by at most the wait for its
    job; in check mode the instance is returned as it is. *)
Theorem stop_of_running (st st1 : St W) (inst : Value) :
  get_instance p false st = (Ok inst, st1) ->
  live inst ->
  state_in inst ["starting"; "running"] = true ->
  exists polls,
    waits p polls
    /\ calls (snd (stop_instance p st))
       = calls st ++ action_on p "stopVirtualMachine"
                               [("id", id_of inst)] polls
    /\ changed (snd (stop_instance p st)) = true
    /\ (check_mode p = true -> fst (stop_instance p st) = Ok inst).
Proof.
  intros Hget Hlive Hs.
  pose proof (quiet_get_instance false st) as Hq.
  rewrite Hget in Hq. simpl in Hq. destruct Hq as (Hw & Hc & Hch & _).
  destruct (live_inv _ Hlive) as (d & s & i & -> & Ht & Hd & Hi).
  unfold state_in, field in Hs. rewrite Hd in Hs. apply str_mem_two in Hs.
  destruct (stop_instance p st) as [o st'] eqn:E. cbn [fst snd].
  unfold stop_instance, bind in E. rewrite Hget, Ht in E.
  unfold action_on, waits, id_of. rewrite Hi.
  cbn in E. rewrite Hd in E. cbn in E.
  destruct Hs as [Hs | Hs]; rewrite Hs in E; cbn in E; rewrite Hi in E;
    destruct (check_mode p) eqn:Hcm; destruct (poll_async p) eqn:Hpa;
    crunch E; inversion E; subst; clear E; cbn;
    rewrite ?Hc, <- ?app_assoc, ?app_nil_r; cbn;
    close_transition.
Qed.

(** X13. Starting an instance that is stopped or stopping sets the changed
    flag.  In check mode nothing is asked, not even the host.  Otherwise
    the host is resolved first: when it is, exactly one
    [startVirtualMachine] is submitted for the id of the instance with the
    id of the host ([None] without the parameter), followed by at most the
    wait for its job; when the host cannot be resolved the start fails as
    the resolution does, and nothing is submitted. *)
Theorem start_of_stopped (st st1 : St W) (inst : Value) :
  get_instance p false st = (Ok inst, st1) ->
  live inst ->
  state_in inst ["stopped"; "stopping"] = true ->
  (check_mode p = true ->
   start_instance p st = (Ok inst, snd (set_changed st1)))
  /\ (check_mode p = false ->
      changed (snd (start_instance p st)) = true
      /\ match fst (get_host_id p st) with
         | Ok h =>
             exists polls,
               waits p polls
               /\ calls (snd (start_instance p st))
                  = calls st ++ Invoke "startVirtualMachine"
                                       [("id", id_of inst); ("hostid", h)]
                                :: polls
         | _ =>
             calls (snd (start_instance p st)) = calls st
             /\ fst (start_instance p st) = fst (get_host_id p st)
         end).
Proof.
  intros Hget Hlive Hs.
  pose proof (quiet_get_instance false st) as Hq.
  rewrite Hget in Hq. simpl in Hq. destruct Hq as (Hw & Hc & Hch & _).
  destruct (live_inv _ Hlive) as (d & s & i & -> & Ht & Hd & Hi).
  unfold state_in, field in Hs. rewrite Hd in Hs. apply str_mem_two in Hs.
  destruct (start_instance p st) as [o st'] eqn:E. cbn [fst snd].
  unfold start_instance, bind in E. rewrite Hget, Ht in E.
  unfold waits, id_of. rewrite Hi.
  cbn -[get_host_id] in E. rewrite Hd in E. cbn -[get_host_id] in E.
  split; intro Hcm; rewrite Hcm in E.
  - destruct Hs as [Hs | Hs]; rewrite Hs in E; cbn in E;
      inversion E; reflexivity.
  - assert (Hhost : forall s', world s' = world st ->
                               get_host_id p s' = (fst (get_host_id p st), s')).
    { intros s' Hs'. apply get_host_id_at, Hs'. }
    destruct Hs as [Hs | Hs]; rewrite Hs in E; cbn -[get_host_id] in E;
      rewrite Hi in E; cbn -[get_host_id] in E;
      rewrite Hhost in E by exact Hw;
      destruct (fst (get_host_id p st)) as [h | msg | e];
      destruct (poll_async p) eqn:Hpa;
      crunch E; inversion E; subst; clear E; cbn;
      rewrite ?Hc, <- ?app_assoc, ?app_nil_r; cbn;
      (split; [reflexivity |]);
      first [ split; reflexivity | close_transition ].
Qed.

(** X14. Restarting an instance that is running or starting sets the
    changed flag and, unless the module runs in check mode, submits exactly
    one [rebootVirtualMachine] for its id, followed by at most the wait for
    its job; restarting one that is stopping or stopped is starting it.  An
    instance in any other state is left alone by the three transitions:
    restarting, starting and stopping it return it as it is. *)
Theorem restart_by_state (st st1 : St W) (inst : Value) :
  get_instance p false st = (Ok inst, st1) ->
  live inst ->
  (state_in inst ["running"; "starting"] = true ->
   exists polls,
     waits p polls
     /\ calls (snd (restart_instance p st))
        = calls st ++ action_on p "rebootVirtualMachine"
                                [("id", id_of inst)] polls
     /\ changed (snd (restart_instance p st)) = true)
  /\ (state_in inst ["stopping"; "stopped"] = true ->
      restart_instance p st = start_instance p st)
  /\ (state_in inst ["running"; "starting"; "stopping"; "stopped"] = false ->
      restart_instance p st = (Ok inst, st1)
      /\ start_instance p st = (Ok inst, st1)
      /\ stop_instance p st = (Ok inst, st1)).
Proof.
  intros Hget Hlive.
  pose proof (quiet_get_instance false st) as Hq.
  rewrite Hget in Hq. simpl in Hq. destruct Hq as (Hw & Hc & Hch & _).
  pose proof (get_instance_returns _ _ _ _ Hget) as Hself.
  destruct (live_inv _ Hlive) as (d & s & i & -> & Ht & Hd & Hi).
  unfold state_in, field. rewrite Hd.
  split; [| split]; intro Hs.
  - apply str_mem_two in Hs.
    destruct (restart_instance p st) as [o st'] eqn:E. cbn [fst snd].
    unfold restart_instance, bind in E. rewrite Hget, Ht in E.
    unfold action_on, waits, id_of. rewrite Hi.
    cbn in E. rewrite Hd in E. cbn in E.
    destruct Hs as [Hs | Hs]; rewrite Hs in E; cbn in E; rewrite Hi in E;
      destruct (check_mode p) eqn:Hcm; destruct (poll_async p) eqn:Hpa;
      crunch E; inversion E; subst; clear E; cbn;
      rewrite ?Hc, <- ?app_assoc, ?app_nil_r; cbn;
      close_transition.
  - apply str_mem_two in Hs.
    unfold restart_instance. step Hget. rewrite Ht.
    step_item Hd. step_ret (lower s).
    assert (Hcached : get_instance p false st1 = (Ok (VDict d), st1)).
    { rewrite Hself. apply get_instance_cached.
      rewrite <- Hself. exact Ht. }
    assert (Hstart : start_instance p st = start_instance p st1).
    { unfold start_instance. step Hget. step Hcached. reflexivity. }
    rewrite Hstart.
    destruct Hs as [Hs | Hs]; rewrite Hs; cbn [str_mem existsb String.eqb Ascii.eqb Bool.eqb orb];
      step_item Hd; step_ret (lower s); rewrite Hs; reflexivity.
  - cbn [str_mem existsb] in Hs.
    apply orb_false_iff in Hs as (H1 & Hs).
    apply orb_false_iff in Hs as (H2 & Hs).
    apply orb_false_iff in Hs as (H3 & Hs).
    apply orb_false_iff in Hs as (H4 & _).
    unfold restart_instance, start_instance, stop_instance, bind.
    rewrite Hget, Ht. cbn. rewrite Hd. cbn. rewrite H1, H2, H3, H4.
    auto.
Qed.

(** X15. Restoring always sets the changed flag, with or without an
    instance.  On an instance that exists, once the template is resolved,
    exactly one [restoreVirtualMachine] is submitted for the id of the
    template and the id of the instance, followed by at most the wait for
    its job, and this whether the module runs in check mode or not: the
    transition does not look at the check mode. *)
Theorem restore_whatever_the_mode (st st1 : St W) (inst : Value) :
  get_instance p false st = (Ok inst, st1) ->
  (truthy inst = false ->
   restore_instance p st = (Ok inst, snd (set_changed st1)))
  /\ (live inst ->
      forall t st2,
        get_template_or_iso p (Some "id") (snd (set_changed st1))
        = (Ok t, st2) ->
        exists polls,
          waits p polls
          /\ calls (snd (restore_instance p st))
             = calls st ++ Invoke "restoreVirtualMachine"
                                  [("templateid", t);
                                   ("virtualmachineid", id_of inst)]
                           :: polls
          /\ changed (snd (restore_instance p st)) = true).
Proof.
  intro Hget.
  pose proof (quiet_get_instance false st) as Hq.
  rewrite Hget in Hq. simpl in Hq. destruct Hq as (Hw & Hc & Hch & _).
  split.
  - intro Ht. unfold restore_instance. step Hget. rewrite bind_set_changed.
    rewrite Ht. reflexivity.
  - intros Hlive t st2 Htpl.
    destruct (live_inv _ Hlive) as (d & s & i & -> & Ht & Hd & Hi).
    pose proof (quiet_get_template_or_iso (Some "id") (snd (set_changed st1)))
      as Hq.
    rewrite Htpl in Hq. simpl in Hq. destruct Hq as (_ & Hc2 & Hch2 & _).
    destruct (restore_instance p st) as [o st'] eqn:E. cbn [fst snd].
    unfold restore_instance in E. rewrite (bind_run _ _ _ _ _ Hget) in E.
    rewrite bind_set_changed, Ht in E.
    rewrite (bind_run _ _ _ _ _ Htpl) in E.
    rewrite (bind_run _ _ _ _ _ (getitem_some _ _ _ _ Hi)) in E.
    unfold waits, id_of. rewrite Hi.
    destruct (poll_async p) eqn:Hpa;
      crunch E; inversion E; subst; clear E; cbn;
      rewrite ?Hc2, ?Hc, ?Hch2, <- ?app_assoc, ?app_nil_r; cbn;
      close_transition.
Qed.

(** *** Updates that have nothing to do *)

(** X16. An update is idempotent: when the change detector finds no axis
    changed and the host is the wanted one, [update_instance] returns the
    record of the detector, which is the instance but for its user data,
    and issues nothing: no call, no wait, no warning; the changed flag and
    the world are as they were.  (The code has written the user data into
    the record it was given, line 864; when that record is the cached one,
    the object of the code has gained them too.  Nothing is stated here of
    the cached record.) *)
Theorem update_nothing_to_do (st : St W) (instance : Value)
    (start_vm : bool) (c : Changes) (inst' : Value) :
  fst (detect_changes p instance st) = Ok (c, inst') ->
  any_changed c = false ->
  live instance ->
  host_changed p instance = false ->
  fst (update_instance p instance start_vm st) = Ok inst'
  /\ (forall k, k <> "userdata" -> field inst' k = field instance k)
  /\ calls (snd (update_instance p instance start_vm st)) = calls st
  /\ warnings (snd (update_instance p instance start_vm st)) = warnings st
  /\ changed (snd (update_instance p instance start_vm st)) = changed st
  /\ world (snd (update_instance p instance start_vm st)) = world st.
Proof.
  intros Hdet Hany Hlive Hhost.
  destruct (detect_changes_instance _ _ _ _ Hdet) as (d & d' & -> & -> & Hk).
  destruct Hlive as (d0 & s & i & n & Heq & Hs & Hi & Hn).
  inversion Heq; subst d0; clear Heq.
  assert (Hs' : field (VDict d') "state" = VStr s).
  { unfold field. rewrite Hk by discriminate. rewrite Hs. reflexivity. }
  rewrite <- (host_changed_ext d d' Hk) in Hhost.
  assert (Hrun : update_instance p (VDict d) start_vm st = (Ok (VDict d'), st)).
  { unfold update_instance. step (detect_changes_stateless _ _ _ _ Hdet).
    cbn [fst snd]. unfold apply_changes. rewrite Hany. step_ret (VDict d').
    unfold migrate_host. step (getitem_state _ _ st Hs').
    step_ret (lower s). step (get_field d' "hostname" st).
    step (get_field d' "hostname" st).
    unfold host_changed, state_in in Hhost. rewrite Hs' in Hhost.
    rewrite Hhost. reflexivity. }
  rewrite Hrun. cbn [fst snd].
  split; [reflexivity |]. split; [| repeat split].
  intros k Hne. unfold field. rewrite (Hk k Hne). reflexivity.
Qed.

(** X17. A migration to another host is due when the instance is starting
    or running, reports a host, and the parameter [host] is given and is
    not the name of that host.  It sets the changed flag; in check mode
    nothing is submitted.  Otherwise the host is resolved: when it is, one
    [migrateVirtualMachine] is submitted for the id of the instance and the
    id of the host, and a run that ends well has waited for the job,
    whether the module waits for its other jobs or not; when the host is
    not resolved, the migration fails as the resolution does and nothing is
    submitted. *)
Theorem migration_to_host (st : St W) (inst : Value) :
  live inst ->
  host_changed p inst = true ->
  changed (snd (migrate_host p inst st)) = true
  /\ (check_mode p = true -> calls (snd (migrate_host p inst st)) = calls st)
  /\ (check_mode p = false ->
      match fst (get_host_id p st) with
      | Ok h =>
          exists polls,
            Forall is_poll polls
            /\ calls (snd (migrate_host p inst st))
               = calls st ++ Invoke "migrateVirtualMachine"
                                    [("virtualmachineid", id_of inst);
                                     ("hostid", h)]
                             :: polls
            /\ (is_ok (fst (migrate_host p inst st)) = true ->
                exists j, polls = [PollJob j "virtualmachine"])
      | _ =>
          calls (snd (migrate_host p inst st)) = calls st
          /\ fst (migrate_host p inst st) = fst (get_host_id p st)
      end).
Proof.
  intros Hlive Hhost.
  destruct (live_inv _ Hlive) as (d & s & i & -> & Ht & Hd & Hi).
  assert (Hs : field (VDict d) "state" = VStr s).
  { unfold field. rewrite Hd. reflexivity. }
  destruct (migrate_host p (VDict d) st) as [o st'] eqn:E. cbn [fst snd].
  unfold migrate_host in E.
  rewrite (bind_run _ _ _ _ _ (getitem_state _ _ st Hs)) in E.
  rewrite (bind_run (str_lower (VStr s)) _ st (lower s) st eq_refl) in E.
  rewrite (bind_run _ _ _ _ _ (get_field d "hostname" st)) in E.
  rewrite (bind_run _ _ _ _ _ (get_field d "hostname" st)) in E.
  unfold host_changed, state_in in Hhost. rewrite Hs in Hhost.
  rewrite Hhost in E. rewrite bind_set_changed in E.
  rewrite (bind_run _ _ _ _ _ (getitem_some _ _ _ _ Hi)) in E.
  rewrite (bind_unfold (get_host_id p)) in E.
  rewrite (get_host_id_at st) in E by reflexivity.
  unfold id_of. rewrite Hi.
  destruct (check_mode p) eqn:Hcm;
    destruct (fst (get_host_id p st)) as [h | msg | e];
    crunch E; inversion E; subst; clear E; cbn;
    rewrite <- ?app_assoc, ?app_nil_r; cbn;
    (split; [reflexivity |]); (split; [try discriminate; auto |]);
    try discriminate; intros _;
    first [ split; reflexivity
          | exists []; repeat split; auto; try discriminate; fail
          | eexists [PollJob _ _]; repeat split; eauto;
            try (repeat constructor); try discriminate; fail ].
Qed.

(** *** Check mode *)

Lemma sn_bind {A B} (m : M W A) (k : A -> M W B) st :
  submits_nothing st (m st) ->
  (forall a st1, submits_nothing st1 (k a st1)) ->
  submits_nothing st (bind m k st).
Proof.
  intros (new1 & Hc1 & Hp1) Hk. unfold bind.
  destruct (m st) as [[a | msg | e] st1]; cbn [snd] in *.
  - destruct (Hk a st1) as (new2 & Hc2 & Hp2). exists (new1 ++ new2).
    rewrite Hc2, Hc1, app_assoc. split; [reflexivity |].
    apply Forall_app. auto.
  - exists new1. auto.
  - exists new1. auto.
Qed.

Lemma sn_quiet {A} (m : M W A) st : quiet m -> submits_nothing st (m st).
Proof.
  intro Hq. destruct (Hq st) as (_ & Hc & _). exists [].
  rewrite app_nil_r. split; [exact Hc | constructor].
Qed.

Lemma sn_set_changed st : submits_nothing st (set_changed (W:=W) st).
Proof. exists []. cbn. rewrite app_nil_r. split; [reflexivity | constructor]. Qed.

Lemma sn_warn msg st : submits_nothing st (warn (W:=W) msg st).
Proof. exists []. cbn. rewrite app_nil_r. split; [reflexivity | constructor]. Qed.

Lemma sn_poll_job j key st : submits_nothing st (poll_job j key st).
Proof.
  unfold poll_job.
  destruct (cs_poll_job (world st) j key) as [w' [msg | v]]; cbn;
    exists [PollJob j key]; (split; [reflexivity | repeat constructor]).
Qed.

Lemma sn_ensure_tags r st : submits_nothing st (ensure_tags r st).
Proof.
  unfold ensure_tags.
  destruct (cs_ensure_tags (world st) r) as [[w' ch] [msg | v]]; cbn;
    exists []; rewrite app_nil_r; (split; [reflexivity | constructor]).
Qed.

Ltac sn_step :=
  match goal with
  | |- submits_nothing _ (bind _ _ _) => apply sn_bind; [| intros]
  | |- submits_nothing _ (set_changed _) => apply sn_set_changed
  | |- submits_nothing _ (warn _ _) => apply sn_warn
  | |- submits_nothing _ (poll_job _ _ _) => apply sn_poll_job
  | |- submits_nothing _ (ensure_tags _ _) => apply sn_ensure_tags
  | |- submits_nothing _ (get_instance _ _ _) =>
      apply sn_quiet, quiet_get_instance
  | |- submits_nothing _ (get_template_or_iso _ _ _) =>
      apply sn_quiet, quiet_get_template_or_iso
  | |- submits_nothing _ (set_instance _ _) =>
      apply sn_quiet, quiet_set_instance
  | |- context [negb true] => cbn [negb]
  | |- submits_nothing _ ((if ?b then _ else _) _) => destruct b
  | |- submits_nothing _ ((match ?x with _ => _ end) _) => destruct x
  | |- submits_nothing _ (?m _) =>
      apply sn_quiet; solve [apply stateless_quiet; eauto with stateless]
  end.

Ltac sn_tac := repeat sn_step.

Section CheckMode.

Hypothesis Hcm : check_mode p = true.

Lemma sn_stop_instance st : submits_nothing st (stop_instance p st).
Proof. unfold stop_instance. rewrite Hcm. sn_tac. Qed.

Lemma sn_start_instance st : submits_nothing st (start_instance p st).
Proof. unfold start_instance. rewrite Hcm. sn_tac. Qed.

Lemma sn_restart_instance st : submits_nothing st (restart_instance p st).
Proof.
  unfold restart_instance. rewrite Hcm. sn_tac. apply sn_start_instance.
Qed.

Lemma sn_absent_instance st : submits_nothing st (absent_instance p st).
Proof. unfold absent_instance. rewrite Hcm. sn_tac. Qed.

Lemma sn_expunge_instance st : submits_nothing st (expunge_instance p st).
Proof. unfold expunge_instance. rewrite Hcm. sn_tac. Qed.

Lemma sn_recover_instance v st : submits_nothing st (recover_instance p v st).
Proof. unfold recover_instance. rewrite Hcm. sn_tac. Qed.

Lemma sn_deploy_instance b st : submits_nothing st (deploy_instance p b st).
Proof. unfold deploy_instance. rewrite Hcm. sn_tac. Qed.

Lemma sn_update_instance v b st : submits_nothing st (update_instance p v b st).
Proof.
  unfold update_instance, apply_changes, migrate_host. rewrite Hcm. sn_tac.
Qed.

Lemma sn_present_instance b st : submits_nothing st (present_instance p b st).
Proof.
  unfold present_instance. sn_tac.
  all: first [ apply sn_deploy_instance | apply sn_recover_instance
             | apply sn_update_instance ].
Qed.

End CheckMode.

(** X18. In check mode the methods of the module submit no action to the
    control plane, whatever the target state but [restored] and whatever
    the control plane answers: from the start of [main] to its end, all
    that they ask of it besides listings are waits.  (The tags are set by
    the base class, which is not part of the module.) *)
Theorem check_mode_submits_nothing (st : St W) :
  check_mode p = true ->
  str_mem (state p) ["restored"] = false ->
  submits_nothing st (main p st).
Proof.
  intros Hcm Hs. unfold main. cbv zeta. rewrite Hs.
  apply sn_bind; [| intros; sn_tac].
  repeat match goal with
         | |- submits_nothing _ ((if ?b then _ else _) _) => destruct b
         | |- submits_nothing _ (bind _ _ _) => apply sn_bind; [| intros]
         end;
    first [ apply (sn_absent_instance Hcm) | apply (sn_expunge_instance Hcm)
          | apply (sn_present_instance Hcm) | apply (sn_stop_instance Hcm)
          | apply (sn_start_instance Hcm) | apply (sn_restart_instance Hcm)
          | apply sn_quiet, stateless_quiet, stateless_raise ].
Qed.

(** *** The boot source, once resolved *)

Lemma of_reply_at r v (s0 s0' s : St W) :
  of_reply r s0 = (Ok v, s0') -> of_reply r s = (Ok v, s).
Proof. destruct r; cbn; intro H; inversion H. reflexivity. Qed.

Lemma get_account_at k v (s0 s0' s : St W) :
  get_account k s0 = (Ok v, s0') -> world s = world s0 ->
  get_account k s = (Ok v, s).
Proof.
  unfold get_account. intros H Hw. rewrite Hw. exact (of_reply_at _ _ _ _ _ H).
Qed.

Lemma get_domain_at k v (s0 s0' s : St W) :
  get_domain k s0 = (Ok v, s0') -> world s = world s0 ->
  get_domain k s = (Ok v, s).
Proof.
  unfold get_domain. intros H Hw. rewrite Hw. exact (of_reply_at _ _ _ _ _ H).
Qed.

Lemma get_project_at k v (s0 s0' s : St W) :
  get_project k s0 = (Ok v, s0') -> world s = world s0 ->
  get_project k s = (Ok v, s).
Proof.
  unfold get_project. intros H Hw. rewrite Hw. exact (of_reply_at _ _ _ _ _ H).
Qed.

Lemma get_zone_at k v (s0 s0' s : St W) :
  get_zone k s0 = (Ok v, s0') -> world s = world s0 ->
  get_zone k s = (Ok v, s).
Proof.
  unfold get_zone. intros H Hw. rewrite Hw. exact (of_reply_at _ _ _ _ _ H).
Qed.

Lemma find_template_some (st st' : St W) wanted r ts t :
  find_template wanted r ts st = (Ok (Some t), st') -> truthy t = true.
Proof.
  revert st. induction ts as [| t0 ts IH]; intros st E; [discriminate |].
  cbn [find_template] in E.
  apply bind_ok in E as (dt & s1 & _ & E).
  apply bind_ok in E as (n & s2 & En & E).
  apply bind_ok in E as (i & s3 & _ & E).
  destruct (str_in wanted [dt; n; i]); [| exact (IH _ E)].
  apply bind_ok in E as (big & s4 & _ & E).
  destruct big; [exact (IH _ E) |].
  inversion E; subst.
  apply getitem_inv in En as (d & -> & Hn & _).
  exact (dget_truthy _ _ _ Hn).
Qed.

Lemma find_iso_some (st st' : St W) wanted isos t :
  find_iso wanted isos st = (Ok (Some t), st') -> truthy t = true.
Proof.
  revert st. induction isos as [| t0 ts IH]; intros st E; [discriminate |].
  cbn [find_iso] in E.
  apply bind_ok in E as (dt & s1 & _ & E).
  apply bind_ok in E as (n & s2 & En & E).
  apply bind_ok in E as (i & s3 & _ & E).
  destruct (str_in wanted [dt; n; i]); [| exact (IH _ E)].
  inversion E; subst.
  apply getitem_inv in En as (d & -> & Hn & _).
  exact (dget_truthy _ _ _ Hn).
Qed.


(** *** The result *)

Lemma map_m_names (st : St W) l :
  Forall named_record l ->
  map_m (fun x => getitem x "name") l st
  = (Ok (map (fun x => field x "name") l), st).
Proof.
  induction 1 as [| x l (d & n & -> & Hn) _ IH].
  - reflexivity.
  - cbn [map_m map]. step_item Hn. step IH. unfold field. rewrite Hn.
    reflexivity.
Qed.

Lemma names_of_run (st : St W) l :
  Forall named_record l ->
  names_of (VList l) st = (Ok (names_in (VList l)), st).
Proof.
  intro Hl. unfold names_of. step_ret l. step (map_m_names st l Hl).
  reflexivity.
Qed.

Lemma default_address_cons k n nics dflt :
  default_address k (n :: nics) dflt
  = default_address k nics (if default_with k n then field n k else dflt).
Proof.
  unfold default_address. cbn [List.filter].
  destruct (default_with k n); [| reflexivity].
  rewrite last_cons. destruct (last (List.filter (default_with k) nics));
    reflexivity.
Qed.

Lemma field_dset_eq d k v : field (VDict (dset d k v)) k = v.
Proof. unfold field. rewrite dget_dset_eq. reflexivity. Qed.

Lemma field_dset_ne d k v k' :
  k' <> k -> field (VDict (dset d k v)) k' = field (VDict d) k'.
Proof. intro H. unfold field. rewrite dget_dset_ne by exact H. reflexivity. Qed.

Lemma default_with_nic k dn b :
  dget dn "isdefault" = Some b ->
  default_with k (VDict dn)
  = truthy b && match dget dn k with Some _ => true | None => false end.
Proof. intro H. unfold default_with, field. rewrite H. reflexivity. Qed.

Lemma default_nic_loop_spec (st : St W) nics :
  Forall nic nics ->
  forall result,
  exists result',
    default_nic_loop nics result st = (Ok result', st)
    /\ forall k,
         field (VDict result') k
         = if String.eqb k "default_ip"
           then default_address "ipaddress" nics (field (VDict result) k)
           else if String.eqb k "default_ip6"
           then default_address "ip6address" nics (field (VDict result) k)
           else field (VDict result) k.
Proof.
  induction 1 as [| n nics (dn & b & -> & Hb) _ IH]; intro result.
  - exists result. split; [reflexivity |]. intro k.
    unfold default_address. cbn.
    destruct (String.eqb k "default_ip"); [reflexivity |].
    destruct (String.eqb k "default_ip6"); reflexivity.
  - cbn [default_nic_loop]. step_item Hb.
    destruct (truthy b) eqn:Htb.
    + step (has_key_run dn "ipaddress" st).
      set (r1 := match dget dn "ipaddress" with
                 | Some ip => dset result "default_ip" ip
                 | None => result
                 end).
      assert (E1 : (if match dget dn "ipaddress" with
                       | Some _ => true
                       | None => false
                       end
                    then let* ip := getitem (VDict dn) "ipaddress" in
                         ret (dset result "default_ip" ip)
                    else ret result) st = (Ok r1, st)).
      { unfold r1. destruct (dget dn "ipaddress") eqn:E; [| reflexivity].
        step_item E. reflexivity. }
      step E1. step (has_key_run dn "ip6address" st).
      set (r2 := match dget dn "ip6address" with
                 | Some ip => dset r1 "default_ip6" ip
                 | None => r1
                 end).
      assert (E2 : (if match dget dn "ip6address" with
                       | Some _ => true
                       | None => false
                       end
                    then let* ip := getitem (VDict dn) "ip6address" in
                         ret (dset r1 "default_ip6" ip)
                    else ret r1) st = (Ok r2, st)).
      { unfold r2. destruct (dget dn "ip6address") eqn:E; [| reflexivity].
        step_item E. reflexivity. }
      step E2. destruct (IH r2) as (result' & Hrun & Hk).
      exists result'. split; [exact Hrun |]. intro k. rewrite Hk.
      rewrite !default_address_cons, !(default_with_nic _ _ _ Hb), Htb.
      cbn [andb]. unfold r2, r1.
      destruct (String.eqb_spec k "default_ip") as [-> | N1].
      * destruct (dget dn "ipaddress") eqn:E4, (dget dn "ip6address") eqn:E6;
          rewrite ?field_dset_ne by discriminate;
          rewrite ?field_dset_eq; unfold field; rewrite ?E4; reflexivity.
      * destruct (String.eqb_spec k "default_ip6") as [-> | N2].
        -- destruct (dget dn "ipaddress") eqn:E4,
             (dget dn "ip6address") eqn:E6;
             rewrite ?field_dset_eq;
             rewrite ?field_dset_ne by discriminate;
             unfold field; rewrite ?E6; reflexivity.
        -- destruct (dget dn "ipaddress"), (dget dn "ip6address");
             rewrite ?field_dset_ne by assumption; reflexivity.
    + destruct (IH result) as (result' & Hrun & Hk).
      exists result'. split; [exact Hrun |]. intro k. rewrite Hk.
      rewrite !default_address_cons, !(default_with_nic _ _ _ Hb), Htb.
      reflexivity.
Qed.

Lemma group_names_run (st : St W) d key rkey (result : Dict) :
  well_listed named_record (dget d key) ->
  exists result',
    (forall B (K : Dict -> M W B),
       (let* has := has_key key (VDict d) in
        let* r := (if has then
                     let* gs := getitem (VDict d) key in
                     let* names := names_of gs in
                     ret (dset result rkey names)
                   else ret result) in
        K r) st = K result' st)
    /\ forall k,
         field (VDict result') k
         = if String.eqb k rkey
           then match dget d key with
                | Some v => names_in v
                | None => field (VDict result) k
                end
           else field (VDict result) k.
Proof.
  intro Hwl. destruct (dget d key) as [v |] eqn:E.
  - destruct Hwl as (l & -> & Hl). eexists. split.
    + intros B K. step (has_key_run d key st). rewrite E.
      rewrite bind_assoc. step_item E. rewrite bind_assoc.
      step (names_of_run st l Hl). reflexivity.
    + intro k. destruct (String.eqb_spec k rkey) as [-> | N].
      * apply field_dset_eq.
      * apply field_dset_ne, N.
  - exists result. split.
    + intros B K. step (has_key_run d key st). rewrite E. reflexivity.
    + intro k. destruct (String.eqb k rkey); reflexivity.
Qed.

(** X20. The result of the module is that of the base class for the
    instance as it is read again, with these entries set from the record
    of the instance: [user_data], its user data; [security_groups] and
    [affinity_groups], the names of its groups, in order, when the record
    has them; [default_ip] and [default_ip6], the addresses of the last
    network interface that is flagged as the default and has such an
    address.  Every other entry, and these when the record has nothing for
    them, are left as the base class gave them. *)
Theorem result_projection (st st1 : St W) (base : Value -> Dict) (d : Dict)
    (ud : Value) :
  get_instance p true st = (Ok (VDict d), st1) ->
  truthy (VDict d) = true ->
  _get_instance_user_data p (VDict d) st1 = (Ok ud, st1) ->
  well_listed named_record (dget d "securitygroup") ->
  well_listed named_record (dget d "affinitygroup") ->
  well_listed nic (dget d "nic") ->
  exists result,
    get_result p base st = (Ok result, st1)
    /\ forall k,
         field (VDict result) k
         = projected d ud k (field (VDict (base (VDict d))) k).
Proof.
  intros Hget Ht Hud Hsg Hag Hnic. unfold get_result.
  step Hget. rewrite Ht. step Hud.
  destruct (group_names_run st1 d "securitygroup" "security_groups"
              (dset (base (VDict d)) "user_data" ud) Hsg)
    as (r1 & E1 & K1).
  rewrite E1.
  destruct (group_names_run st1 d "affinitygroup" "affinity_groups" r1 Hag)
    as (r2 & E2 & K2).
  rewrite E2. step (has_key_run d "nic" st1).
  destruct (dget d "nic") as [v |] eqn:En.
  - destruct Hnic as (l & -> & Hl). step_item En. step_ret l.
    destruct (default_nic_loop_spec st1 l Hl r2) as (r3 & E3 & K3).
    exists r3. split; [exact E3 |]. intro k.
    rewrite K3, K2, K1. unfold projected. rewrite En.
    destruct (String.eqb_spec k "user_data") as [-> | N0];
      [cbn [String.eqb Ascii.eqb Bool.eqb]; apply field_dset_eq |].
    rewrite (field_dset_ne _ _ _ _ N0).
    destruct (String.eqb_spec k "security_groups") as [-> | N1];
      [cbn [String.eqb Ascii.eqb Bool.eqb]; reflexivity |].
    destruct (String.eqb_spec k "affinity_groups") as [-> | N2];
      [cbn [String.eqb Ascii.eqb Bool.eqb]; reflexivity |].
    reflexivity.
  - exists r2. split; [reflexivity |]. intro k.
    rewrite K2, K1. unfold projected. rewrite En.
    destruct (String.eqb_spec k "user_data") as [-> | N0];
      [cbn [String.eqb Ascii.eqb Bool.eqb]; apply field_dset_eq |].
    rewrite (field_dset_ne _ _ _ _ N0).
    destruct (String.eqb_spec k "security_groups") as [-> | N1];
      [cbn [String.eqb Ascii.eqb Bool.eqb]; reflexivity |].
    destruct (String.eqb_spec k "affinity_groups") as [-> | N2];
      [cbn [String.eqb Ascii.eqb Bool.eqb]; reflexivity |].
    destruct (String.eqb k "default_ip"); [reflexivity |].
    destruct (String.eqb k "default_ip6"); reflexivity.
Qed.

(** *** User data, by name *)

(** X21. The user data named by [user_data_name] is resolved among the
    listed user data, by name or by id, to the id of the first that
    matches; a listing without user data counts as empty.  When none
    matches, or the answer is empty, the resolver fails with a message that
    shows the listing it has received, not the name it was asked for. *)
Theorem user_data_resolution (st : St W) (a d pr reply : Value) :
  given (user_data_name p) = true ->
  cs_get_account (world st) "name" = inr a ->
  cs_get_domain (world st) "id" = inr d ->
  cs_get_project (world st) "id" = inr pr ->
  cs_list (world st) "listUserData" (user_data_query a d pr) = inr reply ->
  (truthy reply = false ->
   get_user_data_id_by_name p st
   = (Fail ("User data '" ++ py_str reply ++ "' not found"), st))
  /\ (forall dd xs,
        reply = VDict dd -> truthy reply = true ->
        py_or (field reply "userdata") (VList []) = VList xs ->
        Forall entry xs ->
        get_user_data_id_by_name p st
        = (match find (listed_as (str_of_opt (user_data_name p))) xs with
           | Some x => Ok (id_of x)
           | None => Fail ("User data '" ++ py_str reply ++ "' not found")
           end, st)).
Proof.
  intros Hg Ha Hd Hpr Hl. unfold user_data_query in Hl. split.
  - intro Ht. unfold get_user_data_id_by_name. rewrite Hg. cbn [negb].
    step (get_account_run _ _ _ Ha). step (get_domain_run _ _ _ Hd).
    step (get_project_run _ _ _ Hpr). step_list Hl. rewrite Ht.
    reflexivity.
  - intros dd xs -> Ht Hxs Hent.
    unfold get_user_data_id_by_name. rewrite Hg. cbn [negb].
    step (get_account_run _ _ _ Ha). step (get_domain_run _ _ _ Hd).
    step (get_project_run _ _ _ Hpr). step_list Hl. rewrite Ht.
    step (get_field dd "userdata" st). rewrite Hxs. step_ret xs.
    step (find_id_spec st (str_of_opt (user_data_name p)) xs Hent).
    destruct (find (listed_as (str_of_opt (user_data_name p))) xs);
      reflexivity.
Qed.

(** *** The last check of [main] *)

Lemma expunge_instance_returns (st st1 st' : St W) inst v :
  get_instance p false st = (Ok inst, st1) ->
  expunge_instance p st = (Ok v, st') -> v = inst.
Proof.
  intros Hget E. unfold expunge_instance in E.
  rewrite (bind_run _ _ _ _ _ Hget) in E.
  destruct (truthy inst); [| inversion E; reflexivity].
  apply bind_ok in E as (s0 & s1 & _ & E).
  apply bind_ok in E as (s2 & s3 & _ & E).
  apply bind_ok in E as (res & s4 & _ & E).
  apply bind_ok in E as (u & s5 & _ & E).
  inversion E. reflexivity.
Qed.

(** X22. [main] never ends well on an instance in the state [error],
    whatever the case of the letters: the last check fails the module.  The
    check comes after the transition; so, under the target [expunged], an
    instance that was in the state [error] is expunged as any other, and
    the module then fails with "Instance named '...' in error state." *)
Theorem error_state_fails (st : St W) :
  (forall inst st',
     main p st = (Ok inst, st') -> state_in inst ["error"] = false)
  /\ (forall inst st1,
        state p = "expunged" ->
        get_instance p false st = (Ok inst, st1) ->
        live inst ->
        state_in inst ["error"] = true ->
        fst (main p st)
        = match fst (expunge_instance p st) with
          | Ok _ => Fail (error_state_msg p)
          | o => o
          end
        /\ snd (main p st) = snd (expunge_instance p st)).
Proof.
  split.
  - intros inst st' E. unfold main in E. cbv zeta in E.
    apply bind_ok in E as (a & s & _ & E).
    apply bind_ok in E as (u & s1 & E1 & E).
    inversion E; subst; clear E.
    unfold state_in, field.
    destruct inst as [| | | | | d]; try reflexivity.
    destruct (dget d "state") as [[| | | x | |] |] eqn:Hd; try reflexivity.
    rewrite (dget_truthy _ _ _ Hd) in E1.
    rewrite (bind_run _ _ _ _ _ (has_key_run d "state" s)) in E1.
    rewrite Hd in E1.
    rewrite (bind_run _ _ _ _ _ (getitem_some _ _ _ _ Hd)) in E1.
    rewrite (bind_run (str_lower (VStr x)) _ s (lower x) s eq_refl) in E1.
    cbn [str_mem existsb]. rewrite orb_false_r.
    destruct (String.eqb (lower x) "error"); [discriminate | reflexivity].
  - intros inst st1 Hs Hget Hlive Herr.
    split; [| apply (main_expunged st Hs)].
    unfold main. cbv zeta. rewrite Hs.
    cbn [str_mem existsb String.eqb Ascii.eqb Bool.eqb orb].
    rewrite bind_unfold.
    destruct (expunge_instance p st) as [[v | msg | e] st'] eqn:E;
      [| reflexivity | reflexivity].
    apply (expunge_instance_returns _ _ _ _ _ Hget) in E. subst v.
    destruct (live_inv _ Hlive) as (d & s & i & -> & Ht & Hd & Hi).
    unfold state_in, field in Herr. rewrite Hd in Herr.
    cbn [str_mem existsb] in Herr. rewrite orb_false_r in Herr.
    rewrite Ht. rewrite bind_assoc. step (has_key_run d "state" st').
    rewrite Hd. rewrite bind_assoc. step_item Hd.
    rewrite bind_assoc.
    rewrite (bind_run (str_lower (VStr s)) _ st' (lower s) st' eq_refl).
    rewrite Herr. reflexivity.
Qed.

(** *** The record of [present_instance] *)

(** X23. An instance that [present_instance] returns is the cached one:
    the record that was read again and tagged is left in [self.instance],
    and the transition that [main] runs next finds it there without
    asking the control plane. *)
Theorem present_then_cached (st st' : St W) (start_vm : bool) (v : Value) :
  present_instance p start_vm st = (Ok v, st') ->
  truthy v = true ->
  self_instance st' = v /\ get_instance p false st' = (Ok v, st').
Proof.
  intros E Hv. unfold present_instance in E.
  apply bind_ok in E as (i0 & s0 & _ & E).
  apply bind_ok in E as (i1 & s1 & _ & E).
  destruct (truthy i1) eqn:Ht.
  - apply bind_ok in E as (i2 & s2 & _ & E).
    apply bind_ok in E as (i3 & s3 & _ & E).
    apply bind_ok in E as (u & s4 & Es & E).
    inversion E; subst; clear E. inversion Es; subst; clear Es.
    cbn [self_instance]. split; [reflexivity |].
    apply (get_instance_cached
             (mkSt (world s3) v (self_template s3) (self_iso s3)
                   (changed s3) (warnings s3) (calls s3))).
    exact Hv.
  - inversion E; subst. rewrite Ht in Hv. discriminate.
Qed.

(** *** Desired keys that do not exist *)

Lemma map_m_fails {A B} (f : A -> M W B) pre x post ys msg (st : St W) :
  Forall2 (fun a b => f a st = (Ok b, st)) pre ys ->
  f x st = (Fail msg, st) ->
  map_m f (pre ++ x :: post) st = (Fail msg, st).
Proof.
  intros Hpre Hx. induction Hpre as [| a b pre ys Ha _ IH]; cbn [app map_m].
  - apply (bind_fails (f x) _ st msg st Hx).
  - rewrite (bind_run (f a) _ st b st Ha). apply (bind_fails _ _ _ _ _ IH).
Qed.

Lemma not_ok_bind {A B} (m : M W A) (k : A -> M W B) st :
  stateless m ->
  (forall a, is_ok (fst (k a st)) = false) ->
  is_ok (fst (bind m k st)) = false.
Proof.
  intros Hm Hk. unfold bind. specialize (Hm st).
  destruct (m st) as [[a | msg | e] st1]; cbn [snd] in Hm; subst;
    [apply Hk | reflexivity | reflexivity].
Qed.

(** X24. A desired key pair that the control plane does not know is not
    reported as a change: when the listing for its name has no key pair,
    the comparison of the keys fails with "SSH key not found: <name>", as
    soon as the names before it are resolved, and so does the change
    detection of an update, which cannot end well. *)
Theorem ssh_keys_unknown_key_fails (st : St W) (d : Dict)
    (pre post : list string) (k : string) (fps : list Value)
    (dm a pr : Value) (r : Dict) :
  ssh_keys p = Some (pre ++ k :: post) ->
  self_instance st = VDict d ->
  Forall2 (fun k fp => fingerprint st (VStr k) true = Ok fp) pre fps ->
  cs_get_domain (world st) "id" = inr dm ->
  cs_get_account (world st) "name" = inr a ->
  cs_get_project (world st) "id" = inr pr ->
  cs_list (world st) "listSSHKeyPairs" (keypair_query dm a pr (VStr k))
  = inr (VDict r) ->
  dget r "sshkeypair" = None ->
  ssh_keys_changed p st = (Fail ("SSH key not found: " ++ k), st)
  /\ forall instance, is_ok (fst (detect_changes p instance st)) = false.
Proof.
  intros Hkeys Hinst Hpre Hdm Ha Hpr Hl Hnone.
  assert (Hk : get_ssh_keypair (Some "fingerprint") (VStr k) true st
               = (Fail ("SSH key not found: " ++ k), st)).
  { unfold get_ssh_keypair. step (get_domain_run _ _ _ Hdm).
    step (get_account_run _ _ _ Ha). step (get_project_run _ _ _ Hpr).
    unfold keypair_query in Hl. step_list Hl. step (has_key_run r "sshkeypair" st).
    rewrite Hnone. reflexivity. }
  assert (Hchanged : ssh_keys_changed p st
                     = (Fail ("SSH key not found: " ++ k), st)).
  { unfold ssh_keys_changed. rewrite Hkeys.
    step_ret (self_instance st). rewrite Hinst.
    step (get_field d "keypairs" st).
    assert (E : exists ks,
               (if truthy (field (VDict d) "keypairs")
                then ret (field (VDict d) "keypairs")
                else let* kp := get (VDict d) "keypair" in
                     ret (VList [py_or kp (VStr "")])) st = (Ok ks, st)).
    { destruct (truthy (field (VDict d) "keypairs")).
      - eexists. reflexivity.
      - eexists. step (get_field d "keypair" st). reflexivity. }
    destruct E as (ks & E). step E.
    apply bind_fails.
    apply (map_m_fails _ pre k post fps); [| exact Hk].
    eapply Forall2_impl; [exact Hpre |].
    intros x y Hxy. cbv beta in Hxy. apply fingerprint_run. exact Hxy. }
  split; [exact Hchanged |].
  intro instance. unfold detect_changes.
  repeat match goal with
         | |- is_ok (fst (bind (ssh_keys_changed p) _ _)) = false => fail 1
         | |- _ => apply not_ok_bind; [solve [stateless_tac] | intros]
         end.
  rewrite bind_unfold, Hchanged. reflexivity.
Qed.

(** *** The user data of the instance *)

(** X25. The user data of an instance are those of its record when it has
    them.  Otherwise they are asked for only when the parameter [user_data]
    is given and the record has an id: the answer of
    [getVirtualMachineUserData] gives them, or the empty string when it has
    none; without the parameter, or without an id, they are the empty
    string and nothing is asked. *)
Theorem instance_user_data (st : St W) (d : Dict) :
  (forall u,
     dget d "userdata" = Some u ->
     _get_instance_user_data p (VDict d) st = (Ok u, st))
  /\ (dget d "userdata" = None ->
      user_data p = None \/ truthy (field (VDict d) "id") = false ->
      _get_instance_user_data p (VDict d) st = (Ok (VStr ""), st))
  /\ (forall x i r u,
        dget d "userdata" = None ->
        user_data p = Some x ->
        dget d "id" = Some i -> truthy i = true ->
        cs_list (world st) "getVirtualMachineUserData"
                [("virtualmachineid", i)] = inr (VDict r) ->
        dget r "virtualmachineuserdata" = Some (VDict u) ->
        _get_instance_user_data p (VDict d) st
        = (Ok (match dget u "userdata" with
               | Some v => v
               | None => VStr ""
               end), st)).
Proof.
  split; [| split].
  - intros u Hu. unfold _get_instance_user_data.
    step (has_key_run d "userdata" st). rewrite Hu. apply getitem_some, Hu.
  - intros Hu Hor. unfold _get_instance_user_data.
    step (has_key_run d "userdata" st). rewrite Hu.
    unfold get_user_data. destruct Hor as [-> | Hid].
    + step_ret VNone. reflexivity.
    + destruct (user_data p).
      * step (get_field d "id" st). rewrite Hid. reflexivity.
      * step_ret VNone. reflexivity.
  - intros x i r u Hu Hx Hi Hti Hl Hr. unfold _get_instance_user_data.
    step (has_key_run d "userdata" st). rewrite Hu.
    unfold get_user_data. rewrite Hx. step (get_field d "id" st).
    unfold field. rewrite Hi, Hti. step_item Hi. step_list Hl.
    step_item Hr. step (get_field u "userdata" st).
    step (has_key_run u "userdata" st). unfold field.
    destruct (dget u "userdata"); reflexivity.
Qed.

(** *** Updates in check mode *)

(** X26. In check mode an update that is due and would be applied (an axis
    is true and the instance is stopped, or [force] is set) is only
    reported: the changed flag is set and the record of the change
    detector, which is the instance but for its user data, is returned;
    nothing is issued: no call, no wait, no warning, and the world is as it
    was.  (As for an update that has nothing to do, nothing is stated of
    the cached record, into which the code may have written the user
    data.) *)
Theorem update_in_check_mode (st : St W) (instance : Value)
    (start_vm : bool) (c : Changes) (inst' : Value) (s : string) :
  fst (detect_changes p instance st) = Ok (c, inst') ->
  any_changed c = true ->
  field instance "state" = VStr s ->
  lower s = "stopped" \/ force p = true ->
  check_mode p = true ->
  host_changed p instance = false ->
  fst (update_instance p instance start_vm st) = Ok inst'
  /\ (forall k, k <> "userdata" -> field inst' k = field instance k)
  /\ calls (snd (update_instance p instance start_vm st)) = calls st
  /\ warnings (snd (update_instance p instance start_vm st)) = warnings st
  /\ changed (snd (update_instance p instance start_vm st)) = true
  /\ world (snd (update_instance p instance start_vm st)) = world st.
Proof.
  intros Hdet Hany Hs Hcond Hcm Hhost.
  destruct (detect_changes_instance _ _ _ _ Hdet) as (d & d' & -> & -> & Hk).
  assert (Hs' : field (VDict d') "state" = VStr s).
  { unfold field in *. rewrite Hk by discriminate. exact Hs. }
  assert (Hcond' : String.eqb (lower s) "stopped" || force p = true).
  { destruct Hcond as [-> | ->]; [reflexivity | apply orb_true_r]. }
  rewrite <- (host_changed_ext d d' Hk) in Hhost.
  assert (Hrun : update_instance p (VDict d) start_vm st
                 = (Ok (VDict d'), snd (set_changed st))).
  { unfold update_instance. step (detect_changes_stateless _ _ _ _ Hdet).
    cbn [fst snd]. unfold apply_changes. rewrite Hany.
    rewrite bind_assoc. step (getitem_state _ _ st Hs').
    rewrite bind_assoc.
    rewrite (bind_run (str_lower (VStr s)) _ st (lower s) st eq_refl).
    rewrite Hcond', Hcm. cbn [negb]. rewrite bind_assoc, bind_set_changed.
    step_ret (VDict d').
    unfold migrate_host.
    step (getitem_state _ _ (snd (set_changed st)) Hs').
    step_ret (lower s).
    step (get_field d' "hostname" (snd (set_changed st))).
    step (get_field d' "hostname" (snd (set_changed st))).
    unfold host_changed, state_in in Hhost. rewrite Hs' in Hhost.
    rewrite Hhost. reflexivity. }
  rewrite Hrun. cbn [fst snd].
  split; [reflexivity |]. split; [| repeat split].
  intros k Hne. unfold field. rewrite (Hk k Hne). reflexivity.
Qed.

End Facts.

(** ** The facts on examples *)

#[export] Existing Instance script_unicode.

Lemma start_stop_satisfied_noop_witness :
  start_instance default_params (cached (plain_script "Stopped") (vm "Running"))
  = (Ok (vm "Running"), cached (plain_script "Stopped") (vm "Running"))
  /\ stop_instance default_params
                   (cached (plain_script "Stopped") (vm "Stopped"))
     = (Ok (vm "Stopped"), cached (plain_script "Stopped") (vm "Stopped")).
Proof.
  split.
  - apply (start_stop_satisfied_noop default_params
             (cached (plain_script "Stopped") (vm "Running")) _ (vm "Running"));
      reflexivity.
  - apply (start_stop_satisfied_noop default_params
             (cached (plain_script "Stopped") (vm "Stopped")) _ (vm "Stopped"));
      reflexivity.
Defined.

Lemma live_vm s keys : live (vm_with_keys s keys).
Proof.
  exists (match vm_record s keys [] with VDict d => d | _ => [] end),
         s, (VStr "vm-1"), (VStr "web-vm-1").
  repeat split.
Qed.



Lemma ssh_keys_empty_on_keyless_instance_witness :
  instance_ssh_keys (vm "Stopped") = Some [VStr ""]
  /\ ssh_keys_changed (task [("ssh_keys", VList [])] false)
                      (cached (plain_script "Stopped") (vm "Stopped"))
     = (Ok true, cached (plain_script "Stopped") (vm "Stopped")).
Proof.
  apply (ssh_keys_empty_on_keyless_instance
           (task [("ssh_keys", VList [])] false)
           (cached (plain_script "Stopped") (vm "Stopped"))
           (match vm "Stopped" with VDict d => d | _ => [] end));
    reflexivity.
Defined.

Lemma ssh_keys_changed_spec_witness :
  exists b,
    ssh_keys_changed (task [("ssh_keys", VList [VStr "k1"])] false)
                     (cached (keys_script "Stopped")
                             (vm_with_keys "Stopped" ["k1"; "k2"]))
    = (Ok b, cached (keys_script "Stopped")
                    (vm_with_keys "Stopped" ["k1"; "k2"]))
    /\ (b = true <->
        Exists (fun fp => key_differs [VStr "aa:11"] fp = true)
               [VStr "aa:11"; VStr "bb:22"]).
Proof.
  apply (proj2 (proj2 (ssh_keys_changed_spec
                         (task [("ssh_keys", VList [VStr "k1"])] false)
                         (cached (keys_script "Stopped")
                                 (vm_with_keys "Stopped" ["k1"; "k2"]))))
           ["k1"] [VStr "aa:11"] [VStr "k1"; VStr "k2"]
           [VStr "aa:11"; VStr "bb:22"]).
  - reflexivity.
  - discriminate.
  - repeat constructor.
  - reflexivity.
  - repeat constructor.
Defined.

(** C3 as stated fails on an instance without key pairs: with the desired
    key [k1] a change is reported, though the instance has no key whose
    fingerprint could be unresolved or unknown. *)
Lemma ssh_keys_as_stated_counterexample :
  ~ ssh_keys_as_stated (task [("ssh_keys", VList [VStr "k1"])] false)
                       (cached (keys_script "Stopped") (vm "Stopped")).
Proof.
  intro H.
  destruct (H ["k1"] [VStr "aa:11"]) as (b & Hb & Hiff).
  - reflexivity.
  - intros [Hw _]. discriminate Hw.
  - repeat constructor.
  - vm_compute in Hb. inversion Hb; subst.
    destruct (proj1 Hiff eq_refl) as (k & fp & Hin & _).
    exact Hin.
Qed.

Lemma security_groups_changed_spec_witness :
  exists b,
    security_groups_changed
      (task [("security_groups", VList [VStr "a"; VStr "b"])] false)
      (cached (plain_script "Stopped") (vm_record "Stopped" [] ["B"; "A"]))
    = (Ok b, cached (plain_script "Stopped")
                    (vm_record "Stopped" [] ["B"; "A"]))
    /\ (b = false <->
        (list_to_set (map lower ["a"; "b"]) : gset string)
        = list_to_set (map lower ["B"; "A"])).
Proof.
  apply (proj2 (security_groups_changed_spec
                  (task [("security_groups", VList [VStr "a"; VStr "b"])] false)
                  (cached (plain_script "Stopped")
                          (vm_record "Stopped" [] ["B"; "A"])))
           ["a"; "b"]
           (match vm_record "Stopped" [] ["B"; "A"] with
            | VDict d => d | _ => [] end)
           [VDict [("name", VStr "B")]; VDict [("name", VStr "A")]]
           ["B"; "A"]).
  - reflexivity.
  - reflexivity.
  - reflexivity.
  - repeat constructor.
Defined.

(** The examples of the specification: desired [a, b] on the groups
    [a, b] in any case is no change, on the group [a] alone it is one. *)
Example security_groups_same_set :
  fst (security_groups_changed
         (task [("security_groups", VList [VStr "a"; VStr "b"])] false)
         (cached (plain_script "Stopped") (vm_record "Stopped" [] ["B"; "A"])))
  = Ok false.
Proof. reflexivity. Qed.

Example security_groups_missing_one :
  fst (security_groups_changed
         (task [("security_groups", VList [VStr "a"; VStr "b"])] false)
         (cached (plain_script "Stopped") (vm_record "Stopped" [] ["a"])))
  = Ok true.
Proof. reflexivity. Qed.

(** Beyond ASCII the names are lowered by the runtime: a capital letter of
    two bytes and its small letter are one name. *)
Example lower_beyond_ascii :
  lower "BÜRO" = "büro" /\ lower "WEB-Ä" = "web-ä"
  /\ String.length "Ä" = 2%nat.
Proof. repeat split. Qed.

Example security_groups_beyond_ascii :
  fst (security_groups_changed
         (task [("security_groups", VList [VStr "WEB-Ä"])] false)
         (cached (plain_script "Stopped")
                 (vm_record "Stopped" [] ["web-ä"])))
  = Ok false.
Proof. reflexivity. Qed.

Lemma root_disk_size_axis_spec_witness :
  root_disk_size_axis (task [("root_disk_size", VInt 25)] false) (vm "Stopped")
                      (cached (volume_script "Stopped" 21474836480)
                              (vm "Stopped"))
  = (Ok (resize_args (VStr "vol-1") 25 false,
         negb (25 =? Z.shiftr 21474836480 30)),
     cached (volume_script "Stopped" 21474836480) (vm "Stopped"))
  /\ Z.shiftr 21474836480 30 = 21474836480 / 2 ^ 30
  /\ (negb (25 =? Z.shiftr 21474836480 30) = true
      <-> 25 <> 21474836480 / 2 ^ 30).
Proof.
  apply (proj2 (root_disk_size_axis_spec
                  (task [("root_disk_size", VInt 25)] false)
                  (cached (volume_script "Stopped" 21474836480)
                          (vm "Stopped"))
                  (vm "Stopped"))
           25 (match vm "Stopped" with VDict d => d | _ => [] end)
           (VStr "vm-1")
           [("count", VInt 1);
            ("volume", VList [VDict [("id", VStr "vol-1");
                                     ("type", VStr "ROOT");
                                     ("size", VInt 21474836480)]])]
           [("id", VStr "vol-1"); ("type", VStr "ROOT");
            ("size", VInt 21474836480)]
           (VStr "vol-1") 21474836480);
    reflexivity.
Defined.

(** The examples of the specification: a volume of 21474836480 bytes is
    20 GiB; the desired size 20 is no change, 25 is one. *)
Example root_disk_size_20_unchanged :
  fst (root_disk_size_axis (task [("root_disk_size", VInt 20)] false)
         (vm "Stopped")
         (cached (volume_script "Stopped" 21474836480) (vm "Stopped")))
  = Ok ([("id", VStr "vol-1"); ("size", VInt 20)], false).
Proof. reflexivity. Qed.

Example root_disk_size_25_changed :
  fst (root_disk_size_axis (task [("root_disk_size", VInt 25)] false)
         (vm "Stopped")
         (cached (volume_script "Stopped" 21474836480) (vm "Stopped")))
  = Ok ([("id", VStr "vol-1"); ("size", VInt 25)], true).
Proof. reflexivity. Qed.

Lemma candidate_image id nm size : candidate (image id nm size).
Proof.
  exists [("id", VStr id); ("name", VStr nm); ("displaytext", VStr nm);
          ("size", VInt size)], (VStr nm), (VStr id), size.
  repeat split.
Qed.

Lemma boot_source_resolution_witness :
  get_template_or_iso
    (task [("template", VStr "Debian 12"); ("root_disk_size", VInt 10)] false)
    (Some "id") (cached (images_script "Stopped") VNone)
  = match find (fits "Debian 12" 10) listed_templates with
    | Some t =>
        (set_template t ;; _get_by_key (Some "id") t)
          (cached (images_script "Stopped") VNone)
    | None =>
        (Fail ("Template '" ++ "Debian 12" ++ "' not found (with size <= "
               ++ str_of_Z 10 ++ ")"),
         cached (images_script "Stopped") VNone)
    end.
Proof.
  apply (proj1 (boot_source_resolution (cp:=scripted)
                  (task [("template", VStr "Debian 12");
                         ("root_disk_size", VInt 10)] false)
                  (cached (images_script "Stopped") VNone) (Some "id")
                  VNone VNone VNone (VStr "zone-1")
                  eq_refl eq_refl eq_refl eq_refl)
           "Debian 12" 10 listed_templates).
  - reflexivity.
  - discriminate.
  - reflexivity.
  - discriminate.
  - reflexivity.
  - reflexivity.
  - repeat constructor; apply candidate_image.
Defined.

(** The template of 20 GiB is passed over, the one of 8 GiB is taken. *)
Example template_within_root_disk_size :
  fst (get_template_or_iso
         (task [("template", VStr "Debian 12"); ("root_disk_size", VInt 10)]
               false)
         (Some "id") (cached (images_script "Stopped") VNone))
  = Ok (VStr "t-2").
Proof. reflexivity. Qed.

(** C6 as stated fails for an ISO: with [root_disk_size=10] the ISO of
    20 GiB is resolved all the same. *)
Lemma boot_source_as_stated_counterexample :
  ~ boot_source_as_stated
      (task [("iso", VStr "Debian 12"); ("root_disk_size", VInt 10)] false)
      (cached (images_script "Stopped") VNone).
Proof.
  intro H.
  specialize (H 10 (image "i-1" "Debian 12" (20 * 2 ^ 30))
                (mkSt (images_script "Stopped") VNone VNone
                      (image "i-1" "Debian 12" (20 * 2 ^ 30)) false [] [])).
  assert (Hle : int_field (image "i-1" "Debian 12" (20 * 2 ^ 30)) "size"
                <= 10 * 2 ^ 30).
  { apply H; try reflexivity; discriminate. }
  vm_compute in Hle. apply Hle. reflexivity.
Qed.

(** The message of an ISO that is not found does not name the size. *)
Example iso_not_found_message :
  fst (get_template_or_iso
         (task [("iso", VStr "Fedora"); ("root_disk_size", VInt 10)] false)
         None (cached (images_script "Stopped") VNone))
  = Fail "ISO 'Fedora' not found".
Proof. reflexivity. Qed.



(** On deployment an earlier failure comes first: without any network
    listed the error is that of the network resolution. *)
Example deploy_fails_on_networks_first :
  fst (deploy_instance (task both_networks_task false) true
                       (cached (plain_script "Running") VNone))
  = Fail "No networks available".
Proof. reflexivity. Qed.

(** With an empty [networks] list the mappings are accepted and the
    instance is deployed. *)
Example deploy_with_empty_networks :
  labels (calls (snd (deploy_instance
    (task [("template", VStr "Debian 12"); ("networks", VList []);
           ("ip_to_networks",
            VList [VDict [("network", VStr "net-a"); ("ip", VStr "10.0.0.1")]])]
          false)
    true (cached (images_script "Running") VNone))))
  = [LCall "deployVirtualMachine"; LPoll "virtualmachine"].
Proof. reflexivity. Qed.

(** A running instance, a new service offering and [force]: the instance
    is stopped, changed and started again, in this order. *)
Example forced_update_trace :
  labels (calls (snd (update_instance
    (task [("service_offering", VStr "Tiny"); ("force", VBool true)] false)
    (vm "Running") true
    (cached (images_script "Stopped") (vm "Running")))))
  = [LCall "stopVirtualMachine"; LPoll "virtualmachine";
     LPoll "virtualmachine"; LCall "changeServiceForVirtualMachine";
     LCall "startVirtualMachine"; LPoll "virtualmachine"].
Proof. reflexivity. Qed.


Lemma update_not_applied_witness :
  exists post,
    calls (snd (update_instance
      (task [("service_offering", VStr "Tiny")] false)
      (vm "Running") true (cached (images_script "Stopped") (vm "Running"))))
    = [] ++ post
    /\ post = []
    /\ warnings (snd (update_instance
         (task [("service_offering", VStr "Tiny")] false)
         (vm "Running") true
         (cached (images_script "Stopped") (vm "Running"))))
       = [] ++ [not_applied_warning (VStr "web-vm-1")]
    /\ changed (snd (update_instance
         (task [("service_offering", VStr "Tiny")] false)
         (vm "Running") true
         (cached (images_script "Stopped") (vm "Running"))))
       = false.
Proof.
  destruct (update_not_applied (cp:=scripted)
              (task [("service_offering", VStr "Tiny")] false)
              (cached (images_script "Stopped") (vm "Running"))
              (vm "Running") true
              (fst (detected (task [("service_offering", VStr "Tiny")] false)
                             (vm "Running")
                             (cached (images_script "Stopped") (vm "Running"))))
              (snd (detected (task [("service_offering", VStr "Tiny")] false)
                             (vm "Running")
                             (cached (images_script "Stopped") (vm "Running")))))
    as (post & Hcalls & _ & Hnone & Hwarn & Hchanged).
  - reflexivity.
  - reflexivity.
  - apply (live_vm "Running" []).
  - reflexivity.
  - reflexivity.
  - exists post. split; [exact Hcalls |]. split; [apply Hnone; reflexivity |].
    split; [exact Hwarn | exact Hchanged].
Defined.

(** The example of the specification: without [force], a running instance
    with a new service offering is left alone, with a warning. *)
Example running_instance_left_alone :
  let r := update_instance (task [("service_offering", VStr "Tiny")] false)
             (vm "Running") true
             (cached (images_script "Stopped") (vm "Running")) in
  calls (snd r) = [] /\ changed (snd r) = false
  /\ warnings (snd r)
     = ["Changes won't be applied to running instances. Use force=true to allow the instance web-vm-1 to be stopped/started."].
Proof. repeat split. Qed.

(** ** The resolvers and the transitions on examples *)

Lemma entry_listed id nm : entry (listed id nm).
Proof. repeat eexists. Qed.

Lemma network_net id nm : network (net id nm).
Proof. repeat eexists. Qed.

Lemma machine_machine_on id nm st h : machine (machine_on id nm st h).
Proof. repeat eexists. Qed.

Lemma live_machine_on id nm st h : live (machine_on id nm st h).
Proof. repeat eexists. Qed.

Lemma service_offering_resolution_witness :
  get_service_offering_id (task [("service_offering", VStr "Small")] false)
                          (fresh (zone_with "Running"))
  = (Ok (VStr "so-2"), fresh (zone_with "Running")).
Proof.
  destruct (service_offering_resolution (cp:=scripted)
              (task [("service_offering", VStr "Small")] false)
              (fresh (zone_with "Running")) _ eq_refl) as (_ & H).
  apply (H _ [listed "so-1" "Tiny"; listed "so-2" "Small"] eq_refl eq_refl).
  repeat constructor; apply entry_listed.
Defined.


Lemma instance_lookup_witness :
  get_instance default_params false (fresh (zone_with "Running"))
  = (Ok (with_keypairs_list (web_vm "Running")),
     cached (zone_with "Running") (with_keypairs_list (web_vm "Running")))
  /\ field (with_keypairs_list (web_vm "Running")) "keypairs"
     = VList [VStr "k1"].
Proof.
  split; [| reflexivity].
  apply (instance_lookup (cp:=scripted) default_params
           (fresh (zone_with "Running")) false "web-vm-1"
           VNone VNone VNone [db_vm; web_vm "Running"]).
  - left. reflexivity.
  - reflexivity.
  - reflexivity.
  - reflexivity.
  - reflexivity.
  - reflexivity.
  - repeat constructor; apply machine_machine_on.
Defined.

(** A machine is found under its name in any case, beyond ASCII too. *)
Example instance_found_beyond_ascii :
  fst (get_instance (module_params [("name", VStr "büro")] false) false
         (fresh (zone_script "Running"
                   [db_vm; machine_on "vm-2" "BÜRO" "Running" "node-1"])))
  = Ok (with_keypairs_list (machine_on "vm-2" "BÜRO" "Running" "node-1")).
Proof. reflexivity. Qed.

Lemma instance_keypairs_normalised_witness :
  exists l, field (with_keypairs_list (web_vm "Running")) "keypairs" = VList l.
Proof.
  apply (instance_keypairs_normalised (cp:=scripted) default_params
           (fresh (zone_with "Running"))
           (cached (zone_with "Running")
                   (with_keypairs_list (web_vm "Running")))
           false (with_keypairs_list (web_vm "Running"))).
  - reflexivity.
  - reflexivity.
  - reflexivity.
Defined.

Lemma network_ids_resolution_witness :
  get_network_ids
    (task [("networks", VList [VStr "net-b"; VStr "n-1"])] false) None
    (fresh (zone_with "Running"))
  = (Ok (VList [VStr "n-2"; VStr "n-1"]), fresh (zone_with "Running"))
  /\ get_network_ids
       (task [("networks", VList [VStr "net-b"; VStr "n-1"])] false)
       (Some [VStr "net-b"; VStr "net-z"])
       (fresh (zone_with "Running"))
     = (Fail (networks_missing [net "n-2" "net-b"]),
        fresh (zone_with "Running")).
Proof.
  split.
  - destruct (network_ids_resolution (cp:=scripted)
                (task [("networks", VList [VStr "net-b"; VStr "n-1"])] false)
                (fresh (zone_with "Running")) None
                [VStr "net-b"; VStr "n-1"] VNone VNone VNone (VStr "zone-1")
                (VList [net "n-1" "net-a"; net "n-2" "net-b"])
                eq_refl eq_refl eq_refl eq_refl eq_refl eq_refl)
      as (_ & _ & H).
    apply (H [net "n-1" "net-a"; net "n-2" "net-b"]);
      [discriminate | reflexivity | reflexivity |].
    repeat constructor; apply network_net.
  - destruct (network_ids_resolution (cp:=scripted)
                (task [("networks", VList [VStr "net-b"; VStr "n-1"])] false)
                (fresh (zone_with "Running"))
                (Some [VStr "net-b"; VStr "net-z"])
                [VStr "net-b"; VStr "net-z"] VNone VNone VNone
                (VStr "zone-1")
                (VList [net "n-1" "net-a"; net "n-2" "net-b"])
                eq_refl eq_refl eq_refl eq_refl eq_refl eq_refl)
      as (_ & _ & H).
    apply (H [net "n-1" "net-a"; net "n-2" "net-b"]);
      [discriminate | reflexivity | reflexivity |].
    repeat constructor; apply network_net.
Defined.

Lemma iptonetwork_mappings_resolution_witness :
  get_iptonetwork_mappings
    (task [("ip_to_networks",
            VList [VDict [("network", VStr "net-b");
                          ("ip", VStr "10.0.0.9")]])] false)
    (fresh (zone_with "Running"))
  = (Ok (VList [VDict [("networkid", VStr "n-2"); ("network", VStr "net-b");
                       ("ip", VStr "10.0.0.9")]]),
     fresh (zone_with "Running")).
Proof.
  apply (iptonetwork_mappings_resolution (cp:=scripted)
           (task [("ip_to_networks",
                   VList [VDict [("network", VStr "net-b");
                                 ("ip", VStr "10.0.0.9")]])] false)
           (fresh (zone_with "Running"))
           [VDict [("network", VStr "net-b"); ("ip", VStr "10.0.0.9")]]
           VNone VNone VNone (VStr "zone-1")
           (VList [net "n-1" "net-a"; net "n-2" "net-b"])
           [net "n-1" "net-a"; net "n-2" "net-b"]).
  - reflexivity.
  - reflexivity.
  - repeat constructor. repeat eexists.
  - reflexivity.
  - reflexivity.
  - reflexivity.
  - reflexivity.
  - reflexivity.
  - reflexivity.
  - reflexivity.
  - repeat constructor; apply network_net.
Defined.

Lemma deploy_requires_boot_source_witness :
  deploy_instance default_params true (fresh (zone_with "Running"))
  = (Fail "Template or ISO is required.",
     mkSt (zone_with "Running") VNone VNone VNone true [] []).
Proof.
  apply (deploy_requires_boot_source (cp:=scripted) default_params
           (fresh (zone_with "Running")) true); reflexivity.
Defined.

Lemma recovery_of_destroyed_witness :
  calls (snd (recover_instance default_params (vm "Destroyed")
                (cached (plain_script "Stopped") (vm "Destroyed"))))
  = [Invoke "recoverVirtualMachine" [("id", VStr "vm-1")]]
  /\ changed (snd (recover_instance default_params (vm "Destroyed")
                     (cached (plain_script "Stopped") (vm "Destroyed"))))
     = true.
Proof.
  destruct (recovery_of_destroyed (cp:=scripted) default_params
              (cached (plain_script "Stopped") (vm "Destroyed"))
              (vm "Destroyed") (live_vm "Destroyed" []))
    as (Hcalls & Hchanged & _).
  split; [exact Hcalls | exact Hchanged].
Defined.

Lemma absent_target_calls_witness :
  exists polls,
    waits (task [("state", VStr "absent")] false) polls
    /\ calls (snd (main (task [("state", VStr "absent")] false)
                        (cached (plain_script "Destroyed") (vm "Running"))))
       = Invoke "destroyVirtualMachine" [("id", VStr "vm-1")] :: polls
    /\ changed (snd (main (task [("state", VStr "absent")] false)
                          (cached (plain_script "Destroyed") (vm "Running"))))
       = true.
Proof.
  apply (absent_target_calls (cp:=scripted)
           (task [("state", VStr "absent")] false)
           (cached (plain_script "Destroyed") (vm "Running"))
           (cached (plain_script "Destroyed") (vm "Running"))
           (vm "Running")).
  - reflexivity.
  - reflexivity.
  - intros _. apply (live_vm "Running" []).
Defined.

Lemma stop_of_running_witness :
  exists polls,
    waits default_params polls
    /\ calls (snd (stop_instance default_params
                     (cached (plain_script "Stopped") (vm "Running"))))
       = Invoke "stopVirtualMachine" [("id", VStr "vm-1")] :: polls
    /\ changed (snd (stop_instance default_params
                       (cached (plain_script "Stopped") (vm "Running"))))
       = true.
Proof.
  destruct (stop_of_running (cp:=scripted) default_params
              (cached (plain_script "Stopped") (vm "Running"))
              (cached (plain_script "Stopped") (vm "Running"))
              (vm "Running") eq_refl (live_vm "Running" []) eq_refl)
    as (polls & Hw & Hcalls & Hchanged & _).
  exists polls. split; [exact Hw |]. split; [exact Hcalls | exact Hchanged].
Defined.

Lemma start_of_stopped_witness :
  exists polls,
    waits (task [("host", VStr "node-2")] false) polls
    /\ calls (snd (start_instance (task [("host", VStr "node-2")] false)
                     (cached (zone_with "Running") (vm "Stopped"))))
       = Invoke "startVirtualMachine"
                [("id", VStr "vm-1"); ("hostid", VStr "h-2")] :: polls.
Proof.
  destruct (start_of_stopped (cp:=scripted)
              (task [("host", VStr "node-2")] false)
              (cached (zone_with "Running") (vm "Stopped"))
              (cached (zone_with "Running") (vm "Stopped"))
              (vm "Stopped") eq_refl (live_vm "Stopped" []) eq_refl)
    as (_ & H).
  destruct (H eq_refl) as (_ & Hcalls). exact Hcalls.
Defined.

Lemma restart_by_state_witness :
  restart_instance default_params
                   (cached (plain_script "Running") (vm "Stopped"))
  = start_instance default_params
                   (cached (plain_script "Running") (vm "Stopped"))
  /\ restart_instance default_params
                      (cached (plain_script "Running") (vm "Error"))
     = (Ok (vm "Error"), cached (plain_script "Running") (vm "Error")).
Proof.
  split.
  - destruct (restart_by_state (cp:=scripted) default_params
                (cached (plain_script "Running") (vm "Stopped"))
                (cached (plain_script "Running") (vm "Stopped"))
                (vm "Stopped") eq_refl (live_vm "Stopped" []))
      as (_ & H & _).
    apply H. reflexivity.
  - destruct (restart_by_state (cp:=scripted) default_params
                (cached (plain_script "Running") (vm "Error"))
                (cached (plain_script "Running") (vm "Error"))
                (vm "Error") eq_refl (live_vm "Error" []))
      as (_ & _ & H).
    destruct (H eq_refl) as (Hr & _). exact Hr.
Defined.

Lemma restore_whatever_the_mode_witness :
  exists polls,
    waits (task [("template", VStr "Debian 12"); ("state", VStr "restored")]
                true) polls
    /\ calls (snd (restore_instance
                     (task [("template", VStr "Debian 12");
                            ("state", VStr "restored")] true)
                     (cached (images_script "Running") (vm "Running"))))
       = Invoke "restoreVirtualMachine"
                [("templateid", VStr "t-1");
                 ("virtualmachineid", VStr "vm-1")] :: polls
    /\ changed (snd (restore_instance
                       (task [("template", VStr "Debian 12");
                              ("state", VStr "restored")] true)
                       (cached (images_script "Running") (vm "Running"))))
       = true.
Proof.
  destruct (restore_whatever_the_mode (cp:=scripted)
              (task [("template", VStr "Debian 12");
                     ("state", VStr "restored")] true)
              (cached (images_script "Running") (vm "Running"))
              (cached (images_script "Running") (vm "Running"))
              (vm "Running") eq_refl)
    as (_ & H).
  apply (H (live_vm "Running" []) (VStr "t-1")
           (mkSt (images_script "Running") (vm "Running")
                 (image "t-1" "Debian 12" (20 * 2 ^ 30)) VNone true [] [])).
  reflexivity.
Defined.

Lemma update_nothing_to_do_witness :
  fst (update_instance default_params (vm "Running") true
                       (cached (plain_script "Running") (vm "Running")))
  = Ok (snd (detected default_params (vm "Running")
                      (cached (plain_script "Running") (vm "Running"))))
  /\ calls (snd (update_instance default_params (vm "Running") true
                   (cached (plain_script "Running") (vm "Running"))))
     = []
  /\ changed (snd (update_instance default_params (vm "Running") true
                     (cached (plain_script "Running") (vm "Running"))))
     = false.
Proof.
  destruct (update_nothing_to_do (cp:=scripted) default_params
              (cached (plain_script "Running") (vm "Running"))
              (vm "Running") true
              (fst (detected default_params (vm "Running")
                             (cached (plain_script "Running") (vm "Running"))))
              (snd (detected default_params (vm "Running")
                             (cached (plain_script "Running") (vm "Running")))))
    as (Hr & _ & Hcalls & _ & Hchanged & _).
  - reflexivity.
  - reflexivity.
  - apply (live_vm "Running" []).
  - reflexivity.
  - split; [exact Hr |]. split; [exact Hcalls | exact Hchanged].
Defined.

Lemma migration_to_host_witness :
  exists polls,
    Forall is_poll polls
    /\ calls (snd (migrate_host (task [("host", VStr "node-2")] false)
                     (web_vm "Running")
                     (cached (zone_with "Running") (web_vm "Running"))))
       = Invoke "migrateVirtualMachine"
                [("virtualmachineid", VStr "vm-1"); ("hostid", VStr "h-2")]
         :: polls
    /\ (exists j, polls = [PollJob j "virtualmachine"]).
Proof.
  destruct (migration_to_host (cp:=scripted)
              (task [("host", VStr "node-2")] false)
              (cached (zone_with "Running") (web_vm "Running"))
              (web_vm "Running") (live_machine_on _ _ _ _) eq_refl)
    as (_ & _ & H).
  destruct (H eq_refl) as (polls & Hp & Hcalls & Hwait).
  exists polls. split; [exact Hp |]. split; [exact Hcalls |].
  apply Hwait. reflexivity.
Defined.

Lemma check_mode_submits_nothing_witness :
  submits_nothing
    (fresh (zone_with "Running"))
    (main (task [("state", VStr "stopped"); ("service_offering", VStr "Small");
                 ("force", VBool true)] true)
          (fresh (zone_with "Running")))
  /\ changed (snd (main (task [("state", VStr "stopped");
                               ("service_offering", VStr "Small");
                               ("force", VBool true)] true)
                        (fresh (zone_with "Running"))))
     = true.
Proof.
  split; [| reflexivity].
  apply (check_mode_submits_nothing (cp:=scripted)
           (task [("state", VStr "stopped"); ("service_offering", VStr "Small");
                  ("force", VBool true)] true)
           (fresh (zone_with "Running"))); reflexivity.
Defined.


Lemma result_projection_witness :
  exists result,
    get_result default_params base_result (fresh (zone_with "Running"))
    = (Ok result,
       cached (zone_with "Running") (with_keypairs_list (web_vm "Running")))
    /\ field (VDict result) "id" = VStr "vm-1"
    /\ field (VDict result) "user_data" = VStr ""
    /\ field (VDict result) "security_groups"
       = VList [VStr "default"; VStr "web"]
    /\ field (VDict result) "affinity_groups" = VNone
    /\ field (VDict result) "default_ip" = VStr "10.0.0.7"
    /\ field (VDict result) "default_ip6" = VStr "fd00::7".
Proof.
  destruct (result_projection (cp:=scripted) default_params
              (fresh (zone_with "Running"))
              (cached (zone_with "Running")
                      (with_keypairs_list (web_vm "Running")))
              base_result
              (match with_keypairs_list (web_vm "Running") with
               | VDict d => d
               | _ => []
               end)
              (VStr ""))
    as (result & Hrun & Hk).
  - reflexivity.
  - reflexivity.
  - reflexivity.
  - exists [listed "sg-1" "default"; listed "sg-2" "web"].
    split; [reflexivity |]. repeat constructor; repeat eexists.
  - exact I.
  - eexists. split; [reflexivity |]. repeat constructor; repeat eexists.
  - exists result. split; [exact Hrun |].
    repeat split; rewrite Hk; reflexivity.
Defined.

Lemma user_data_resolution_witness :
  get_user_data_id_by_name
    (task [("user_data_name", VStr "cloud-init")] false)
    (fresh (zone_with "Running"))
  = (Ok (VStr "ud-1"), fresh (zone_with "Running")).
Proof.
  destruct (user_data_resolution (cp:=scripted)
              (task [("user_data_name", VStr "cloud-init")] false)
              (fresh (zone_with "Running")) VNone VNone VNone _
              eq_refl eq_refl eq_refl eq_refl eq_refl)
    as (_ & H).
  apply (H _ [listed "ud-1" "cloud-init"] eq_refl eq_refl eq_refl).
  repeat constructor; apply entry_listed.
Defined.

Lemma present_then_cached_witness :
  get_instance default_params false
    (cached (zone_with "Running") (with_keypairs_list (web_vm "Running")))
  = (Ok (with_keypairs_list (web_vm "Running")),
     cached (zone_with "Running") (with_keypairs_list (web_vm "Running"))).
Proof.
  destruct (present_then_cached (cp:=scripted) default_params
              (fresh (zone_with "Running"))
              (cached (zone_with "Running")
                      (with_keypairs_list (web_vm "Running")))
              true (with_keypairs_list (web_vm "Running")))
    as (_ & H).
  - reflexivity.
  - reflexivity.
  - exact H.
Defined.

Lemma ssh_keys_unknown_key_fails_witness :
  ssh_keys_changed (task [("ssh_keys", VList [VStr "k1"; VStr "k9"])] false)
                   (cached (keys_script "Stopped") (vm_with_keys "Stopped" ["k1"]))
  = (Fail "SSH key not found: k9",
     cached (keys_script "Stopped") (vm_with_keys "Stopped" ["k1"])).
Proof.
  destruct (ssh_keys_unknown_key_fails (cp:=scripted)
              (task [("ssh_keys", VList [VStr "k1"; VStr "k9"])] false)
              (cached (keys_script "Stopped") (vm_with_keys "Stopped" ["k1"]))
              (match vm_with_keys "Stopped" ["k1"] with
               | VDict d => d
               | _ => []
               end)
              ["k1"] [] "k9" [VStr "aa:11"] VNone VNone VNone [])
    as (H & _).
  - reflexivity.
  - reflexivity.
  - repeat constructor.
  - reflexivity.
  - reflexivity.
  - reflexivity.
  - reflexivity.
  - reflexivity.
  - exact H.
Defined.

Lemma update_in_check_mode_witness :
  fst (update_instance (task [("service_offering", VStr "Small")] true)
                       (vm "Stopped") true
                       (cached (zone_with "Running") (vm "Stopped")))
  = Ok (snd (detected (task [("service_offering", VStr "Small")] true)
                      (vm "Stopped")
                      (cached (zone_with "Running") (vm "Stopped"))))
  /\ calls (snd (update_instance
                   (task [("service_offering", VStr "Small")] true)
                   (vm "Stopped") true
                   (cached (zone_with "Running") (vm "Stopped"))))
     = []
  /\ changed (snd (update_instance
                     (task [("service_offering", VStr "Small")] true)
                     (vm "Stopped") true
                     (cached (zone_with "Running") (vm "Stopped"))))
     = true.
Proof.
  destruct (update_in_check_mode (cp:=scripted)
              (task [("service_offering", VStr "Small")] true)
              (cached (zone_with "Running") (vm "Stopped"))
              (vm "Stopped") true
              (fst (detected (task [("service_offering", VStr "Small")] true)
                             (vm "Stopped")
                             (cached (zone_with "Running") (vm "Stopped"))))
              (snd (detected (task [("service_offering", VStr "Small")] true)
                             (vm "Stopped")
                             (cached (zone_with "Running") (vm "Stopped"))))
              "Stopped")
    as (Hr & _ & Hcalls & _ & Hchanged & _).
  - reflexivity.
  - reflexivity.
  - reflexivity.
  - left. reflexivity.
  - reflexivity.
  - reflexivity.
  - split; [exact Hr |]. split; [exact Hcalls | exact Hchanged].
Defined.

(** A deployment from a template, with a network and a service offering:
    one call, and the wait for its job. *)
Example deploy_trace :
  labels (calls (snd (deploy_instance
                        (task [("template", VStr "Debian 12");
                               ("networks", VList [VStr "net-a"])] false)
                        false (fresh (images_script "Stopped")))))
  = [LCall "deployVirtualMachine"; LPoll "virtualmachine"].
Proof. reflexivity. Qed.

(** The number of CPUs of the task overrides that of the details; a
    memory of zero counts as not given. *)
Example details_of_task :
  get_details (task [("cpu", VInt 4); ("memory", VInt 0);
                     ("details", VDict [("cpuNumber", VInt 2);
                                        ("memory", VInt 512)])] false)
  = VDict [("cpuNumber", VInt 4); ("memory", VInt 512)].
Proof. reflexivity. Qed.

(** Expunging an instance that is in the state [error]: the destroy is
    submitted and the module fails. *)
Example expunge_in_error_state :
  let r := main (task [("state", VStr "expunged")] false)
                (cached (plain_script "Expunging") (vm "Error")) in
  fst r = Fail "Instance named 'web-vm-1' in error state."
  /\ labels (calls (snd r))
     = [LCall "destroyVirtualMachine"; LPoll "virtualmachine"].
Proof. split; reflexivity. Qed.
